(** * Sales, invoices and authorization of the business-management server

    A shallow embedding of [server/storage.ts] (class [DatabaseStorage]),
    of the route handlers of [server/routes.ts] that create sales, update
    invoices and manage businesses, products and employees, and of the
    tables of [shared/schema.ts] they work on.  The listings ordered by
    creation time ([getProducts], [getSales], [getInvoices] and their
    routes) and the identity provider of [supabaseAuth.ts] are left out.

    Conventions of the embedding.
    - A table is the list of its rows in insertion order; a query
      [const [row] = await db.select()...where(c)] is the first row that
      satisfies [c].
    - Each [await db.insert/update] is a statement of its own: the storage
      layer opens no transaction, so a statement that fails leaves the
      statements before it in place.  Storage operations are therefore
      state-passing functions that return the database together with
      either a value or the error thrown, [Storage A].
    - The constraints written in the schema are checked by the statement
      that could break them: primary keys, [unique()] and [references()],
      and for every insert, and for the stock update of a sale, the range of
      the column written ([varchar(n)], [integer], [decimal(10,2)]).  The
      updates of products and businesses are modelled for bodies inside
      these ranges.  Other database errors (a lost connection) are outside
      the model.
    - A stored [decimal(10,2)] value is an integer counting hundredths; the
      handler's [parseFloat(price) * quantity] and [+=] are the product and
      sum of these integers.  An amount on its way to the database is a
      text, [NumericText], which the column rounds to hundredths when it is
      stored.
    - A string is a sequence of characters the database can store, each one
      below 256; its length is what [.length], zod's [min] and [varchar(n)]
      count.
    - The order of the rows of a table is kept by updates; it stands for the
      identity of the rows and says nothing about the order in which a
      query without [orderBy] returns them.
    - [Date.now()], [new Date()] and [gen_random_uuid()] are read from an
      environment [Env] given to each request. *)

From Stdlib Require Import List String Ascii ZArith Lia Bool.
Import ListNotations.
Local Open Scope string_scope.
Local Open Scope Z_scope.

(** ** shared/schema.ts *)

Definition Timestamp := Z.
Definition Decimal := Z.

(** The text of an amount.  [totalAmount], [unitPrice] and [totalPrice] are
    strings in the request bodies ([z.string()]) and in [InsertSale] and
    [InsertSaleItem] (drizzle's [decimal] columns); they become numbers in the
    database, when the statement that stores them casts them to
    [decimal(10,2)].  A text is represented by what the numeric input of the
    database reads from it: nothing such a column accepts ([NotNumeric]:
    "abc", the empty string, "Infinity"), or the decimal number
    [mantissa / 10 ^ scale], so that "0.03" is [Dec 3 2], "1e2" is
    [Dec 100 0] and "0.21000000000000002" is [Dec 21000000000000002 17].
    The text "NaN", which a numeric column stores as it is, is not
    represented: a stored amount is a number. *)
Inductive NumericText :=
| NotNumeric
| Dec (mantissa : Z) (scale : nat).

(** The text of a whole number of hundredths: what the database returns
    for a [decimal(10,2)] column ("100.00"), and what [toString()] of the
    handler's products and sums denotes. *)
Definition text (d : Decimal) : NumericText := Dec d 2.

(** [mantissa / 10 ^ scale] in hundredths, rounded half away from zero as
    the numeric type rounds. *)
Definition round_half_away (mantissa : Z) (scale : nat) : Decimal :=
  match scale with
  | 0%nat => mantissa * 100
  | 1%nat => mantissa * 10
  | 2%nat => mantissa
  | S (S (S more)) =>
      let d := 10 ^ Z.of_nat (S more) in
      Z.sgn mantissa * ((Z.abs mantissa + d / 2) / d)
  end.

(** A [decimal(10,2)] column holds up to eight digits before the point. *)
Definition fits_10_2 (d : Decimal) : bool := Z.abs d <? 10 ^ 10.

(** The cast of a text to [decimal(10,2)]: [None] is the error the database
    raises for a text that is no number ("invalid input syntax for type
    numeric") or that rounds to more than eight digits before the point
    ("numeric field overflow"). *)
Definition decimal_10_2 (t : NumericText) : option Decimal :=
  match t with
  | NotNumeric => None
  | Dec mantissa scale =>
      let d := round_half_away mantissa scale in
      if fits_10_2 d then Some d else None
  end.

(** The values of an [integer] column, and the texts of a [varchar(n)]. *)
Definition integer (n : Z) : bool :=
  (- 2147483648 <=? n) && (n <=? 2147483647).

Definition varchar (n : nat) (s : string) : bool :=
  (String.length s <=? n)%nat.

Inductive SaleStatus := SalePending | SaleCompleted | SaleCancelled.
Inductive SaleSource := SourceWeb | SourceGame.
Inductive InvoiceStatus := InvoicePending | InvoicePaid | InvoiceCancelled.
Inductive EmployeeRole := RoleManager | RoleEmployee.

Module User.
Record t := mk { id : string; email : option string }.
End User.

Module Business.
Record t := mk {
    id : string;
    name : string;
    ownerId : string;
    apiKey : option string
  }.
End Business.

Module BusinessEmployee.
Record t := mk {
    id : string;
    businessId : string;
    userId : string;
    role : option EmployeeRole
  }.
End BusinessEmployee.

Module Product.
Record t := mk {
    id : string;
    businessId : string;
    name : string;
    description : option string;
    price : Decimal;
    stock : option Z;
    category : option string;
    isActive : option bool;
    updatedAt : option Timestamp
  }.
End Product.

Module Sale.
Record t := mk {
    id : string;
    businessId : string;
    sellerId : string;
    buyerName : string;
    buyerInfo : option string;
    totalAmount : Decimal;
    status : option SaleStatus;
    source : option SaleSource;
    createdAt : option Timestamp
  }.
End Sale.

Module SaleItem.
Record t := mk {
    id : string;
    saleId : string;
    productId : string;
    productName : string;
    quantity : Z;
    unitPrice : Decimal;
    totalPrice : Decimal
  }.
End SaleItem.

Module Invoice.
Record t := mk {
    id : string;
    saleId : string;
    invoiceNumber : string;
    status : option InvoiceStatus;
    issueDate : option Timestamp;
    dueDate : option Timestamp;
    paidAt : option Timestamp
  }.
End Invoice.

(** [InsertSale]: a sale row without [id] and [createdAt]. *)
Module InsertSale.
Record t := mk {
    businessId : string;
    sellerId : string;
    buyerName : string;
    buyerInfo : option string;
    totalAmount : NumericText;
    status : option SaleStatus;
    source : option SaleSource
  }.
End InsertSale.

(** [Omit<InsertSaleItem, "saleId">]. *)
Module InsertSaleItem.
Record t := mk {
    productId : string;
    productName : string;
    quantity : Z;
    unitPrice : NumericText;
    totalPrice : NumericText
  }.
End InsertSaleItem.

(** [Partial<InsertProduct>], the type [updateProduct] declares for the
    body of [PATCH /api/products/:id]: [None] is an absent key; for a
    nullable column the inner [None] is JSON [null]. *)
Module ProductPatch.
Record t := mk {
    businessId : option string;
    name : option string;
    description : option (option string);
    price : option Decimal;
    stock : option (option Z);
    category : option (option string);
    isActive : option (option bool)
  }.
End ProductPatch.

(** The keys of [Partial<Invoice>] that [updateInvoice] or its caller
    mention. *)
Module InvoicePatch.
Record t := mk {
    status : option (option InvoiceStatus);
    dueDate : option (option Timestamp);
    paidAt : option (option Timestamp)
  }.
End InvoicePatch.

(** ** The database *)

Record Db := mkDb {
  users : list User.t;
  businesses : list Business.t;
  businessEmployees : list BusinessEmployee.t;
  products : list Product.t;
  sales : list Sale.t;
  saleItems : list SaleItem.t;
  invoices : list Invoice.t
}.

Definition set_products (ps : list Product.t) (db : Db) : Db :=
  mkDb (users db) (businesses db) (businessEmployees db) ps
       (sales db) (saleItems db) (invoices db).

Definition set_sales (ss : list Sale.t) (db : Db) : Db :=
  mkDb (users db) (businesses db) (businessEmployees db) (products db)
       ss (saleItems db) (invoices db).

Definition set_saleItems (its : list SaleItem.t) (db : Db) : Db :=
  mkDb (users db) (businesses db) (businessEmployees db) (products db)
       (sales db) its (invoices db).

Definition set_invoices (ivs : list Invoice.t) (db : Db) : Db :=
  mkDb (users db) (businesses db) (businessEmployees db) (products db)
       (sales db) (saleItems db) ivs.

Record Env := mkEnv {
  now : Timestamp;
  gen_random_uuid : nat -> string
}.

(** What a storage call throws: an error of the database, or one of the
    query builder before the statement is sent. *)
Inductive DbError :=
| UniqueViolation (constraint : string)
| ForeignKeyViolation (constraint : string)
| DataException (column : string)
| BuilderError (message : string).

Inductive outcome (A : Type) :=
| Returned (a : A)
| Thrown (e : DbError).
Arguments Returned {A} a.
Arguments Thrown {A} e.

Definition Storage (A : Type) := Db -> Db * outcome A.

Definition ret {A} (a : A) : Storage A := fun db => (db, Returned a).

Definition bind {A B} (m : Storage A) (k : A -> Storage B) : Storage B :=
  fun db =>
    match m db with
    | (db1, Returned a) => k a db1
    | (db1, Thrown e) => (db1, Thrown e)
    end.

Notation "x <- m ;; k" := (bind m (fun x => k))
  (at level 61, m at next level, right associativity).
Notation "m ;;; k" := (bind m (fun _ => k))
  (at level 61, right associativity).

Definition has_id (ids : list string) (id : string) : bool :=
  existsb (String.eqb id) ids.

(** ** server/storage.ts: reads *)

Definition getBusinessByApiKey (db : Db) (apiKey : string)
  : option Business.t :=
  find (fun b => match Business.apiKey b with
                 | Some k => String.eqb k apiKey
                 | None => false
                 end)
       (businesses db).

Definition getProduct (db : Db) (id : string) : option Product.t :=
  find (fun p => String.eqb (Product.id p) id) (products db).

Definition getInvoice (db : Db) (id : string)
  : option (Invoice.t * option Sale.t) :=
  match find (fun i => String.eqb (Invoice.id i) id) (invoices db) with
  | Some i =>
      Some (i, find (fun s => String.eqb (Sale.id s) (Invoice.saleId i))
                    (sales db))
  | None => None
  end.

Definition isUserAuthorizedForBusiness (db : Db) (userId businessId : string)
  : bool :=
  match filter (fun b => String.eqb (Business.id b) businessId
                         && String.eqb (Business.ownerId b) userId)
               (businesses db) with
  | business :: _ => true
  | [] =>
      match filter (fun e => String.eqb (BusinessEmployee.businessId e) businessId
                             && String.eqb (BusinessEmployee.userId e) userId)
                   (businessEmployees db) with
      | employee :: _ => true
      | [] => false
      end
  end.

(** ** server/storage.ts: single statements *)

Definition default {A} (d : A) (v : option A) : option A :=
  match v with
  | Some a => Some a
  | None => Some d
  end.

(** [db.insert(sales).values(saleData).returning()] *)
Definition insert_sales (env : Env) (id : string) (v : InsertSale.t)
  : Storage Sale.t :=
  fun db =>
    if negb (varchar 255 (InsertSale.buyerName v)) then
      (db, Thrown (DataException "sales.buyer_name"))
    else
      match decimal_10_2 (InsertSale.totalAmount v) with
      | None => (db, Thrown (DataException "sales.total_amount"))
      | Some totalAmount =>
          if has_id (map Sale.id (sales db)) id then
            (db, Thrown (UniqueViolation "sales_pkey"))
          else if negb (has_id (map Business.id (businesses db))
                               (InsertSale.businessId v)) then
            (db, Thrown (ForeignKeyViolation "sales_business_id"))
          else if negb (has_id (map User.id (users db))
                               (InsertSale.sellerId v)) then
            (db, Thrown (ForeignKeyViolation "sales_seller_id"))
          else
            let row := Sale.mk id (InsertSale.businessId v)
                         (InsertSale.sellerId v) (InsertSale.buyerName v)
                         (InsertSale.buyerInfo v) totalAmount
                         (default SaleCompleted (InsertSale.status v))
                         (default SourceWeb (InsertSale.source v))
                         (Some (now env)) in
            (set_sales (sales db ++ [row]) db, Returned row)
      end.

(** [db.insert(saleItems).values({ ...item, saleId })] *)
Definition insert_saleItems (id saleId : string) (item : InsertSaleItem.t)
  : Storage unit :=
  fun db =>
    if negb (varchar 255 (InsertSaleItem.productName item)) then
      (db, Thrown (DataException "sale_items.product_name"))
    else if negb (integer (InsertSaleItem.quantity item)) then
      (db, Thrown (DataException "sale_items.quantity"))
    else
      match decimal_10_2 (InsertSaleItem.unitPrice item),
            decimal_10_2 (InsertSaleItem.totalPrice item) with
      | Some unitPrice, Some totalPrice =>
          if has_id (map SaleItem.id (saleItems db)) id then
            (db, Thrown (UniqueViolation "sale_items_pkey"))
          else if negb (has_id (map Sale.id (sales db)) saleId) then
            (db, Thrown (ForeignKeyViolation "sale_items_sale_id"))
          else if negb (has_id (map Product.id (products db))
                               (InsertSaleItem.productId item)) then
            (db, Thrown (ForeignKeyViolation "sale_items_product_id"))
          else
            let row := SaleItem.mk id saleId (InsertSaleItem.productId item)
                         (InsertSaleItem.productName item)
                         (InsertSaleItem.quantity item) unitPrice totalPrice in
            (set_saleItems (saleItems db ++ [row]) db, Returned tt)
      | None, _ => (db, Thrown (DataException "sale_items.unit_price"))
      | Some _, None => (db, Thrown (DataException "sale_items.total_price"))
      end.

Definition decrement (env : Env) (productId : string) (quantity : Z)
  (p : Product.t) : Product.t :=
  if String.eqb (Product.id p) productId then
    Product.mk (Product.id p) (Product.businessId p) (Product.name p)
      (Product.description p) (Product.price p)
      (option_map (fun s => s - quantity) (Product.stock p))
      (Product.category p) (Product.isActive p) (Some (now env))
  else p.

(** The new stock of [p] would leave the range of its column. *)
Definition overdrawn (productId : string) (quantity : Z) (p : Product.t)
  : bool :=
  String.eqb (Product.id p) productId
  && match Product.stock p with
     | Some s => negb (integer (s - quantity))
     | None => false
     end.

(** [db.update(products).set({ stock: sql`stock - quantity`, updatedAt })
      .where(eq(products.id, productId))]; [quantity] is a parameter of
    the statement, read as an [integer]. *)
Definition update_stock (env : Env) (productId : string) (quantity : Z)
  : Storage unit :=
  fun db =>
    if negb (integer quantity) then
      (db, Thrown (DataException "integer"))
    else if existsb (overdrawn productId quantity) (products db) then
      (db, Thrown (DataException "products.stock"))
    else
      (set_products (map (decrement env productId quantity) (products db)) db,
       Returned tt).

(** [db.insert(invoices).values({ saleId, invoiceNumber, status: "pending" })
      .returning()] *)
Definition insert_invoices (env : Env) (id saleId invoiceNumber : string)
  : Storage Invoice.t :=
  fun db =>
    if negb (varchar 50 invoiceNumber) then
      (db, Thrown (DataException "invoices.invoice_number"))
    else if has_id (map Invoice.id (invoices db)) id then
      (db, Thrown (UniqueViolation "invoices_pkey"))
    else if negb (has_id (map Sale.id (sales db)) saleId) then
      (db, Thrown (ForeignKeyViolation "invoices_sale_id"))
    else if has_id (map Invoice.invoiceNumber (invoices db)) invoiceNumber then
      (db, Thrown (UniqueViolation "invoices_invoice_number_unique"))
    else
      let row := Invoice.mk id saleId invoiceNumber (Some InvoicePending)
                   (Some (now env)) None None in
      (set_invoices (invoices db ++ [row]) db, Returned row).

(** ** [Number.prototype.toString(36)] and [String.prototype.toUpperCase] *)

Definition digit36 (d : Z) : ascii :=
  if d <? 10 then ascii_of_nat (Z.to_nat (48 + d))
  else ascii_of_nat (Z.to_nat (87 + d)).

Fixpoint toString36_digits (fuel : nat) (n : Z) (acc : string) : string :=
  match fuel with
  | O => acc
  | S fuel' =>
      let acc' := String (digit36 (n mod 36)) acc in
      if n / 36 =? 0 then acc' else toString36_digits fuel' (n / 36) acc'
  end.

Definition toString36 (n : Z) : string :=
  if n <? 0 then
    "-" ++ toString36_digits (S (Z.to_nat (Z.log2 (- n)))) (- n) ""
  else toString36_digits (S (Z.to_nat (Z.log2 n))) n "".

Definition upper (c : ascii) : ascii :=
  let n := nat_of_ascii c in
  if ((97 <=? n) && (n <=? 122))%nat then ascii_of_nat (n - 32) else c.

Fixpoint toUpperCase (s : string) : string :=
  match s with
  | EmptyString => EmptyString
  | String c rest => String (upper c) (toUpperCase rest)
  end.

(** ** [DatabaseStorage.createSale] *)

(** The body of [for (const item of items)]; the [k]-th generated id
    goes to the row inserted. *)
Fixpoint createSale_items (env : Env) (saleId : string) (k : nat)
  (items : list InsertSaleItem.t) : Storage unit :=
  match items with
  | [] => ret tt
  | item :: rest =>
      insert_saleItems (gen_random_uuid env k) saleId item ;;;
      update_stock env (InsertSaleItem.productId item)
                   (InsertSaleItem.quantity item) ;;;
      createSale_items env saleId (S k) rest
  end.

Definition invoiceNumberAt (t : Timestamp) : string :=
  "INV-" ++ toUpperCase (toString36 t).

Definition createSale (env : Env) (saleData : InsertSale.t)
  (items : list InsertSaleItem.t) : Storage (Sale.t * Invoice.t) :=
  sale <- insert_sales env (gen_random_uuid env 0) saleData ;;
  createSale_items env (Sale.id sale) 1 items ;;;
  let invoiceNumber := invoiceNumberAt (now env) in
  invoice <- insert_invoices env (gen_random_uuid env (S (List.length items)))
                             (Sale.id sale) invoiceNumber ;;
  ret (sale, invoice).

(** ** [DatabaseStorage.updateProduct] and [DatabaseStorage.updateInvoice] *)

Definition or_else {A} (v : option A) (old : A) : A :=
  match v with
  | Some a => a
  | None => old
  end.

(** [.set({ ...product, updatedAt: new Date() })] on one row. *)
Definition set_product (env : Env) (patch : ProductPatch.t) (p : Product.t)
  : Product.t :=
  Product.mk (Product.id p)
    (or_else (ProductPatch.businessId patch) (Product.businessId p))
    (or_else (ProductPatch.name patch) (Product.name p))
    (or_else (ProductPatch.description patch) (Product.description p))
    (or_else (ProductPatch.price patch) (Product.price p))
    (or_else (ProductPatch.stock patch) (Product.stock p))
    (or_else (ProductPatch.category patch) (Product.category p))
    (or_else (ProductPatch.isActive patch) (Product.isActive p))
    (Some (now env)).

Definition updateProduct (env : Env) (id : string) (product : ProductPatch.t)
  : Storage (option Product.t) :=
  fun db =>
    let hit := fun p => String.eqb (Product.id p) id in
    let dangling :=
      match ProductPatch.businessId product with
      | Some b => negb (has_id (map Business.id (businesses db)) b)
      | None => false
      end in
    if existsb hit (products db) && dangling then
      (db, Thrown (ForeignKeyViolation "products_business_id"))
    else
      let rows := map (fun p => if hit p then set_product env product p else p)
                      (products db) in
      (set_products rows db, Returned (find hit rows)).

Definition set_invoice (updateData : InvoicePatch.t) (i : Invoice.t)
  : Invoice.t :=
  Invoice.mk (Invoice.id i) (Invoice.saleId i) (Invoice.invoiceNumber i)
    (or_else (InvoicePatch.status updateData) (Invoice.status i))
    (Invoice.issueDate i)
    (or_else (InvoicePatch.dueDate updateData) (Invoice.dueDate i))
    (or_else (InvoicePatch.paidAt updateData) (Invoice.paidAt i)).

(** [data.status === "paid" && !data.paidAt] *)
Definition stamps_paidAt (data : InvoicePatch.t) : bool :=
  match InvoicePatch.status data, InvoicePatch.paidAt data with
  | Some (Some InvoicePaid), None => true
  | Some (Some InvoicePaid), Some None => true
  | _, _ => false
  end.

(** [.set(updateData)] with no key to set is refused by the query
    builder. *)
Definition updateInvoice (env : Env) (id : string) (data : InvoicePatch.t)
  : Storage (option Invoice.t) :=
  fun db =>
    let updateData :=
      if stamps_paidAt data then
        InvoicePatch.mk (InvoicePatch.status data) (InvoicePatch.dueDate data)
                        (Some (Some (now env)))
      else data in
    match InvoicePatch.status updateData, InvoicePatch.dueDate updateData,
          InvoicePatch.paidAt updateData with
    | None, None, None => (db, Thrown (BuilderError "No values to set"))
    | _, _, _ =>
        let hit := fun i => String.eqb (Invoice.id i) id in
        let rows := map (fun i => if hit i then set_invoice updateData i else i)
                        (invoices db) in
        (set_invoices rows db, Returned (find hit rows))
    end.

(** ** server/routes.ts *)

Inductive Body :=
| Message (message : string)
| SaleJson (sale : Sale.t) (invoice : Invoice.t)
| GameSaleJson (saleId invoiceNumber : string) (totalAmount : Decimal)
| ProductJson (product : option Product.t)
| InvoiceJson (invoice : option Invoice.t).

Record Response := mkResponse { status : Z; body : Body }.

Definition json (code : Z) (message : string) : Response :=
  mkResponse code (Message message).

(** Request body of [POST /api/sales]. *)
Module SalesBody.
Record t := mk {
    businessId : string;
    buyerName : string;
    buyerInfo : option string;
    totalAmount : NumericText;
    status : option SaleStatus;
    source : option SaleSource;
    items : list InsertSaleItem.t
  }.
End SalesBody.

Module GameItem.
Record t := mk { productId : string; quantity : Z }.
End GameItem.

(** Request body of [POST /api/game/sales]. *)
Module GameSalesBody.
Record t := mk {
    businessApiKey : string;
    buyerName : string;
    buyerInfo : option string;
    sellerId : option string;
    items : list GameItem.t
  }.
End GameSalesBody.

(** Request body of [PATCH /api/invoices/:id]; [dueDate: z.string()]. *)
Module InvoiceBody.
Record t := mk {
    status : option InvoiceStatus;
    dueDate : option string
  }.
End InvoiceBody.

(** What [schema.parse] checks beyond the types of the fields:
    [buyerName: z.string().min(1)] and
    [quantity: z.number().int().positive()]. *)
Definition nonempty (s : string) : bool :=
  match s with
  | EmptyString => false
  | String _ _ => true
  end.

Definition sales_schema (data : SalesBody.t) : bool :=
  nonempty (SalesBody.buyerName data)
  && forallb (fun i => 0 <? InsertSaleItem.quantity i) (SalesBody.items data).

Definition game_schema (data : GameSalesBody.t) : bool :=
  nonempty (GameSalesBody.buyerName data)
  && forallb (fun i => 0 <? GameItem.quantity i) (GameSalesBody.items data).

(** [product.stock || 0] *)
Definition stock_or_0 (p : Product.t) : Z :=
  match Product.stock p with
  | Some s => s
  | None => 0
  end.

(** The three checks made on each line, shared by both handlers. *)
Definition check_line (businessId productId : string) (quantity : Z)
  (found : option Product.t) : Response + Product.t :=
  match found with
  | None => inl (json 400 ("Product " ++ productId ++ " not found"))
  | Some product =>
      if negb (String.eqb (Product.businessId product) businessId) then
        inl (json 400 ("Product " ++ Product.name product
                       ++ " does not belong to this business"))
      else if stock_or_0 product <? quantity then
        inl (json 400 ("Insufficient stock for " ++ Product.name product))
      else inr product
  end.

(** [for (const item of data.items)] of [POST /api/sales]. *)
Fixpoint verify_items (db : Db) (businessId : string)
  (items : list InsertSaleItem.t) : option Response :=
  match items with
  | [] => None
  | item :: rest =>
      match check_line businessId (InsertSaleItem.productId item)
                       (InsertSaleItem.quantity item)
                       (getProduct db (InsertSaleItem.productId item)) with
      | inl response => Some response
      | inr _ => verify_items db businessId rest
      end
  end.

Definition post_sales (env : Env) (userId : string) (data : SalesBody.t)
  (db : Db) : Db * Response :=
  if negb (sales_schema data) then (db, json 400 "Failed to create sale")
  else if negb (isUserAuthorizedForBusiness db userId
                  (SalesBody.businessId data)) then
    (db, json 403 "Not authorized to create sales for this business")
  else
    match verify_items db (SalesBody.businessId data) (SalesBody.items data) with
    | Some response => (db, response)
    | None =>
        let saleData :=
          InsertSale.mk (SalesBody.businessId data) userId
            (SalesBody.buyerName data) (SalesBody.buyerInfo data)
            (SalesBody.totalAmount data) (SalesBody.status data)
            (SalesBody.source data) in
        match createSale env saleData (SalesBody.items data) db with
        | (db', Returned (sale, invoice)) =>
            (db', mkResponse 201 (SaleJson sale invoice))
        | (db', Thrown _) => (db', json 400 "Failed to create sale")
        end
    end.

(** [for (const item of data.items)] of [POST /api/game/sales]: [items]
    and [totalAmount] are the loop's two accumulators. *)
Fixpoint resolve_items (db : Db) (businessId : string)
  (lines : list GameItem.t) (items : list InsertSaleItem.t)
  (totalAmount : Decimal)
  : Response + (list InsertSaleItem.t * Decimal) :=
  match lines with
  | [] => inr (items, totalAmount)
  | item :: rest =>
      match check_line businessId (GameItem.productId item)
                       (GameItem.quantity item)
                       (getProduct db (GameItem.productId item)) with
      | inl response => inl response
      | inr product =>
          let itemTotal := Product.price product * GameItem.quantity item in
          resolve_items db businessId rest
            (items ++ [InsertSaleItem.mk (Product.id product)
                         (Product.name product) (GameItem.quantity item)
                         (text (Product.price product)) (text itemTotal)])
            (totalAmount + itemTotal)
      end
  end.

(** [let sellerId = business.ownerId; if (data.sellerId) { ... }] *)
Definition resolve_seller (db : Db) (business : Business.t)
  (sellerId : option string) : string :=
  match sellerId with
  | Some s =>
      if nonempty s then
        if isUserAuthorizedForBusiness db s (Business.id business) then s
        else Business.ownerId business
      else Business.ownerId business
  | None => Business.ownerId business
  end.

Definition post_game_sales (env : Env) (data : GameSalesBody.t) (db : Db)
  : Db * Response :=
  if negb (game_schema data) then (db, json 400 "Failed to process sale")
  else
    match getBusinessByApiKey db (GameSalesBody.businessApiKey data) with
    | None => (db, json 401 "Invalid API key")
    | Some business =>
        let sellerId :=
          resolve_seller db business (GameSalesBody.sellerId data) in
        match resolve_items db (Business.id business)
                            (GameSalesBody.items data) [] 0 with
        | inl response => (db, response)
        | inr (items, totalAmount) =>
            let saleData :=
              InsertSale.mk (Business.id business) sellerId
                (GameSalesBody.buyerName data) (GameSalesBody.buyerInfo data)
                (text totalAmount) (Some SaleCompleted) (Some SourceGame) in
            match createSale env saleData items db with
            | (db', Returned (sale, invoice)) =>
                (db', mkResponse 201
                        (GameSaleJson (Sale.id sale)
                           (Invoice.invoiceNumber invoice) totalAmount))
            | (db', Thrown _) => (db', json 400 "Failed to process sale")
            end
        end
    end.

(** [const updateData = { ...req.body }; delete updateData.businessId;] *)
Definition delete_businessId (body : ProductPatch.t) : ProductPatch.t :=
  ProductPatch.mk None (ProductPatch.name body)
    (ProductPatch.description body) (ProductPatch.price body)
    (ProductPatch.stock body) (ProductPatch.category body)
    (ProductPatch.isActive body).

Definition patch_products (env : Env) (userId productId : string)
  (body : ProductPatch.t) (db : Db) : Db * Response :=
  match getProduct db productId with
  | None => (db, json 404 "Product not found")
  | Some existingProduct =>
      if negb (isUserAuthorizedForBusiness db userId
                 (Product.businessId existingProduct)) then
        (db, json 403 "Not authorized to update this product")
      else
        let updateData := delete_businessId body in
        match updateProduct env productId updateData db with
        | (db', Returned product) => (db', mkResponse 200 (ProductJson product))
        | (db', Thrown _) => (db', json 400 "Failed to update product")
        end
  end.

Definition patch_invoices (env : Env) (userId invoiceId : string)
  (body : InvoiceBody.t) (db : Db) : Db * Response :=
  match getInvoice db invoiceId with
  | None => (db, json 404 "Invoice not found")
  | Some (existingInvoice, sale) =>
      let forbidden :=
        match sale with
        | Some s => negb (isUserAuthorizedForBusiness db userId
                            (Sale.businessId s))
        | None => false
        end in
      if forbidden then
        (db, json 403 "Not authorized to update this invoice")
      else
        match InvoiceBody.dueDate body with
        | Some dueDate =>
            (* [data as any]: the string goes to the timestamp column as it
               is, and the query builder throws where it calls
               [toISOString()] on it; the handler catches that. *)
            (db, json 400 "Failed to update invoice")
        | None =>
            let data :=
              InvoicePatch.mk (option_map Some (InvoiceBody.status body))
                              None None in
            match updateInvoice env invoiceId data db with
            | (db', Returned invoice) =>
                (db', mkResponse 200 (InvoiceJson invoice))
            | (db', Thrown _) => (db', json 400 "Failed to update invoice")
            end
        end
  end.

(** ** server/storage.ts: businesses, employees and users read *)

(** [BusinessWithRelations]: a business with [owner], [employees] (each
    with its [user]) and [products], as [with: { ... }] loads them. *)
Module BusinessWithRelations.
Record t := mk {
  business : Business.t;
  owner : option User.t;
  employees : list (BusinessEmployee.t * option User.t);
  products : list Product.t
}.
End BusinessWithRelations.

Definition getUser (db : Db) (id : string) : option User.t :=
  find (fun u => String.eqb (User.id u) id) (users db).

Definition getUserByEmail (db : Db) (email : string) : option User.t :=
  find (fun u => match User.email u with
                 | Some e => String.eqb e email
                 | None => false
                 end)
       (users db).

Definition with_relations (db : Db) (b : Business.t)
  : BusinessWithRelations.t :=
  BusinessWithRelations.mk b
    (getUser db (Business.ownerId b))
    (map (fun e => (e, getUser db (BusinessEmployee.userId e)))
         (filter (fun e => String.eqb (BusinessEmployee.businessId e)
                                      (Business.id b))
                 (businessEmployees db)))
    (filter (fun p => String.eqb (Product.businessId p) (Business.id b))
            (products db)).

Definition business_id (b : BusinessWithRelations.t) : string :=
  Business.id (BusinessWithRelations.business b).

Definition getBusiness (db : Db) (id : string)
  : option BusinessWithRelations.t :=
  option_map (with_relations db)
             (find (fun b => String.eqb (Business.id b) id) (businesses db)).

(** [.filter((b) => b !== null)] *)
Fixpoint non_null {A} (l : list (option A)) : list A :=
  match l with
  | [] => []
  | Some a :: rest => a :: non_null rest
  | None :: rest => non_null rest
  end.

Definition getBusinesses (db : Db) (userId : string)
  : list BusinessWithRelations.t :=
  let ownedBusinesses :=
    map (with_relations db)
        (filter (fun b => String.eqb (Business.ownerId b) userId)
                (businesses db)) in
  let employeeRecords :=
    filter (fun e => String.eqb (BusinessEmployee.userId e) userId)
           (businessEmployees db) in
  let employeeBusinesses :=
    non_null (map (fun e => getBusiness db (BusinessEmployee.businessId e))
                  employeeRecords) in
  fold_left (fun allBusinesses b =>
               if existsb (fun ob => String.eqb (business_id ob)
                                                (business_id b))
                          allBusinesses
               then allBusinesses
               else (allBusinesses ++ [b])%list)
            employeeBusinesses ownedBusinesses.

Definition getEmployeeById (db : Db) (id : string)
  : option (BusinessEmployee.t * option User.t * option Business.t) :=
  option_map
    (fun e => (e, getUser db (BusinessEmployee.userId e),
               find (fun b => String.eqb (Business.id b)
                                         (BusinessEmployee.businessId e))
                    (businesses db)))
    (find (fun e => String.eqb (BusinessEmployee.id e) id)
          (businessEmployees db)).

Definition getEmployees (db : Db) (userId : string)
  : list (BusinessEmployee.t * option User.t * option Business.t) :=
  let businessIds := map business_id (getBusinesses db userId) in
  match businessIds with
  | [] => []
  | _ :: _ =>
      let employees :=
        map (fun e => (e, getUser db (BusinessEmployee.userId e),
                       find (fun b => String.eqb (Business.id b)
                                                 (BusinessEmployee.businessId e))
                            (businesses db)))
            (businessEmployees db) in
      filter (fun e => has_id businessIds
                              (BusinessEmployee.businessId (fst (fst e))))
             employees
  end.

(** [getLowStockProducts(userId, threshold = 5)]; [None] is the default. *)
Definition getLowStockProducts (db : Db) (userId : string)
  (threshold : option Z) : list Product.t :=
  let threshold := match threshold with Some t => t | None => 5 end in
  let businessIds := map business_id (getBusinesses db userId) in
  match businessIds with
  | [] => []
  | _ :: _ =>
      let allProducts :=
        filter (fun p => match Product.stock p with
                         | Some s => s <=? threshold
                         | None => false
                         end)
               (products db) in
      filter (fun p => has_id businessIds (Product.businessId p)) allProducts
  end.

(** ** server/storage.ts: products, employees created and deleted *)

(** [InsertProduct]: [None] is an absent key, which takes the column's
    default; for a nullable column the inner [None] is [null]. *)
Module InsertProduct.
Record t := mk {
  businessId : string;
  name : string;
  description : option (option string);
  price : Decimal;
  stock : option (option Z);
  category : option (option string);
  isActive : option (option bool)
}.
End InsertProduct.

Definition column {A} (dflt : option A) (v : option (option A)) : option A :=
  match v with
  | Some x => x
  | None => dflt
  end.

Definition createProduct (env : Env) (product : InsertProduct.t)
  : Storage Product.t :=
  fun db =>
    let id := gen_random_uuid env 0 in
    let stock := column (Some 0) (InsertProduct.stock product) in
    let category := column None (InsertProduct.category product) in
    if negb (varchar 255 (InsertProduct.name product)) then
      (db, Thrown (DataException "products.name"))
    else if negb (fits_10_2 (InsertProduct.price product)) then
      (db, Thrown (DataException "products.price"))
    else if negb (match stock with Some s => integer s | None => true end) then
      (db, Thrown (DataException "products.stock"))
    else if negb (match category with
                  | Some c => varchar 100 c
                  | None => true
                  end) then
      (db, Thrown (DataException "products.category"))
    else if has_id (map Product.id (products db)) id then
      (db, Thrown (UniqueViolation "products_pkey"))
    else if negb (has_id (map Business.id (businesses db))
                         (InsertProduct.businessId product)) then
      (db, Thrown (ForeignKeyViolation "products_business_id"))
    else
      let row := Product.mk id (InsertProduct.businessId product)
                   (InsertProduct.name product)
                   (column None (InsertProduct.description product))
                   (InsertProduct.price product) stock category
                   (column (Some true) (InsertProduct.isActive product))
                   (Some (now env)) in
      (set_products (products db ++ [row]) db, Returned row).

(** [db.delete(products).where(eq(products.id, id))]; [sale_items.product_id]
    references [products.id] without [onDelete], so a product with sale
    items cannot go. *)
Definition deleteProduct (id : string) : Storage unit :=
  fun db =>
    let hit := fun p => String.eqb (Product.id p) id in
    if existsb hit (products db)
       && existsb (fun row => String.eqb (SaleItem.productId row) id)
                  (saleItems db) then
      (db, Thrown (ForeignKeyViolation "sale_items_product_id"))
    else
      (set_products (filter (fun p => negb (hit p)) (products db)) db,
       Returned tt).

Definition set_businessEmployees (es : list BusinessEmployee.t) (db : Db)
  : Db :=
  mkDb (users db) (businesses db) es (products db)
       (sales db) (saleItems db) (invoices db).

(** [InsertBusinessEmployee] *)
Module InsertBusinessEmployee.
Record t := mk {
  businessId : string;
  userId : string;
  role : option EmployeeRole
}.
End InsertBusinessEmployee.

Definition addEmployee (env : Env) (employee : InsertBusinessEmployee.t)
  : Storage BusinessEmployee.t :=
  fun db =>
    let id := gen_random_uuid env 0 in
    if has_id (map BusinessEmployee.id (businessEmployees db)) id then
      (db, Thrown (UniqueViolation "business_employees_pkey"))
    else if negb (has_id (map Business.id (businesses db))
                         (InsertBusinessEmployee.businessId employee)) then
      (db, Thrown (ForeignKeyViolation "business_employees_business_id"))
    else if negb (has_id (map User.id (users db))
                         (InsertBusinessEmployee.userId employee)) then
      (db, Thrown (ForeignKeyViolation "business_employees_user_id"))
    else
      let row := BusinessEmployee.mk id
                   (InsertBusinessEmployee.businessId employee)
                   (InsertBusinessEmployee.userId employee)
                   (default RoleEmployee (InsertBusinessEmployee.role employee))
      in
      (set_businessEmployees (businessEmployees db ++ [row]) db, Returned row).

Definition removeEmployee (id : string) : Storage unit :=
  fun db =>
    (set_businessEmployees
       (filter (fun e => negb (String.eqb (BusinessEmployee.id e) id))
               (businessEmployees db)) db,
     Returned tt).

(** ** server/storage.ts: businesses created, updated and deleted *)

Definition set_businesses (bs : list Business.t) (db : Db) : Db :=
  mkDb (users db) bs (businessEmployees db) (products db)
       (sales db) (saleItems db) (invoices db).

(** [InsertBusiness & { ownerId }], of which [Business.t] keeps the name
    and the owner. *)
Module InsertBusiness.
Record t := mk { name : string; ownerId : string }.
End InsertBusiness.

(** [Partial<InsertBusiness>], likewise. *)
Module BusinessPatch.
Record t := mk { name : option string; ownerId : option string }.
End BusinessPatch.

(** [.replace(/-/g, "")] *)
Fixpoint remove_dashes (s : string) : string :=
  match s with
  | EmptyString => EmptyString
  | String c rest =>
      if Ascii.eqb c "-" then remove_dashes rest
      else String c (remove_dashes rest)
  end.

(** [createBusiness]: the row id is the database's first generated id of
    the request, [randomUUID()] of the API key is read from the same
    environment as its second. *)
Definition createBusiness (env : Env) (business : InsertBusiness.t)
  : Storage Business.t :=
  fun db =>
    let apiKey := "rp_" ++ remove_dashes (gen_random_uuid env 1) in
    let id := gen_random_uuid env 0 in
    if negb (varchar 255 (InsertBusiness.name business)) then
      (db, Thrown (DataException "businesses.name"))
    else if has_id (map Business.id (businesses db)) id then
      (db, Thrown (UniqueViolation "businesses_pkey"))
    else if negb (has_id (map User.id (users db))
                         (InsertBusiness.ownerId business)) then
      (db, Thrown (ForeignKeyViolation "businesses_owner_id"))
    else if existsb (fun b => match Business.apiKey b with
                              | Some k => String.eqb k apiKey
                              | None => false
                              end) (businesses db) then
      (db, Thrown (UniqueViolation "businesses_api_key_unique"))
    else
      let row := Business.mk id (InsertBusiness.name business)
                             (InsertBusiness.ownerId business) (Some apiKey) in
      (set_businesses (businesses db ++ [row]) db, Returned row).

Definition set_business (patch : BusinessPatch.t) (b : Business.t)
  : Business.t :=
  Business.mk (Business.id b)
    (or_else (BusinessPatch.name patch) (Business.name b))
    (or_else (BusinessPatch.ownerId patch) (Business.ownerId b))
    (Business.apiKey b).

Definition updateBusiness (id : string) (business : BusinessPatch.t)
  : Storage (option Business.t) :=
  fun db =>
    let hit := fun b => String.eqb (Business.id b) id in
    let dangling :=
      match BusinessPatch.ownerId business with
      | Some u => negb (has_id (map User.id (users db)) u)
      | None => false
      end in
    if existsb hit (businesses db) && dangling then
      (db, Thrown (ForeignKeyViolation "businesses_owner_id"))
    else
      let rows := map (fun b => if hit b then set_business business b else b)
                      (businesses db) in
      (set_businesses rows db, Returned (find hit rows)).

(** [db.delete(businesses).where(eq(businesses.id, id))] with the
    [onDelete: "cascade"] of the schema: employees, products and sales of the
    business go with it, and with the sales their items and invoices.
    [sale_items.product_id] has no [onDelete], and the cascade reaches the
    products before it reaches the sales: any sale item that references a
    product of the business, also one of a sale of the business, makes the
    statement fail. *)
Definition deleteBusiness (id : string) : Storage unit :=
  fun db =>
    if negb (existsb (fun b => String.eqb (Business.id b) id) (businesses db))
    then (db, Returned tt)
    else
      let gone_sales :=
        map Sale.id (filter (fun s => String.eqb (Sale.businessId s) id)
                            (sales db)) in
      let gone_products :=
        map Product.id (filter (fun p => String.eqb (Product.businessId p) id)
                               (products db)) in
      let items := filter (fun row => negb (has_id gone_sales
                                                   (SaleItem.saleId row)))
                          (saleItems db) in
      if existsb (fun row => has_id gone_products (SaleItem.productId row))
                 (saleItems db) then
        (db, Thrown (ForeignKeyViolation "sale_items_product_id"))
      else
        (mkDb (users db)
           (filter (fun b => negb (String.eqb (Business.id b) id))
                   (businesses db))
           (filter (fun e => negb (String.eqb (BusinessEmployee.businessId e)
                                              id))
                   (businessEmployees db))
           (filter (fun p => negb (String.eqb (Product.businessId p) id))
                   (products db))
           (filter (fun s => negb (String.eqb (Sale.businessId s) id))
                   (sales db))
           items
           (filter (fun i => negb (has_id gone_sales (Invoice.saleId i)))
                   (invoices db)),
         Returned tt).

(** ** [DatabaseStorage.getDashboardStats] *)

Record DashboardStats := mkStats {
  totalSalesToday : Decimal;
  totalOrders : nat;
  lowStockItems : nat;
  totalBusinesses : nat
}.

(** [today] is the value of the variable of that name after
    [today.setHours(0, 0, 0, 0)]: midnight, in the server's time zone, of
    the day of the call. *)
Definition getDashboardStats (db : Db) (today : Timestamp) (userId : string)
  : DashboardStats :=
  let userBusinesses := getBusinesses db userId in
  let businessIds := map business_id userBusinesses in
  match businessIds with
  | [] => mkStats 0 0 0 0
  | _ :: _ =>
      let allSales :=
        filter (fun s => match Sale.status s with
                         | Some SaleCompleted => true
                         | _ => false
                         end) (sales db) in
      let userSales :=
        filter (fun s => has_id businessIds (Sale.businessId s)) allSales in
      let todaySales :=
        filter (fun s => match Sale.createdAt s with
                         | Some t => today <=? t
                         | None => false
                         end) userSales in
      let totalSalesToday :=
        fold_left (fun sum s => sum + Sale.totalAmount s) todaySales 0 in
      mkStats totalSalesToday (List.length userSales)
              (List.length (getLowStockProducts db userId None))
              (List.length userBusinesses)
  end.

(** ** server/routes.ts: businesses, products and employees *)

Inductive BusinessType :=
| Dealership | Store | Restaurant | Garage | Nightclub | OtherBusiness.

(** What these routes answer with: [{ message }], nothing ([send()]), or
    the row or rows asked for. *)
Inductive Payload :=
| ErrorMessage (message : string)
| NoContent
| ProductRow (product : Product.t)
| EmployeeRow (employee : BusinessEmployee.t)
| BusinessRow (business : Business.t)
| BusinessDetails (business : BusinessWithRelations.t).

Record Reply := mkReply { code : Z; payload : Payload }.

Definition refuse (code : Z) (message : string) : Reply :=
  mkReply code (ErrorMessage message).

(** Request body of [POST /api/businesses]. *)
Module BusinessBody.
Record t := mk {
  name : string;
  type : BusinessType;
  description : option string
}.
End BusinessBody.

(** Request body of [POST /api/products]. *)
Module ProductBody.
Record t := mk {
  businessId : string;
  name : string;
  description : option string;
  price : Decimal;
  stock : Z;
  category : option string
}.
End ProductBody.

(** Request body of [POST /api/employees]. *)
Module EmployeeBody.
Record t := mk {
  businessId : string;
  email : string;
  role : option EmployeeRole
}.
End EmployeeBody.

(** [GET /api/businesses/:id] *)
Definition get_business (userId businessId : string) (db : Db) : Reply :=
  if negb (isUserAuthorizedForBusiness db userId businessId) then
    refuse 403 "Not authorized to access this business"
  else
    match getBusiness db businessId with
    | None => refuse 404 "Business not found"
    | Some business => mkReply 200 (BusinessDetails business)
    end.

(** [POST /api/businesses]; [name: z.string().min(2)]. *)
Definition post_businesses (env : Env) (userId : string)
  (data : BusinessBody.t) (db : Db) : Db * Reply :=
  if negb (2 <=? String.length (BusinessBody.name data))%nat then
    (db, refuse 400 "Failed to create business")
  else
    match createBusiness env
            (InsertBusiness.mk (BusinessBody.name data) userId) db with
    | (db', Returned business) => (db', mkReply 201 (BusinessRow business))
    | (db', Thrown _) => (db', refuse 400 "Failed to create business")
    end.

(** The owner check the routes repeat:
    [!existingBusiness || existingBusiness.ownerId !== userId]. *)
Definition not_owner (db : Db) (userId businessId : string) : bool :=
  match getBusiness db businessId with
  | None => true
  | Some existingBusiness =>
      negb (String.eqb
              (Business.ownerId
                 (BusinessWithRelations.business existingBusiness))
              userId)
  end.

(** [PATCH /api/businesses/:id] *)
Definition patch_businesses (userId businessId : string)
  (body : BusinessPatch.t) (db : Db) : Db * Reply :=
  if not_owner db userId businessId then
    (db, refuse 403 "Only the owner can update this business")
  else
    match updateBusiness businessId body db with
    | (db', Returned None) => (db', refuse 404 "Business not found")
    | (db', Returned (Some business)) =>
        (db', mkReply 200 (BusinessRow business))
    | (db', Thrown _) => (db', refuse 400 "Failed to update business")
    end.

(** [DELETE /api/businesses/:id] *)
Definition delete_businesses (userId businessId : string) (db : Db)
  : Db * Reply :=
  if not_owner db userId businessId then
    (db, refuse 403 "Only the owner can delete this business")
  else
    match deleteBusiness businessId db with
    | (db', Returned _) => (db', mkReply 204 NoContent)
    | (db', Thrown _) => (db', refuse 500 "Failed to delete business")
    end.

(** [GET /api/products/:id] *)
Definition get_product (userId productId : string) (db : Db) : Reply :=
  match getProduct db productId with
  | None => refuse 404 "Product not found"
  | Some product =>
      if negb (isUserAuthorizedForBusiness db userId
                 (Product.businessId product)) then
        refuse 403 "Not authorized to access this product"
      else mkReply 200 (ProductRow product)
  end.

(** [POST /api/products]; [name: z.string().min(2)],
    [stock: z.number().int().min(0)]. *)
Definition post_products (env : Env) (userId : string) (data : ProductBody.t)
  (db : Db) : Db * Reply :=
  if negb ((2 <=? String.length (ProductBody.name data))%nat
           && (0 <=? ProductBody.stock data)) then
    (db, refuse 400 "Failed to create product")
  else if negb (isUserAuthorizedForBusiness db userId
                  (ProductBody.businessId data)) then
    (db, refuse 403 "Not authorized to add products to this business")
  else
    let product :=
      InsertProduct.mk (ProductBody.businessId data) (ProductBody.name data)
        (option_map Some (ProductBody.description data))
        (ProductBody.price data) (Some (Some (ProductBody.stock data)))
        (option_map Some (ProductBody.category data)) None in
    match createProduct env product db with
    | (db', Returned created) => (db', mkReply 201 (ProductRow created))
    | (db', Thrown _) => (db', refuse 400 "Failed to create product")
    end.

(** [DELETE /api/products/:id] *)
Definition delete_products (userId productId : string) (db : Db)
  : Db * Reply :=
  match getProduct db productId with
  | None => (db, refuse 404 "Product not found")
  | Some existingProduct =>
      if not_owner db userId (Product.businessId existingProduct) then
        (db, refuse 403 "Only the owner can delete products")
      else
        match deleteProduct productId db with
        | (db', Returned _) => (db', mkReply 204 NoContent)
        | (db', Thrown _) => (db', refuse 500 "Failed to delete product")
        end
  end.

(** [POST /api/employees]; [is_email] stands for zod's
    [z.string().email()]. *)
Definition post_employees (is_email : string -> bool) (env : Env)
  (userId : string) (data : EmployeeBody.t) (db : Db) : Db * Reply :=
  if negb (is_email (EmployeeBody.email data)) then
    (db, refuse 400 "Failed to add employee")
  else if not_owner db userId (EmployeeBody.businessId data) then
    (db, refuse 403 "Only the owner can add employees")
  else
    match getUserByEmail db (EmployeeBody.email data) with
    | None => (db, refuse 404 "User not found with that email")
    | Some user =>
        let employee :=
          InsertBusinessEmployee.mk (EmployeeBody.businessId data)
            (User.id user)
            (Some (or_else (EmployeeBody.role data) RoleEmployee)) in
        match addEmployee env employee db with
        | (db', Returned created) => (db', mkReply 201 (EmployeeRow created))
        | (db', Thrown _) => (db', refuse 400 "Failed to add employee")
        end
    end.

(** [DELETE /api/employees/:id] *)
Definition delete_employees (userId employeeId : string) (db : Db)
  : Db * Reply :=
  match getEmployeeById db employeeId with
  | None => (db, refuse 404 "Employee not found")
  | Some (employee, _, _) =>
      if not_owner db userId (BusinessEmployee.businessId employee) then
        (db, refuse 403 "Only the owner can remove employees")
      else
        match removeEmployee employeeId db with
        | (db', Returned _) => (db', mkReply 204 NoContent)
        | (db', Thrown _) => (db', refuse 500 "Failed to remove employee")
        end
  end.

(** * Vocabulary of the statements *)

(** ** What [createSale] has written *)

(** The hundredths a text of an amount rounds to.  Where the cast to
    [decimal(10,2)] succeeds this is its value. *)
Definition rounded (t : NumericText) : Decimal :=
  match t with
  | NotNumeric => 0
  | Dec mantissa scale => round_half_away mantissa scale
  end.

(** The row [insert_saleItems] builds. *)
Definition saleItem_row (id saleId : string) (item : InsertSaleItem.t)
  : SaleItem.t :=
  SaleItem.mk id saleId (InsertSaleItem.productId item)
    (InsertSaleItem.productName item) (InsertSaleItem.quantity item)
    (rounded (InsertSaleItem.unitPrice item))
    (rounded (InsertSaleItem.totalPrice item)).

(** The [sale_items] rows of a list of items, ids taken from [k] on. *)
Fixpoint item_rows (env : Env) (saleId : string) (k : nat)
  (items : list InsertSaleItem.t) : list SaleItem.t :=
  match items with
  | [] => []
  | item :: rest =>
      saleItem_row (gen_random_uuid env k) saleId item
      :: item_rows env saleId (S k) rest
  end.

(** The [products] table after the stock of each item was taken off. *)
Definition decrement_all (env : Env) (items : list InsertSaleItem.t)
  (ps : list Product.t) : list Product.t :=
  fold_left (fun ps item =>
               map (decrement env (InsertSaleItem.productId item)
                              (InsertSaleItem.quantity item)) ps)
            items ps.

(** The database after the item rows and stock updates of [items]. *)
Definition items_written (env : Env) (saleId : string) (k : nat)
  (items : list InsertSaleItem.t) (db : Db) : Db :=
  set_products (decrement_all env items (products db))
    (set_saleItems (saleItems db ++ item_rows env saleId k items) db).

(** The row [insert_sales] builds. *)
Definition sale_row (env : Env) (saleData : InsertSale.t) : Sale.t :=
  Sale.mk (gen_random_uuid env 0) (InsertSale.businessId saleData)
    (InsertSale.sellerId saleData) (InsertSale.buyerName saleData)
    (InsertSale.buyerInfo saleData) (rounded (InsertSale.totalAmount saleData))
    (default SaleCompleted (InsertSale.status saleData))
    (default SourceWeb (InsertSale.source saleData))
    (Some (now env)).

(** The row [insert_invoices] builds for [createSale]. *)
Definition invoice_row (env : Env) (n : nat) : Invoice.t :=
  Invoice.mk (gen_random_uuid env (S n)) (gen_random_uuid env 0)
    (invoiceNumberAt (now env)) (Some InvoicePending) (Some (now env))
    None None.

(** The database once the sale row and the first [n] items are written. *)
Definition sale_and_items (env : Env) (saleData : InsertSale.t)
  (items : list InsertSaleItem.t) (n : nat) (db : Db) : Db :=
  items_written env (gen_random_uuid env 0) 1 (firstn n items)
    (set_sales (sales db ++ [sale_row env saleData]) db).

(** The database once the sale row and the first [n] items are written and
    the row of the next item is inserted, its stock not yet taken off. *)
Definition sale_items_and_row (env : Env) (saleData : InsertSale.t)
  (items : list InsertSaleItem.t) (n : nat) (db : Db) : Db :=
  let db1 := sale_and_items env saleData items n db in
  match nth_error items n with
  | Some item =>
      set_saleItems
        (saleItems db1
         ++ [saleItem_row (gen_random_uuid env (S n)) (gen_random_uuid env 0)
                          item])
        db1
  | None => db1
  end.

(** A statement fails in [db]: it throws [e] and leaves [db] as it is. *)
Definition fails {A} (statement : Storage A) (db : Db) (e : DbError) : Prop :=
  statement db = (db, Thrown e).

(** The database once every statement of [createSale] has run. *)
Definition sale_persisted (env : Env) (saleData : InsertSale.t)
  (items : list InsertSaleItem.t) (db : Db) : Db :=
  let db1 := sale_and_items env saleData items (List.length items) db in
  set_invoices (invoices db1 ++ [invoice_row env (List.length items)]) db1.

(** ** A small database used in the examples below

    Alice owns the garage [b1], where Bob works; Carol owns the diner
    [b2], where Dave works.  The garage sells wrenches at 100.00 with three
    in stock; the diner sells burgers at 5.50. *)

Definition ex_db : Db :=
  mkDb
    [User.mk "alice" None; User.mk "bob" None; User.mk "carol" None;
     User.mk "dave" None]
    [Business.mk "b1" "Garage" "alice" (Some "rp_garage");
     Business.mk "b2" "Diner" "carol" (Some "rp_diner")]
    [BusinessEmployee.mk "e1" "b1" "bob" (Some RoleEmployee);
     BusinessEmployee.mk "e2" "b2" "dave" (Some RoleManager)]
    [Product.mk "p1" "b1" "Wrench" None 10000 (Some 3) None (Some true) None;
     Product.mk "p2" "b2" "Burger" None 550 (Some 10) None (Some true) None]
    [] [] [].

(** Ids [prefix0], [prefix1], ... *)
Definition ex_uuid (prefix : string) (k : nat) : string :=
  prefix ++ String (ascii_of_nat (48 + k)) "".

Definition ex_env (t : Timestamp) (prefix : string) : Env :=
  mkEnv t (ex_uuid prefix).

(** Two wrenches for Trevor, ordered from the game server. *)
Definition ex_game_body (sellerId : option string) : GameSalesBody.t :=
  GameSalesBody.mk "rp_garage" "Trevor" None sellerId [GameItem.mk "p1" 2].

(** Two wrenches for Trevor, entered by Alice on the web: the client states
    a unit price of 0.01, a line total of 0.05 and a sale total of 0.03. *)
Definition ex_web_body : SalesBody.t :=
  SalesBody.mk "b1" "Trevor" None (Dec 3 2) None None
    [InsertSaleItem.mk "p1" "Spanner" 2 (Dec 1 2) (Dec 5 2)].

(** ** Authorization *)

Definition owns (db : Db) (userId businessId : string) : Prop :=
  exists b, In b (businesses db)
            /\ Business.id b = businessId /\ Business.ownerId b = userId.

Definition works_at (db : Db) (userId businessId : string) : Prop :=
  exists e, In e (businessEmployees db)
            /\ BusinessEmployee.businessId e = businessId
            /\ BusinessEmployee.userId e = userId.

(** ** Rejections of the two sale handlers *)

(** A line cannot be sold from business [businessId]. *)
Definition line_fails (db : Db) (businessId productId : string)
  (quantity : Z) : Prop :=
  match getProduct db productId with
  | None => True
  | Some p => Product.businessId p <> businessId \/ stock_or_0 p < quantity
  end.

(** The three answers that name what is wrong with a line of [lines]. *)
Inductive reason (db : Db) (businessId : string)
  (lines : list (string * Z)) : Response -> Prop :=
| reason_not_found productId quantity :
    In (productId, quantity) lines ->
    getProduct db productId = None ->
    reason db businessId lines
           (json 400 ("Product " ++ productId ++ " not found"))
| reason_other_business productId quantity p :
    In (productId, quantity) lines ->
    getProduct db productId = Some p ->
    Product.businessId p <> businessId ->
    reason db businessId lines
           (json 400 ("Product " ++ Product.name p
                      ++ " does not belong to this business"))
| reason_insufficient productId quantity p :
    In (productId, quantity) lines ->
    getProduct db productId = Some p ->
    stock_or_0 p < quantity ->
    reason db businessId lines
           (json 400 ("Insufficient stock for " ++ Product.name p)).

Definition web_lines (items : list InsertSaleItem.t) : list (string * Z) :=
  map (fun i => (InsertSaleItem.productId i, InsertSaleItem.quantity i)) items.

Definition game_lines (items : list GameItem.t) : list (string * Z) :=
  map (fun i => (GameItem.productId i, GameItem.quantity i)) items.

(** ** Requests and databases of the examples, continued *)

(** The same request sent without the [sellerId] key. *)
Definition without_sellerId (data : GameSalesBody.t) : GameSalesBody.t :=
  GameSalesBody.mk (GameSalesBody.businessApiKey data)
    (GameSalesBody.buyerName data) (GameSalesBody.buyerInfo data) None
    (GameSalesBody.items data).

(** Bob, who works at the garage, renames the wrench, reprices it and tries
    to hand it to the diner. *)
Definition ex_patch : ProductPatch.t :=
  ProductPatch.mk (Some "b2") (Some "Torque wrench") None (Some 12500)
                  (Some (Some 7)) None None.

(** The example database after the game server sold two wrenches: one sale
    [a0], its item [a1] and its pending invoice [a2]. *)
Definition ex_db_sold : Db :=
  fst (post_game_sales (ex_env 1733300000000 "a") (ex_game_body None) ex_db).

Definition ex_pay : InvoiceBody.t := InvoiceBody.mk (Some InvoicePaid) None.

(** The same database a minute later, after the game server of the diner
    recorded a sale without lines: the sale [c0] and its invoice [c1]. *)
Definition ex_db_served : Db :=
  fst (post_game_sales (ex_env 1733300060000 "c")
         (GameSalesBody.mk "rp_diner" "Michael" None None []) ex_db_sold).

(** ** Referential integrity and the invoice of a sale *)

(** Referential integrity of [invoices.sale_id] and [sale_items.sale_id],
    which the database maintains. *)
Definition invoices_reference_sales (db : Db) : Prop :=
  forall i, In i (invoices db) -> In (Invoice.saleId i) (map Sale.id (sales db)).

Definition saleItems_reference_sales (db : Db) : Prop :=
  forall it, In it (saleItems db) ->
             In (SaleItem.saleId it) (map Sale.id (sales db)).

Definition invoices_of (db : Db) (saleId : string) : list Invoice.t :=
  filter (fun i => String.eqb (Invoice.saleId i) saleId) (invoices db).

Definition invoices_numbered (db : Db) (invoiceNumber : string)
  : list Invoice.t :=
  filter (fun i => String.eqb (Invoice.invoiceNumber i) invoiceNumber)
         (invoices db).

(** [sale] is stored with exactly one invoice, which is pending and whose
    number no other invoice carries. *)
Definition one_pending_invoice (db : Db) (sale : Sale.t) (invoice : Invoice.t)
  : Prop :=
  In sale (sales db)
  /\ invoices_of db (Sale.id sale) = [invoice]
  /\ Invoice.status invoice = Some InvoicePending
  /\ invoices_numbered db (Invoice.invoiceNumber invoice) = [invoice].

(** ** Prices, names and totals of a sale *)

Definition sum_totalPrice (rows : list SaleItem.t) : Decimal :=
  fold_right (fun row acc => SaleItem.totalPrice row + acc) 0 rows.

Definition sum_items (items : list InsertSaleItem.t) : Decimal :=
  fold_right (fun item acc => rounded (InsertSaleItem.totalPrice item) + acc)
             0 items.

(** [row] is the copy of [item] in sale [saleId], its amounts rounded. *)
Definition copies (saleId : string) (item : InsertSaleItem.t)
  (row : SaleItem.t) : Prop :=
  SaleItem.saleId row = saleId
  /\ SaleItem.productId row = InsertSaleItem.productId item
  /\ SaleItem.productName row = InsertSaleItem.productName item
  /\ SaleItem.quantity row = InsertSaleItem.quantity item
  /\ SaleItem.unitPrice row = rounded (InsertSaleItem.unitPrice item)
  /\ SaleItem.totalPrice row = rounded (InsertSaleItem.totalPrice item).

(** [row] is [item] as sale [saleId] stores it: name and quantity as they
    are, and the two amounts as the [decimal(10,2)] columns cast their
    texts. *)
Definition stores (saleId : string) (item : InsertSaleItem.t)
  (row : SaleItem.t) : Prop :=
  SaleItem.saleId row = saleId
  /\ SaleItem.productId row = InsertSaleItem.productId item
  /\ SaleItem.productName row = InsertSaleItem.productName item
  /\ SaleItem.quantity row = InsertSaleItem.quantity item
  /\ decimal_10_2 (InsertSaleItem.unitPrice item)
     = Some (SaleItem.unitPrice row)
  /\ decimal_10_2 (InsertSaleItem.totalPrice item)
     = Some (SaleItem.totalPrice row).

(** [item] is what the game handler builds for [line] from the product the
    database holds. *)
Definition resolved (db : Db) (businessId : string) (line : GameItem.t)
  (item : InsertSaleItem.t) : Prop :=
  exists p,
    getProduct db (GameItem.productId line) = Some p
    /\ Product.businessId p = businessId
    /\ GameItem.quantity line <= stock_or_0 p
    /\ item = InsertSaleItem.mk (Product.id p) (Product.name p)
                (GameItem.quantity line) (text (Product.price p))
                (text (Product.price p * GameItem.quantity line)).

(** [row] of sale [saleId] carries what the product of [line] says. *)
Definition server_priced (db : Db) (saleId : string) (line : GameItem.t)
  (row : SaleItem.t) : Prop :=
  exists p,
    getProduct db (GameItem.productId line) = Some p
    /\ SaleItem.saleId row = saleId
    /\ SaleItem.productId row = GameItem.productId line
    /\ SaleItem.quantity row = GameItem.quantity line
    /\ SaleItem.productName row = Product.name p
    /\ SaleItem.unitPrice row = Product.price p
    /\ SaleItem.totalPrice row = GameItem.quantity line * Product.price p.

(** ** The totals invariant *)

Definition items_of (db : Db) (saleId : string) : list SaleItem.t :=
  filter (fun row => String.eqb (SaleItem.saleId row) saleId) (saleItems db).

(** [sale.totalAmount = sum of item.totalPrice] over the items of the sale,
    and [item.totalPrice = item.quantity * item.unitPrice] for each. *)
Definition totals_hold (db : Db) (sale : Sale.t) : Prop :=
  Sale.totalAmount sale = sum_totalPrice (items_of db (Sale.id sale))
  /\ forall row, In row (items_of db (Sale.id sale)) ->
                 SaleItem.totalPrice row
                 = SaleItem.quantity row * SaleItem.unitPrice row.

(** The same two equations on the amounts a web request supplies, each
    rounded to hundredths as its column stores it. *)
Definition request_totals_hold (data : SalesBody.t) : Prop :=
  rounded (SalesBody.totalAmount data) = sum_items (SalesBody.items data)
  /\ forall item, In item (SalesBody.items data) ->
                  rounded (InsertSaleItem.totalPrice item)
                  = InsertSaleItem.quantity item
                    * rounded (InsertSaleItem.unitPrice item).

(** * More vocabulary *)

(** ** Reading an invoice number back *)

(** The value of a base-36 digit, in either case. *)
Definition digit_value (c : ascii) : Z :=
  let n := Z.of_nat (nat_of_ascii c) in
  if n <? 58 then n - 48 else if n <? 91 then n - 55 else n - 87.

(** The number a string of base-36 digits denotes, most significant digit
    first, continuing from [acc]. *)
Fixpoint parse36 (s : string) (acc : Z) : Z :=
  match s with
  | EmptyString => acc
  | String c rest => parse36 rest (acc * 36 + digit_value c)
  end.

(** ** Stock after a sale *)

(** The quantity [items] take of product [productId], all its lines
    together. *)
Definition quantity_of (productId : string) (items : list InsertSaleItem.t)
  : Z :=
  fold_right (fun item acc =>
                if String.eqb (InsertSaleItem.productId item) productId
                then InsertSaleItem.quantity item + acc else acc)
             0 items.

Definition ordered (productId : string) (items : list InsertSaleItem.t)
  : bool :=
  existsb (fun item => String.eqb (InsertSaleItem.productId item) productId)
          items.

(** [p'] is the row [p] after [items] were sold: its stock is lower by the
    quantity taken (a NULL stock stays NULL), [updatedAt] is stamped if a
    line named it, and nothing else differs. *)
Definition sold (env : Env) (items : list InsertSaleItem.t)
  (p p' : Product.t) : Prop :=
  Product.id p' = Product.id p
  /\ Product.businessId p' = Product.businessId p
  /\ Product.name p' = Product.name p
  /\ Product.description p' = Product.description p
  /\ Product.price p' = Product.price p
  /\ Product.category p' = Product.category p
  /\ Product.isActive p' = Product.isActive p
  /\ Product.stock p'
     = option_map (fun s => s - quantity_of (Product.id p) items)
                  (Product.stock p)
  /\ Product.updatedAt p'
     = if ordered (Product.id p) items then Some (now env)
       else Product.updatedAt p.

(** ** When a sale goes through *)

(** The ids the database generates for a sale of [n] items are new, and so
    is the invoice number of this millisecond, which has at most 50
    characters. *)
Definition fresh_ids (env : Env) (n : nat) (db : Db) : Prop :=
  ~ In (gen_random_uuid env 0) (map Sale.id (sales db))
  /\ (forall k, (1 <= k <= n)%nat ->
                ~ In (gen_random_uuid env k) (map SaleItem.id (saleItems db)))
  /\ NoDup (map (gen_random_uuid env) (seq 1 n))
  /\ ~ In (gen_random_uuid env (S n)) (map Invoice.id (invoices db))
  /\ ~ In (invoiceNumberAt (now env))
          (map Invoice.invoiceNumber (invoices db))
  /\ varchar 50 (invoiceNumberAt (now env)) = true.

(** A line that passes the three checks of the handlers. *)
Definition line_passes (db : Db) (businessId productId : string)
  (quantity : Z) : Prop :=
  exists p, getProduct db productId = Some p
            /\ Product.businessId p = businessId
            /\ quantity <= stock_or_0 p.

(** The values of an item fit the columns of [sale_items]. *)
Definition storable_item (item : InsertSaleItem.t) : Prop :=
  varchar 255 (InsertSaleItem.productName item) = true
  /\ integer (InsertSaleItem.quantity item) = true
  /\ decimal_10_2 (InsertSaleItem.unitPrice item) <> None
  /\ decimal_10_2 (InsertSaleItem.totalPrice item) <> None.

(** No stock update of the loop of [createSale] over [items] leaves the
    range of the stock column: when item [n] is reached, no product it
    names would be overdrawn. *)
Definition stock_updates_fit (env : Env) (items : list InsertSaleItem.t)
  (ps : list Product.t) : Prop :=
  forall n item,
    nth_error items n = Some item ->
    existsb (overdrawn (InsertSaleItem.productId item)
                       (InsertSaleItem.quantity item))
            (decrement_all env (firstn n items) ps) = false.

(** The quantity [lines] take of product [productId], all its lines
    together. *)
Definition taken (productId : string) (lines : list (string * Z)) : Z :=
  fold_right (fun line acc =>
                if String.eqb (fst line) productId then snd line + acc
                else acc)
             0 lines.

(** Every stock is a value of its [integer] column, and is one still when
    what [lines] take of the product is taken off. *)
Definition stocks_stay_in_range (db : Db) (lines : list (string * Z)) : Prop :=
  forall p s,
    In p (products db) -> Product.stock p = Some s ->
    integer s = true /\ integer (s - taken (Product.id p) lines) = true.

(** What a web request states fits the columns it is stored in: the
    buyer's name and the product names have at most 255 characters, and the
    amounts are numbers that round to at most eight digits before the
    point. *)
Definition web_values_fit (data : SalesBody.t) : Prop :=
  varchar 255 (SalesBody.buyerName data) = true
  /\ decimal_10_2 (SalesBody.totalAmount data) <> None
  /\ forall item,
      In item (SalesBody.items data) ->
      varchar 255 (InsertSaleItem.productName item) = true
      /\ decimal_10_2 (InsertSaleItem.unitPrice item) <> None
      /\ decimal_10_2 (InsertSaleItem.totalPrice item) <> None.

(** The total the game handler computes for [lines]: the sum of price times
    quantity over the lines. *)
Definition game_total (db : Db) (lines : list GameItem.t) : Decimal :=
  fold_right (fun line acc =>
                match getProduct db (GameItem.productId line) with
                | Some p => Product.price p * GameItem.quantity line + acc
                | None => acc
                end)
             0 lines.

(** What the game handler stores for a request fits the columns: the
    buyer's name, and for each line the name and the price of the product
    as the database holds them, the line total and the sale total. *)
Definition game_values_fit (db : Db) (data : GameSalesBody.t) : Prop :=
  varchar 255 (GameSalesBody.buyerName data) = true
  /\ fits_10_2 (game_total db (GameSalesBody.items data)) = true
  /\ forall line p,
      In line (GameSalesBody.items data) ->
      getProduct db (GameItem.productId line) = Some p ->
      varchar 255 (Product.name p) = true
      /\ fits_10_2 (Product.price p) = true
      /\ fits_10_2 (Product.price p * GameItem.quantity line) = true.

(** ** What an invoice update may change *)

(** [i'] is the row [i] after [PATCH /api/invoices/invoiceId] with [body]:
    the identifying columns never change, rows of other invoices do not
    change at all, and [status], [dueDate] and [paidAt] change only if the
    body says so. *)
Definition invoice_patched (invoiceId : string) (body : InvoiceBody.t)
  (i i' : Invoice.t) : Prop :=
  Invoice.id i' = Invoice.id i
  /\ Invoice.saleId i' = Invoice.saleId i
  /\ Invoice.invoiceNumber i' = Invoice.invoiceNumber i
  /\ Invoice.issueDate i' = Invoice.issueDate i
  /\ (Invoice.id i <> invoiceId -> i' = i)
  /\ (InvoiceBody.status body = None -> Invoice.status i' = Invoice.status i)
  /\ (InvoiceBody.dueDate body = None ->
      Invoice.dueDate i' = Invoice.dueDate i)
  /\ (InvoiceBody.status body <> Some InvoicePaid ->
      Invoice.paidAt i' = Invoice.paidAt i).

(** ** More referential integrity *)

Definition employees_reference_businesses (db : Db) : Prop :=
  forall e, In e (businessEmployees db) ->
            In (BusinessEmployee.businessId e) (map Business.id (businesses db)).

(** ** More requests for the examples *)


(** The example database with the e-mail addresses of its users, and Erin,
    who works nowhere yet. *)
Definition ex_db_mail : Db :=
  mkDb
    [User.mk "alice" (Some "alice@ls.example");
     User.mk "bob" (Some "bob@ls.example");
     User.mk "carol" (Some "carol@ls.example");
     User.mk "dave" (Some "dave@ls.example");
     User.mk "erin" (Some "erin@ls.example")]
    (businesses ex_db) (businessEmployees ex_db) (products ex_db) [] [] [].

Definition ex_employee_body : EmployeeBody.t :=
  EmployeeBody.mk "b1" "erin@ls.example" None.

(** Alice opens a second business; she then hands the garage to Bob. *)
Definition ex_business_body : BusinessBody.t :=
  BusinessBody.mk "Tuner shop" Garage None.

Definition ex_handover : BusinessPatch.t := BusinessPatch.mk None (Some "bob").

(** ** The businesses of a user, as plain rows *)

(** The rows [getBusinesses] lists, before their relations are attached:
    they depend on the [businesses] and [business_employees] tables only. *)
Definition business_rows (bs : list Business.t)
  (es : list BusinessEmployee.t) (userId : string) : list Business.t :=
  fold_left (fun all b =>
               if existsb (fun ob => String.eqb (Business.id ob)
                                                (Business.id b)) all
               then all else (all ++ [b])%list)
            (non_null
               (map (fun e => find (fun b => String.eqb
                                               (Business.id b)
                                               (BusinessEmployee.businessId e))
                                   bs)
                    (filter (fun e => String.eqb (BusinessEmployee.userId e)
                                                 userId) es)))
            (filter (fun b => String.eqb (Business.ownerId b) userId) bs).

(** * Properties *)

Example toString36_ex : invoiceNumberAt 1733300000000 = "INV-M49M2FI8".
Proof. vm_compute. reflexivity. Qed.

Example toString36_small :
  map toString36 [0; 9; 10; 35; 36; 1295; 1296]
  = ["0"; "9"; "a"; "z"; "10"; "zz"; "100"].
Proof. vm_compute. reflexivity. Qed.

(** ** What [createSale] has written *)

Lemma items_written_nil env saleId k db :
  items_written env saleId k [] db = db.
Proof.
  destruct db; unfold items_written, set_products, set_saleItems; simpl.
  now rewrite app_nil_r.
Qed.

Lemma items_written_cons env saleId k item rest db :
  items_written env saleId k (item :: rest) db =
  items_written env saleId (S k) rest
    (set_products (map (decrement env (InsertSaleItem.productId item)
                                  (InsertSaleItem.quantity item))
                       (products db))
       (set_saleItems
          (saleItems db ++ [saleItem_row (gen_random_uuid env k) saleId item])
          db)).
Proof.
  destruct db; unfold items_written, set_products, set_saleItems; simpl.
  now rewrite <- app_assoc.
Qed.

Lemma rounded_text d : rounded (text d) = d.
Proof. reflexivity. Qed.

Lemma decimal_10_2_rounded t d : decimal_10_2 t = Some d -> d = rounded t.
Proof.
  destruct t as [|m k]; cbn; [discriminate|].
  destruct (fits_10_2 _); [|discriminate]. now intros [= <-].
Qed.

Lemma decimal_10_2_text d :
  decimal_10_2 (text d) = if fits_10_2 d then Some d else None.
Proof. reflexivity. Qed.

Lemma decimal_10_2_Some t :
  decimal_10_2 t <> None -> decimal_10_2 t = Some (rounded t).
Proof.
  destruct (decimal_10_2 t) as [d|] eqn:E; [|congruence].
  intros _. now rewrite (decimal_10_2_rounded _ _ E).
Qed.

Lemma insert_saleItems_returned id saleId item db db' u :
  insert_saleItems id saleId item db = (db', Returned u) ->
  db' = set_saleItems (saleItems db ++ [saleItem_row id saleId item]) db
  /\ decimal_10_2 (InsertSaleItem.unitPrice item)
     = Some (rounded (InsertSaleItem.unitPrice item))
  /\ decimal_10_2 (InsertSaleItem.totalPrice item)
     = Some (rounded (InsertSaleItem.totalPrice item)).
Proof.
  unfold insert_saleItems. intros H.
  destruct (negb (varchar _ _)); [discriminate|].
  destruct (negb (integer _)); [discriminate|].
  destruct (decimal_10_2 (InsertSaleItem.unitPrice item)) as [unitPrice|] eqn:Eu;
    [|discriminate].
  destruct (decimal_10_2 (InsertSaleItem.totalPrice item)) as [totalPrice|]
    eqn:Et; [|discriminate].
  repeat match type of H with
         | (if ?c then _ else _) = _ => destruct c; [discriminate|]
         end.
  apply decimal_10_2_rounded in Eu, Et. subst unitPrice totalPrice.
  inversion H; subst. auto.
Qed.

Lemma insert_saleItems_thrown id saleId item db db' e :
  insert_saleItems id saleId item db = (db', Thrown e) -> db' = db.
Proof.
  unfold insert_saleItems. intros H.
  repeat match type of H with
         | (if ?c then _ else _) = _ => destruct c; [now inversion H|]
         end.
  destruct (decimal_10_2 (InsertSaleItem.unitPrice item));
    [|now inversion H].
  destruct (decimal_10_2 (InsertSaleItem.totalPrice item));
    [|now inversion H].
  repeat match type of H with
         | (if ?c then _ else _) = _ => destruct c; [now inversion H|]
         end.
  discriminate.
Qed.

Lemma update_stock_returned env productId quantity db db' u :
  update_stock env productId quantity db = (db', Returned u) ->
  db' = set_products (map (decrement env productId quantity) (products db)) db.
Proof.
  unfold update_stock. intros H.
  repeat match type of H with
         | (if ?c then _ else _) = _ => destruct c; [discriminate|]
         end.
  now inversion H.
Qed.

Lemma update_stock_thrown env productId quantity db db' e :
  update_stock env productId quantity db = (db', Thrown e) -> db' = db.
Proof.
  unfold update_stock. intros H.
  repeat match type of H with
         | (if ?c then _ else _) = _ => destruct c; [now inversion H|]
         end.
  discriminate.
Qed.

(** The amounts of [items] can be cast to [decimal(10,2)]. *)
Lemma createSale_items_returned env saleId items :
  forall k db db' u,
    createSale_items env saleId k items db = (db', Returned u) ->
    db' = items_written env saleId k items db
    /\ forall item, In item items ->
                    decimal_10_2 (InsertSaleItem.unitPrice item)
                    = Some (rounded (InsertSaleItem.unitPrice item))
                    /\ decimal_10_2 (InsertSaleItem.totalPrice item)
                       = Some (rounded (InsertSaleItem.totalPrice item)).
Proof.
  induction items as [|item rest IH]; intros k db db' u H.
  - cbn in H. inversion H; subst. rewrite items_written_nil.
    split; [reflexivity|intros item []].
  - rewrite items_written_cons.
    cbn [createSale_items] in H. unfold bind in H.
    destruct (insert_saleItems _ _ _ db) as [db1 [[]|e]] eqn:E1;
      [|discriminate].
    apply insert_saleItems_returned in E1. destruct E1 as (-> & Hu & Ht).
    destruct (update_stock _ _ _ _) as [db2 [[]|e]] eqn:E2; [|discriminate].
    apply update_stock_returned in E2. subst db2.
    apply IH in H. destruct H as [-> Hrest]. split.
    + destruct db; reflexivity.
    + intros it [<-|Hin]; [split; assumption|now apply Hrest].
Qed.

(** Where the loop of [createSale] stops when a statement of it fails: at
    the insert of item [n], or at its stock update. *)
Lemma createSale_items_thrown env saleId items :
  forall k db db' e,
    createSale_items env saleId k items db = (db', Thrown e) ->
    exists n item,
      nth_error items n = Some item
      /\ let db1 := items_written env saleId k (firstn n items) db in
         let db2 :=
           set_saleItems
             (saleItems db1
              ++ [saleItem_row (gen_random_uuid env (k + n)) saleId item])
             db1 in
         (insert_saleItems (gen_random_uuid env (k + n)) saleId item db1
          = (db1, Thrown e)
          /\ db' = db1)
         \/ (update_stock env (InsertSaleItem.productId item)
                          (InsertSaleItem.quantity item) db2
             = (db2, Thrown e)
             /\ db' = db2).
Proof.
  induction items as [|item rest IH]; intros k db db' e H.
  - cbn in H. discriminate.
  - cbn [createSale_items] in H. unfold bind in H.
    destruct (insert_saleItems _ _ _ db) as [db1 [[]|e1]] eqn:E1.
    + pose proof (insert_saleItems_returned _ _ _ _ _ _ E1) as (-> & _).
      destruct (update_stock _ _ _ _) as [db2 [[]|e2]] eqn:E2.
      * apply update_stock_returned in E2. subst db2.
        apply IH in H. destruct H as (n & it & Hnth & H).
        exists (S n), it. split; [exact Hnth|].
        cbn [firstn]. rewrite items_written_cons.
        rewrite Nat.add_succ_r. cbv zeta in H |- *.
        replace (set_products _ (set_saleItems _ db))
          with (set_products
                  (map (decrement env (InsertSaleItem.productId item)
                                  (InsertSaleItem.quantity item))
                       (products
                          (set_saleItems
                             (saleItems db
                              ++ [saleItem_row (gen_random_uuid env k) saleId
                                               item]) db)))
                  (set_saleItems
                     (saleItems db
                      ++ [saleItem_row (gen_random_uuid env k) saleId item])
                     db))
          by (destruct db; reflexivity).
        exact H.
      * pose proof (update_stock_thrown _ _ _ _ _ _ E2) as ->.
        inversion H; subst db' e2. clear H.
        exists 0%nat, item. split; [reflexivity|].
        cbn [firstn]. rewrite items_written_nil, Nat.add_0_r. cbv zeta.
        right. split; [exact E2|reflexivity].
    + pose proof (insert_saleItems_thrown _ _ _ _ _ _ E1) as ->.
      inversion H; subst db' e1. clear H.
      exists 0%nat, item. split; [reflexivity|].
      cbn [firstn]. rewrite items_written_nil, Nat.add_0_r. cbv zeta.
      left. split; [exact E1|reflexivity].
Qed.

Lemma insert_sales_returned env id v db db' sale :
  insert_sales env id v db = (db', Returned sale) ->
  has_id (map Sale.id (sales db)) id = false
  /\ db' = set_sales (sales db ++ [sale]) db
  /\ sale = Sale.mk id (InsertSale.businessId v) (InsertSale.sellerId v)
              (InsertSale.buyerName v) (InsertSale.buyerInfo v)
              (rounded (InsertSale.totalAmount v))
              (default SaleCompleted (InsertSale.status v))
              (default SourceWeb (InsertSale.source v)) (Some (now env))
  /\ decimal_10_2 (InsertSale.totalAmount v)
     = Some (rounded (InsertSale.totalAmount v)).
Proof.
  unfold insert_sales. intros H.
  destruct (negb (varchar _ _)); [discriminate|].
  destruct (decimal_10_2 (InsertSale.totalAmount v)) as [totalAmount|] eqn:Et;
    [|discriminate].
  apply decimal_10_2_rounded in Et. subst totalAmount.
  destruct (has_id (map Sale.id (sales db)) id); [discriminate|].
  repeat match type of H with
         | (if ?c then _ else _) = _ => destruct c; [discriminate|]
         end.
  inversion H; subst. auto.
Qed.

Lemma insert_sales_thrown env id v db db' e :
  insert_sales env id v db = (db', Thrown e) -> db' = db.
Proof.
  unfold insert_sales. intros H.
  destruct (negb (varchar _ _)); [now inversion H|].
  destruct (decimal_10_2 (InsertSale.totalAmount v)); [|now inversion H].
  repeat match type of H with
         | (if ?c then _ else _) = _ => destruct c; [now inversion H|]
         end.
  discriminate.
Qed.

Lemma insert_invoices_returned env id saleId number db db' invoice :
  insert_invoices env id saleId number db = (db', Returned invoice) ->
  has_id (map Invoice.id (invoices db)) id = false
  /\ has_id (map Invoice.invoiceNumber (invoices db)) number = false
  /\ db' = set_invoices (invoices db ++ [invoice]) db
  /\ invoice = Invoice.mk id saleId number (Some InvoicePending)
                 (Some (now env)) None None.
Proof.
  unfold insert_invoices. intros H.
  destruct (negb (varchar _ _)); [discriminate|].
  destruct (has_id (map Invoice.id (invoices db)) id); [discriminate|].
  destruct (negb _); [discriminate|].
  destruct (has_id (map Invoice.invoiceNumber (invoices db)) number);
    [discriminate|].
  inversion H; subst. auto.
Qed.

Lemma insert_invoices_thrown env id saleId number db db' e :
  insert_invoices env id saleId number db = (db', Thrown e) -> db' = db.
Proof.
  unfold insert_invoices. intros H.
  repeat match type of H with
         | (if ?c then _ else _) = _ => destruct c; [now inversion H|]
         end.
  discriminate.
Qed.

Lemma createSale_returned env saleData items db db' sale invoice :
  createSale env saleData items db = (db', Returned (sale, invoice)) ->
  sale = sale_row env saleData
  /\ invoice = invoice_row env (List.length items)
  /\ db' = sale_persisted env saleData items db
  /\ has_id (map Sale.id (sales db)) (gen_random_uuid env 0) = false
  /\ has_id (map Invoice.invoiceNumber (invoices db))
            (invoiceNumberAt (now env)) = false.
Proof.
  unfold createSale, bind. intros H.
  destruct (insert_sales _ _ _ db) as [db1 [s|e]] eqn:E1; [|discriminate].
  apply insert_sales_returned in E1. destruct E1 as (Hfresh & -> & Hs & _).
  assert (Hid : Sale.id s = gen_random_uuid env 0) by now rewrite Hs.
  assert (Hrow : s = sale_row env saleData) by exact Hs.
  rewrite Hid in H.
  destruct (createSale_items _ _ _ _ _) as [db2 [[]|e]] eqn:E2;
    [|discriminate].
  apply createSale_items_returned in E2. destruct E2 as [E2 _].
  destruct (insert_invoices _ _ _ _ db2) as [db3 [i|e]] eqn:E3;
    [|discriminate].
  apply insert_invoices_returned in E3.
  destruct E3 as (_ & Hnum & -> & Hi).
  unfold ret in H. inversion H; subst db' sale invoice. clear H.
  unfold sale_persisted, sale_and_items. rewrite firstn_all.
  rewrite <- Hrow. rewrite <- E2.
  assert (Hinv : i = invoice_row env (List.length items)) by exact Hi.
  rewrite <- Hinv. repeat split; auto.
  rewrite E2 in Hnum. exact Hnum.
Qed.

(** The amounts a [createSale] that returned was called with can all be
    cast to [decimal(10,2)]. *)
Lemma createSale_returned_cast env saleData items db db' result :
  createSale env saleData items db = (db', Returned result) ->
  decimal_10_2 (InsertSale.totalAmount saleData)
  = Some (rounded (InsertSale.totalAmount saleData))
  /\ forall item, In item items ->
                  decimal_10_2 (InsertSaleItem.unitPrice item)
                  = Some (rounded (InsertSaleItem.unitPrice item))
                  /\ decimal_10_2 (InsertSaleItem.totalPrice item)
                     = Some (rounded (InsertSaleItem.totalPrice item)).
Proof.
  unfold createSale, bind. intros H.
  destruct (insert_sales _ _ _ db) as [db1 [s|e]] eqn:E1; [|discriminate].
  apply insert_sales_returned in E1. destruct E1 as (_ & _ & _ & Ht).
  destruct (createSale_items _ _ _ _ _) as [db2 [[]|e]] eqn:E2;
    [|discriminate].
  apply createSale_items_returned in E2. destruct E2 as [_ E2].
  split; assumption.
Qed.

Lemma createSale_thrown env saleData items db db' e :
  createSale env saleData items db = (db', Thrown e) ->
  (fails (insert_sales env (gen_random_uuid env 0) saleData) db e /\ db' = db)
  \/ (insert_sales env (gen_random_uuid env 0) saleData db
      = (set_sales (sales db ++ [sale_row env saleData]) db,
         Returned (sale_row env saleData))
      /\ exists n,
          (n <= List.length items)%nat
          /\ ((exists item,
                  nth_error items n = Some item
                  /\ fails (insert_saleItems (gen_random_uuid env (S n))
                                             (gen_random_uuid env 0) item)
                           (sale_and_items env saleData items n db) e
                  /\ db' = sale_and_items env saleData items n db)
              \/ (exists item,
                     nth_error items n = Some item
                     /\ fails (update_stock env
                                 (InsertSaleItem.productId item)
                                 (InsertSaleItem.quantity item))
                              (sale_items_and_row env saleData items n db) e
                     /\ db' = sale_items_and_row env saleData items n db)
              \/ (n = List.length items
                  /\ fails (insert_invoices env
                              (gen_random_uuid env (S (List.length items)))
                              (gen_random_uuid env 0)
                              (invoiceNumberAt (now env)))
                           (sale_and_items env saleData items n db) e
                  /\ db' = sale_and_items env saleData items n db))).
Proof.
  unfold createSale, bind, fails. intros H.
  destruct (insert_sales _ _ _ db) as [db1 [s|e1]] eqn:E1.
  - pose proof (insert_sales_returned _ _ _ _ _ _ E1) as (_ & -> & Hs & _).
    assert (Hid : Sale.id s = gen_random_uuid env 0) by now rewrite Hs.
    assert (Hrow : s = sale_row env saleData) by exact Hs.
    rewrite Hid in H. subst s. right. split; [reflexivity|].
    destruct (createSale_items _ _ _ _ _) as [db2 [[]|e2]] eqn:E2.
    + apply createSale_items_returned in E2. destruct E2 as [-> _].
      destruct (insert_invoices _ _ _ _ _) as [db3 [i|e3]] eqn:E3;
        [discriminate|].
      pose proof (insert_invoices_thrown _ _ _ _ _ _ _ E3) as ->.
      inversion H; subst db' e3. clear H.
      exists (List.length items). split; [lia|]. right. right.
      unfold sale_and_items. rewrite firstn_all.
      split; [reflexivity|]. split; [exact E3|reflexivity].
    + inversion H; subst db2 e2. clear H.
      apply createSale_items_thrown in E2.
      destruct E2 as (n & item & Hnth & E2). cbv zeta in E2.
      assert (Hn : (n < List.length items)%nat).
      { apply nth_error_Some. congruence. }
      exists n. split; [lia|].
      destruct E2 as [[Hfail ->]|[Hfail ->]].
      * left. exists item. split; [exact Hnth|]. split; [exact Hfail|].
        reflexivity.
      * right. left. exists item. split; [exact Hnth|].
        unfold sale_items_and_row. rewrite Hnth.
        split; [exact Hfail|reflexivity].
  - pose proof (insert_sales_thrown _ _ _ _ _ _ E1) as ->.
    inversion H; subst. left. split; reflexivity.
Qed.

(** ** Authorization *)

Lemma filter_nonempty {A} (f : A -> bool) (l : list A) :
  (exists x, In x l /\ f x = true) <-> filter f l <> [].
Proof.
  split.
  - intros (x & Hin & Hf) Hnil.
    assert (Hx : In x (filter f l)) by (apply filter_In; auto).
    rewrite Hnil in Hx. exact Hx.
  - intros Hne. destruct (filter f l) as [|x rest] eqn:E; [congruence|].
    exists x. apply filter_In. rewrite E. now left.
Qed.

Lemma authorized_spec db userId businessId :
  isUserAuthorizedForBusiness db userId businessId = true
  <-> owns db userId businessId \/ works_at db userId businessId.
Proof.
  unfold isUserAuthorizedForBusiness, owns, works_at.
  set (fb := fun b => _ && _). set (fe := fun e => _ && _).
  pose proof (filter_nonempty fb (businesses db)) as Hb.
  pose proof (filter_nonempty fe (businessEmployees db)) as He.
  split.
  - intros H. destruct (filter fb (businesses db)) eqn:Eb.
    + destruct (filter fe (businessEmployees db)) eqn:Ee; [discriminate|].
      right. destruct He as [_ He]. destruct He as (e & Hin & Hf);
        [discriminate|].
      exists e. subst fe. cbv beta in Hf.
      apply andb_true_iff in Hf. destruct Hf as [H1 H2].
      apply String.eqb_eq in H1, H2. auto.
    + left. destruct Hb as [_ Hb]. destruct Hb as (b & Hin & Hf);
        [discriminate|].
      exists b. subst fb. cbv beta in Hf.
      apply andb_true_iff in Hf. destruct Hf as [H1 H2].
      apply String.eqb_eq in H1, H2. auto.
  - intros [(b & Hin & H1 & H2)|(e & Hin & H1 & H2)].
    + destruct (filter fb (businesses db)) eqn:Eb; [|reflexivity].
      exfalso. apply Hb; [|reflexivity]. exists b. split; [exact Hin|].
      subst fb. cbv beta. rewrite H1, H2, !String.eqb_refl. reflexivity.
    + destruct (filter fb (businesses db)); [|reflexivity].
      destruct (filter fe (businessEmployees db)) eqn:Ee; [|reflexivity].
      exfalso. apply He; [|reflexivity]. exists e. split; [exact Hin|].
      subst fe. cbv beta. rewrite H1, H2, !String.eqb_refl. reflexivity.
Qed.

(** C5.  [isUserAuthorizedForBusiness(userId, businessId)] is true exactly
    when a business with that id has [ownerId = userId] or a
    [business_employees] row joins that user to that business; for every
    other pair it is false, in particular for a user whose only employee
    rows are for other businesses. *)
Theorem isUserAuthorizedForBusiness_owner_or_employee :
  forall db userId businessId,
    (isUserAuthorizedForBusiness db userId businessId = true
     <-> owns db userId businessId \/ works_at db userId businessId)
    /\ (isUserAuthorizedForBusiness db userId businessId = false
        <-> ~ owns db userId businessId
            /\ forall e, In e (businessEmployees db) ->
                         BusinessEmployee.userId e = userId ->
                         BusinessEmployee.businessId e <> businessId).
Proof.
  intros db userId businessId.
  pose proof (authorized_spec db userId businessId) as Hspec.
  split; [exact Hspec|].
  split.
  - intros Hf. split.
    + intros Ho. assert (Ht : isUserAuthorizedForBusiness db userId businessId
                              = true) by (apply Hspec; now left).
      congruence.
    + intros e Hin Hu Hb.
      assert (Ht : isUserAuthorizedForBusiness db userId businessId = true)
        by (apply Hspec; right; exists e; auto).
      congruence.
  - intros [Hno Hne].
    destruct (isUserAuthorizedForBusiness db userId businessId) eqn:E;
      [|reflexivity].
    exfalso. destruct Hspec as [Hspec _].
    destruct (Hspec eq_refl) as [Ho|(e & Hin & Hb & Hu)]; [auto|].
    exact (Hne e Hin Hu Hb).
Qed.

Example dave_works_elsewhere :
  isUserAuthorizedForBusiness ex_db "dave" "b2" = true
  /\ isUserAuthorizedForBusiness ex_db "dave" "b1" = false
  /\ isUserAuthorizedForBusiness ex_db "alice" "b1" = true
  /\ isUserAuthorizedForBusiness ex_db "bob" "b1" = true
  /\ isUserAuthorizedForBusiness ex_db "alice" "b2" = false.
Proof. repeat split; reflexivity. Qed.

(** ** Rejections of the two sale handlers *)

Lemma reason_incl db businessId lines lines' r :
  incl lines lines' ->
  reason db businessId lines r -> reason db businessId lines' r.
Proof.
  intros Hincl H. destruct H.
  - eapply reason_not_found; eauto.
  - eapply reason_other_business; eauto.
  - eapply reason_insufficient; eauto.
Qed.

Lemma check_line_inl db businessId productId quantity r :
  check_line businessId productId quantity (getProduct db productId) = inl r ->
  reason db businessId [(productId, quantity)] r.
Proof.
  unfold check_line. destruct (getProduct db productId) as [p|] eqn:E.
  - destruct (String.eqb (Product.businessId p) businessId) eqn:Eb; cbn.
    + destruct (stock_or_0 p <? quantity) eqn:Es; [|discriminate].
      intros H. inversion H; subst.
      eapply reason_insufficient; [now left|exact E|].
      now apply Z.ltb_lt.
    + intros H. inversion H; subst.
      eapply reason_other_business; [now left|exact E|].
      now apply String.eqb_neq.
  - intros H. inversion H; subst.
    eapply reason_not_found; [now left|exact E].
Qed.

Lemma check_line_inr db businessId productId quantity p :
  check_line businessId productId quantity (getProduct db productId) = inr p ->
  getProduct db productId = Some p
  /\ Product.businessId p = businessId
  /\ quantity <= stock_or_0 p.
Proof.
  unfold check_line. destruct (getProduct db productId) as [q|];
    [|discriminate].
  destruct (String.eqb (Product.businessId q) businessId) eqn:Eb; cbn;
    [|discriminate].
  destruct (stock_or_0 q <? quantity) eqn:Es; [discriminate|].
  intros H. inversion H; subst. apply String.eqb_eq in Eb.
  apply Z.ltb_ge in Es. auto.
Qed.

Lemma check_line_fails db businessId productId quantity :
  line_fails db businessId productId quantity ->
  exists r,
    check_line businessId productId quantity (getProduct db productId) = inl r.
Proof.
  unfold line_fails. intros H.
  destruct (check_line _ _ _ _) as [r|p] eqn:E; [now exists r|].
  apply check_line_inr in E. destruct E as (E & Hb & Hs).
  rewrite E in H. destruct H; [congruence|lia].
Qed.

Lemma verify_items_reason db businessId items r :
  verify_items db businessId items = Some r ->
  reason db businessId (web_lines items) r.
Proof.
  induction items as [|item rest IH]; cbn; [discriminate|].
  destruct (check_line _ _ _ _) as [r'|p] eqn:E.
  - intros H. inversion H; subst. apply check_line_inl in E.
    eapply reason_incl; [|exact E].
    intros x [<-|[]]. now left.
  - intros H. eapply reason_incl; [|exact (IH H)].
    intros x Hx. now right.
Qed.

Lemma verify_items_fails db businessId items item :
  In item items ->
  line_fails db businessId (InsertSaleItem.productId item)
             (InsertSaleItem.quantity item) ->
  exists r, verify_items db businessId items = Some r.
Proof.
  induction items as [|i rest IH]; intros Hin Hf; [destruct Hin|].
  cbn. destruct (check_line _ _ _ _) as [r'|p] eqn:E; [now exists r'|].
  destruct Hin as [->|Hin]; [|now apply IH].
  apply check_line_fails in Hf. destruct Hf as (r & Hr). congruence.
Qed.

Lemma resolve_items_reason db businessId lines :
  forall items totalAmount r,
    resolve_items db businessId lines items totalAmount = inl r ->
    reason db businessId (game_lines lines) r.
Proof.
  induction lines as [|line rest IH]; intros items totalAmount r; cbn;
    [discriminate|].
  destruct (check_line _ _ _ _) as [r'|p] eqn:E.
  - intros H. inversion H; subst. apply check_line_inl in E.
    eapply reason_incl; [|exact E].
    intros x [<-|[]]. now left.
  - intros H. eapply reason_incl; [|exact (IH _ _ _ H)].
    intros x Hx. now right.
Qed.

Lemma resolve_items_fails db businessId lines line :
  In line lines ->
  line_fails db businessId (GameItem.productId line) (GameItem.quantity line) ->
  forall items totalAmount,
    exists r, resolve_items db businessId lines items totalAmount = inl r.
Proof.
  induction lines as [|l rest IH]; intros Hin Hf items totalAmount;
    [destruct Hin|].
  cbn. destruct (check_line _ _ _ _) as [r'|p] eqn:E; [now exists r'|].
  destruct Hin as [->|Hin]; [|now apply IH].
  apply check_line_fails in Hf. destruct Hf as (r & Hr). congruence.
Qed.

Lemma find_all_false {A} (f : A -> bool) (l : list A) :
  (forall x, In x l -> f x = false) -> find f l = None.
Proof.
  induction l as [|a l IH]; intros H; [reflexivity|].
  cbn. rewrite (H a (or_introl eq_refl)). apply IH.
  intros x Hx. apply H. now right.
Qed.

Lemma getBusinessByApiKey_none db apiKey :
  (forall b, In b (businesses db) -> Business.apiKey b <> Some apiKey) ->
  getBusinessByApiKey db apiKey = None.
Proof.
  intros H. apply find_all_false. intros b Hb.
  specialize (H b Hb). destruct (Business.apiKey b) as [k|]; [|reflexivity].
  apply String.eqb_neq. congruence.
Qed.

(** C4, counterexample.  Alice asks for four of the three wrenches on the
    web and leaves the buyer's name empty; the game server does the same.
    Both requests are rejected without a write, but with the catch-all
    message of the handler, which names neither the product nor what is
    wrong with it: the schema is checked before the lines are looked at. *)
Lemma refused_body_is_not_told_the_failing_line :
  let web := SalesBody.mk "b1" "" None (Dec 40000 2) None None
               [InsertSaleItem.mk "p1" "Wrench" 4 (Dec 10000 2) (Dec 40000 2)] in
  let game := GameSalesBody.mk "rp_garage" "" None None [GameItem.mk "p1" 4] in
  line_fails ex_db "b1" "p1" 4
  /\ post_sales (ex_env 1733300000000 "a") "alice" web ex_db
     = (ex_db, json 400 "Failed to create sale")
  /\ ~ reason ex_db "b1" (web_lines (SalesBody.items web))
              (json 400 "Failed to create sale")
  /\ post_game_sales (ex_env 1733300000000 "a") game ex_db
     = (ex_db, json 400 "Failed to process sale")
  /\ ~ reason ex_db "b1" (game_lines (GameSalesBody.items game))
              (json 400 "Failed to process sale").
Proof.
  cbv zeta. split; [unfold line_fails; cbn; right; lia|].
  split; [vm_compute; reflexivity|].
  split; [intros H; inversion H|].
  split; [vm_compute; reflexivity|].
  intros H; inversion H.
Qed.

(** C4, as the code has it.  A sale request that has a line whose product
    does not exist, belongs to another business than the one targeted, or
    has less stock than the quantity asked, is rejected and the database is
    left as it was, whatever else the request says.  What the answer says
    depends on the checks that come before the lines: a body the schema
    refuses gets the catch-all 400 of the handler; then an unauthorized user
    gets 403 on [POST /api/sales] and an unknown API key 401 on
    [POST /api/game/sales]; only then is the answer a 400 that names the
    product of a failing line and what is wrong with it. *)
Theorem failing_line_rejected_without_write :
  (forall env userId data db item,
      In item (SalesBody.items data) ->
      line_fails db (SalesBody.businessId data)
                 (InsertSaleItem.productId item)
                 (InsertSaleItem.quantity item) ->
      fst (post_sales env userId data db) = db
      /\ if sales_schema data then
           if isUserAuthorizedForBusiness db userId (SalesBody.businessId data)
           then reason db (SalesBody.businessId data)
                       (web_lines (SalesBody.items data))
                       (snd (post_sales env userId data db))
           else snd (post_sales env userId data db)
                = json 403 "Not authorized to create sales for this business"
         else snd (post_sales env userId data db)
              = json 400 "Failed to create sale")
  /\ (forall env data db line,
         In line (GameSalesBody.items data) ->
         (forall business,
             getBusinessByApiKey db (GameSalesBody.businessApiKey data)
             = Some business ->
             line_fails db (Business.id business)
                        (GameItem.productId line) (GameItem.quantity line)) ->
         fst (post_game_sales env data db) = db
         /\ if game_schema data then
              match getBusinessByApiKey db (GameSalesBody.businessApiKey data)
              with
              | Some business =>
                  reason db (Business.id business)
                         (game_lines (GameSalesBody.items data))
                         (snd (post_game_sales env data db))
              | None => snd (post_game_sales env data db)
                        = json 401 "Invalid API key"
              end
            else snd (post_game_sales env data db)
                 = json 400 "Failed to process sale").
Proof.
  split.
  - intros env userId data db item Hin Hfails.
    unfold post_sales.
    destruct (sales_schema data); cbn [negb]; [|split; reflexivity].
    destruct (isUserAuthorizedForBusiness db userId (SalesBody.businessId data));
      cbn [negb]; [|split; reflexivity].
    destruct (verify_items_fails _ _ _ _ Hin Hfails) as (r & Hr).
    rewrite Hr. split; [reflexivity|]. now apply verify_items_reason.
  - intros env data db line Hin Hfails.
    unfold post_game_sales.
    destruct (game_schema data); cbn [negb]; [|split; reflexivity].
    destruct (getBusinessByApiKey db (GameSalesBody.businessApiKey data))
      as [business|] eqn:Ekey; [|split; reflexivity].
    destruct (resolve_items_fails _ _ _ _ Hin (Hfails business eq_refl) [] 0)
      as (r & Hr).
    rewrite Hr. split; [reflexivity|].
    eapply resolve_items_reason. exact Hr.
Qed.

(** Three wrenches are in stock: Alice asking for four on the web, and the
    game server asking for four, are both told so, and nothing is written. *)
Lemma failing_line_rejected_without_write_witness :
  let web := SalesBody.mk "b1" "Trevor" None (Dec 40000 2) None None
               [InsertSaleItem.mk "p1" "Wrench" 4 (Dec 10000 2) (Dec 40000 2)] in
  let game := GameSalesBody.mk "rp_garage" "Trevor" None None
                [GameItem.mk "p1" 4] in
  (fst (post_sales (ex_env 1733300000000 "a") "alice" web ex_db) = ex_db
   /\ reason ex_db "b1" [("p1", 4)]
             (snd (post_sales (ex_env 1733300000000 "a") "alice" web ex_db)))
  /\ (fst (post_game_sales (ex_env 1733300000000 "a") game ex_db) = ex_db
      /\ reason ex_db "b1" [("p1", 4)]
                (snd (post_game_sales (ex_env 1733300000000 "a") game ex_db))).
Proof.
  cbv zeta. split.
  - apply (proj1 failing_line_rejected_without_write
             (ex_env 1733300000000 "a") "alice"
             (SalesBody.mk "b1" "Trevor" None (Dec 40000 2) None None
                [InsertSaleItem.mk "p1" "Wrench" 4 (Dec 10000 2)
                                   (Dec 40000 2)])
             ex_db
             (InsertSaleItem.mk "p1" "Wrench" 4 (Dec 10000 2) (Dec 40000 2))).
    + simpl. now left.
    + unfold line_fails. simpl. right. unfold stock_or_0. simpl. lia.
  - apply (proj2 failing_line_rejected_without_write
             (ex_env 1733300000000 "a")
             (GameSalesBody.mk "rp_garage" "Trevor" None None
                [GameItem.mk "p1" 4])
             ex_db (GameItem.mk "p1" 4)).
    + simpl. now left.
    + intros business H. vm_compute in H. inversion H; subst.
      unfold line_fails. simpl. right. unfold stock_or_0. simpl. lia.
Defined.

Example insufficient_stock_message :
  post_game_sales (ex_env 1733300000000 "a")
    (GameSalesBody.mk "rp_garage" "Trevor" None None [GameItem.mk "p1" 4])
    ex_db
  = (ex_db, json 400 "Insufficient stock for Wrench").
Proof. vm_compute. reflexivity. Qed.

Example other_business_message :
  post_sales (ex_env 1733300000000 "a") "alice"
    (SalesBody.mk "b1" "Trevor" None (Dec 550 2) None None
       [InsertSaleItem.mk "p2" "Burger" 1 (Dec 550 2) (Dec 550 2)]) ex_db
  = (ex_db, json 400 "Product Burger does not belong to this business").
Proof. vm_compute. reflexivity. Qed.

Example not_found_message :
  post_sales (ex_env 1733300000000 "a") "alice"
    (SalesBody.mk "b1" "Trevor" None (Dec 550 2) None None
       [InsertSaleItem.mk "p9" "Ghost" 1 (Dec 550 2) (Dec 550 2)]) ex_db
  = (ex_db, json 400 "Product p9 not found").
Proof. vm_compute. reflexivity. Qed.

(** An unauthorized user is told so, not which line fails. *)
Example unauthorized_before_lines :
  post_sales (ex_env 1733300000000 "a") "dave"
    (SalesBody.mk "b1" "Trevor" None (Dec 550 2) None None
       [InsertSaleItem.mk "p9" "Ghost" 1 (Dec 550 2) (Dec 550 2)]) ex_db
  = (ex_db, json 403 "Not authorized to create sales for this business").
Proof. vm_compute. reflexivity. Qed.

(** C8, counterexample.  The game server sends a key that is not a
    business's together with an empty buyer name, or with a quantity of
    zero: the answer is the catch-all 400 of the handler, not 401, because
    the schema is checked before the key is looked up.  Nothing is
    written. *)
Lemma unknown_api_key_with_refused_body_gets_400 :
  let unnamed := GameSalesBody.mk "rp_stolen" "" None None
                   [GameItem.mk "p1" 1] in
  let nothing := GameSalesBody.mk "rp_stolen" "Trevor" None None
                   [GameItem.mk "p1" 0] in
  getBusinessByApiKey ex_db "rp_stolen" = None
  /\ post_game_sales (ex_env 1733300000000 "a") unnamed ex_db
     = (ex_db, json 400 "Failed to process sale")
  /\ post_game_sales (ex_env 1733300000000 "a") nothing ex_db
     = (ex_db, json 400 "Failed to process sale")
  /\ status (snd (post_game_sales (ex_env 1733300000000 "a") unnamed ex_db))
     <> 401.
Proof.
  cbv zeta. repeat split; try (vm_compute; reflexivity).
  vm_compute. discriminate.
Qed.

(** C8, as the code has it.  A game-path sale request whose
    [businessApiKey] is the key of no business is rejected and the database
    is left as it was: no row is created in any table and no stock changes.
    The answer is 401 "Invalid API key" when the body passes the schema of
    the handler, and its catch-all 400 when it does not. *)
Theorem unknown_api_key_rejected :
  forall env data db,
    (forall b, In b (businesses db) ->
               Business.apiKey b <> Some (GameSalesBody.businessApiKey data)) ->
    post_game_sales env data db
    = (db, if game_schema data then json 401 "Invalid API key"
           else json 400 "Failed to process sale").
Proof.
  intros env data db Hkey.
  unfold post_game_sales.
  destruct (game_schema data); cbn [negb]; [|reflexivity].
  now rewrite (getBusinessByApiKey_none _ _ Hkey).
Qed.

Lemma unknown_api_key_rejected_witness :
  post_game_sales (ex_env 1733300000000 "a")
    (GameSalesBody.mk "rp_stolen" "Trevor" None None [GameItem.mk "p1" 1])
    ex_db
  = (ex_db, json 401 "Invalid API key").
Proof.
  apply (unknown_api_key_rejected (ex_env 1733300000000 "a")
           (GameSalesBody.mk "rp_stolen" "Trevor" None None
              [GameItem.mk "p1" 1]) ex_db).
  simpl. intros b [<-|[<-|[]]]; simpl; discriminate.
Defined.

(** ** The tables after a sale *)

Lemma sale_persisted_tables env saleData items db :
  let db' := sale_persisted env saleData items db in
  users db' = users db
  /\ businesses db' = businesses db
  /\ businessEmployees db' = businessEmployees db
  /\ products db' = decrement_all env items (products db)
  /\ sales db' = (sales db ++ [sale_row env saleData])%list
  /\ saleItems db' = (saleItems db
                      ++ item_rows env (gen_random_uuid env 0) 1 items)%list
  /\ invoices db' = (invoices db
                     ++ [invoice_row env (List.length items)])%list.
Proof.
  unfold sale_persisted, sale_and_items. rewrite firstn_all.
  cbn. repeat split; reflexivity.
Qed.

(** A 201 of [POST /api/game/sales] comes from a [createSale] that returned,
    called with the items and total the loop resolved. *)
Lemma post_game_sales_created env data db db' body :
  post_game_sales env data db = (db', mkResponse 201 body) ->
  exists business items totalAmount,
    getBusinessByApiKey db (GameSalesBody.businessApiKey data) = Some business
    /\ resolve_items db (Business.id business) (GameSalesBody.items data) [] 0
       = inr (items, totalAmount)
    /\ let saleData :=
         InsertSale.mk (Business.id business)
           (resolve_seller db business (GameSalesBody.sellerId data))
           (GameSalesBody.buyerName data) (GameSalesBody.buyerInfo data)
           (text totalAmount) (Some SaleCompleted) (Some SourceGame) in
       createSale env saleData items db
       = (db', Returned (sale_row env saleData,
                         invoice_row env (List.length items)))
       /\ db' = sale_persisted env saleData items db
       /\ body = GameSaleJson (gen_random_uuid env 0)
                              (invoiceNumberAt (now env)) totalAmount.
Proof.
  unfold post_game_sales.
  destruct (game_schema data); cbn [negb]; [|intros H; inversion H].
  destruct (getBusinessByApiKey _ _) as [business|]; [|intros H; inversion H].
  destruct (resolve_items _ _ _ _ _) as [r|[items totalAmount]] eqn:Eitems.
  - intros H. inversion H; subst.
    apply resolve_items_reason in Eitems. inversion Eitems.
  - destruct (createSale _ _ _ _) as [db1 [[sale invoice]|e]] eqn:Ecreate;
      [|intros H; inversion H].
    intros H. inversion H; subst db1 body. clear H.
    exists business, items, totalAmount.
    split; [reflexivity|]. split; [exact Eitems|].
    cbv zeta. pose proof (createSale_returned _ _ _ _ _ _ _ Ecreate) as Hc.
    destruct Hc as (-> & -> & -> & _). repeat split; auto.
Qed.

(** ** Product updates *)

Lemma find_map_hit {A} (hit : A -> bool) (f : A -> A) (l : list A) :
  (forall a, hit (f a) = hit a) ->
  find hit (map (fun a => if hit a then f a else a) l)
  = option_map f (find hit l).
Proof.
  intros Hf. induction l as [|a l IH]; [reflexivity|].
  cbn. destruct (hit a) eqn:Ea.
  - now rewrite Hf, Ea.
  - now rewrite Ea.
Qed.




(** What [updateProduct] alone does with the same patch: the handler's
    [delete updateData.businessId] is what keeps the product in place. *)
Example updateProduct_moves_product :
  map Product.businessId
      (products (fst (updateProduct (ex_env 1733300000000 "a") "p1" ex_patch
                        ex_db)))
  = ["b2"; "b2"].
Proof. vm_compute. reflexivity. Qed.

(** ** Invoice updates *)

(** The tables after [updateInvoice], whether it returns or throws: an
    update that sets nothing leaves every row as it is. *)
Lemma updateInvoice_invoices env id data db :
  invoices (fst (updateInvoice env id data db))
  = map (fun i => if String.eqb (Invoice.id i) id
                  then set_invoice
                         (if stamps_paidAt data then
                            InvoicePatch.mk (InvoicePatch.status data)
                              (InvoicePatch.dueDate data)
                              (Some (Some (now env)))
                          else data) i
                  else i)
        (invoices db).
Proof.
  unfold updateInvoice. cbv zeta.
  set (updateData := if stamps_paidAt data then _ else data).
  destruct (InvoicePatch.status updateData) eqn:Es; [reflexivity|].
  destruct (InvoicePatch.dueDate updateData) eqn:Ed; [reflexivity|].
  destruct (InvoicePatch.paidAt updateData) eqn:Ep; [reflexivity|].
  cbn [fst]. rewrite <- (map_id (invoices db)) at 1. apply map_ext.
  intros i. destruct (String.eqb (Invoice.id i) id); [|reflexivity].
  unfold set_invoice. rewrite Es, Ed, Ep. now destruct i.
Qed.

Lemma updateInvoice_frame env id data db :
  fst (updateInvoice env id data db)
  = set_invoices (invoices (fst (updateInvoice env id data db))) db.
Proof.
  unfold updateInvoice. cbv zeta.
  set (updateData := if stamps_paidAt data then _ else data).
  destruct (InvoicePatch.status updateData);
    [reflexivity|destruct (InvoicePatch.dueDate updateData);
                 [reflexivity|destruct (InvoicePatch.paidAt updateData);
                              [reflexivity|]]].
  cbn. now destruct db.
Qed.

Lemma updateInvoice_rows env id data db i :
  In i (invoices (fst (updateInvoice env id data db))) ->
  Invoice.id i = id ->
  exists i0,
    In i0 (invoices db) /\ Invoice.id i0 = id
    /\ i = set_invoice
             (if stamps_paidAt data then
                InvoicePatch.mk (InvoicePatch.status data)
                  (InvoicePatch.dueDate data) (Some (Some (now env)))
              else data) i0.
Proof.
  rewrite updateInvoice_invoices.
  intros Hin Hid. apply in_map_iff in Hin. destruct Hin as (i0 & Hi & Hin0).
  destruct (String.eqb (Invoice.id i0) id) eqn:E.
  - apply String.eqb_eq in E. exists i0. auto.
  - subst i. apply String.eqb_neq in E. contradiction.
Qed.

(** C7, counterexample.  Alice marks invoice [a2] paid one minute after the
    sale and again one minute later: the second update replaces the paid
    timestamp of the first. *)
Lemma paid_again_changes_paidAt :
  let db1 := fst (patch_invoices (ex_env 1733300060000 "b") "alice" "a2"
                    ex_pay ex_db_sold) in
  let db2 := fst (patch_invoices (ex_env 1733300120000 "c") "alice" "a2"
                    ex_pay db1) in
  map Invoice.paidAt (invoices ex_db_sold) = [None]
  /\ map Invoice.status (invoices db1) = [Some InvoicePaid]
  /\ map Invoice.paidAt (invoices db1) = [Some 1733300060000]
  /\ map Invoice.status (invoices db2) = [Some InvoicePaid]
  /\ map Invoice.paidAt (invoices db2) = [Some 1733300120000]
  /\ map Invoice.paidAt (invoices db2) <> map Invoice.paidAt (invoices db1).
Proof.
  vm_compute. repeat split; try reflexivity. discriminate.
Qed.

(** C7, as the code has it.  An update that sets [status] to "paid" and
    carries no [paidAt] of its own stamps [paidAt] with the time of that
    update, whatever was stored before; [PATCH /api/invoices/:id] never
    carries a [paidAt], so each of its updates to "paid" that is answered
    200 leaves the invoice paid with the time of that update: the first
    sets a non-null [paidAt], a later one replaces it. *)
Theorem paid_update_stamps_time_of_update :
  (forall env id data db i,
      stamps_paidAt data = true ->
      In i (invoices (fst (updateInvoice env id data db))) ->
      Invoice.id i = id ->
      Invoice.status i = Some InvoicePaid
      /\ Invoice.paidAt i = Some (now env))
  /\ (forall env userId invoiceId body db,
         InvoiceBody.status body = Some InvoicePaid ->
         status (snd (patch_invoices env userId invoiceId body db)) = 200 ->
         forall i,
           In i (invoices (fst (patch_invoices env userId invoiceId body db))) ->
           Invoice.id i = invoiceId ->
           Invoice.status i = Some InvoicePaid
           /\ Invoice.paidAt i = Some (now env)).
Proof.
  assert (Hstorage : forall env id data db i,
             stamps_paidAt data = true ->
             In i (invoices (fst (updateInvoice env id data db))) ->
             Invoice.id i = id ->
             Invoice.status i = Some InvoicePaid
             /\ Invoice.paidAt i = Some (now env)).
  { intros env id data db i Hstamp Hin Hid.
    destruct (updateInvoice_rows _ _ _ _ _ Hin Hid) as (i0 & _ & _ & ->).
    rewrite Hstamp. unfold stamps_paidAt in Hstamp.
    destruct (InvoicePatch.status data) as [[[]|]|] eqn:Es; try discriminate.
    cbn. auto. }
  split; [exact Hstorage|].
  intros env userId invoiceId body db Hpaid. unfold patch_invoices.
  destruct (getInvoice db invoiceId) as [[existing sale]|];
    [|cbn; discriminate].
  match goal with |- context [if ?c then _ else _] => destruct c end;
    [cbn; discriminate|].
  destruct (InvoiceBody.dueDate body); [cbn; discriminate|].
  rewrite Hpaid. intros _ i Hin Hid.
  apply (Hstorage env invoiceId
           (InvoicePatch.mk (option_map Some (Some InvoicePaid)) None None)
           db i);
    [reflexivity| |exact Hid].
  revert Hin.
  now destruct (updateInvoice env invoiceId
                  (InvoicePatch.mk (option_map Some (Some InvoicePaid)) None
                     None) db) as [db' [invoice|e]].
Qed.

Lemma paid_update_stamps_time_of_update_witness :
  let i := Invoice.mk "a2" "a0" "INV-M49M2FI8" (Some InvoicePaid)
             (Some 1733300000000) None (Some 1733300060000) in
  In i (invoices (fst (patch_invoices (ex_env 1733300060000 "b") "alice"
                         "a2" ex_pay ex_db_sold)))
  /\ Invoice.status i = Some InvoicePaid
  /\ Invoice.paidAt i = Some (now (ex_env 1733300060000 "b")).
Proof.
  cbv zeta.
  assert (Hin : In (Invoice.mk "a2" "a0" "INV-M49M2FI8" (Some InvoicePaid)
                      (Some 1733300000000) None (Some 1733300060000))
                   (invoices (fst (patch_invoices (ex_env 1733300060000 "b")
                                     "alice" "a2" ex_pay ex_db_sold))))
    by (vm_compute; left; reflexivity).
  split; [exact Hin|].
  apply (proj2 paid_update_stamps_time_of_update
           (ex_env 1733300060000 "b") "alice" "a2" ex_pay ex_db_sold).
  - reflexivity.
  - vm_compute. reflexivity.
  - exact Hin.
  - reflexivity.
Defined.

(** ** The invoice of a sale *)

Lemma has_id_true ids id : has_id ids id = true <-> In id ids.
Proof.
  unfold has_id. rewrite existsb_exists. split.
  - intros (x & Hin & Heq). apply String.eqb_eq in Heq. now subst.
  - intros Hin. exists id. split; [exact Hin|apply String.eqb_refl].
Qed.

Lemma has_id_false ids id : has_id ids id = false <-> ~ In id ids.
Proof.
  rewrite <- has_id_true. destruct (has_id ids id); split; intros H;
    congruence.
Qed.

Lemma filter_all_false {A} (f : A -> bool) (l : list A) :
  (forall x, In x l -> f x = false) -> filter f l = [].
Proof.
  induction l as [|a l IH]; intros H; [reflexivity|].
  cbn. rewrite (H a (or_introl eq_refl)). apply IH.
  intros x Hx. apply H. now right.
Qed.

Lemma filter_snoc_only {A} (f : A -> bool) (l : list A) (x : A) :
  (forall y, In y l -> f y = false) -> f x = true ->
  filter f (l ++ [x]) = [x].
Proof.
  intros Hl Hx. rewrite filter_app, (filter_all_false f l Hl).
  cbn. now rewrite Hx.
Qed.

Lemma createSale_one_pending_invoice env saleData items db db' sale invoice :
  invoices_reference_sales db ->
  createSale env saleData items db = (db', Returned (sale, invoice)) ->
  one_pending_invoice db' sale invoice.
Proof.
  intros Hrefs Hcreate.
  apply createSale_returned in Hcreate.
  destruct Hcreate as (-> & -> & -> & Hfresh & Hnumber).
  destruct (sale_persisted_tables env saleData items db)
    as (_ & _ & _ & _ & Hsales & _ & Hinvoices).
  apply has_id_false in Hfresh, Hnumber.
  unfold one_pending_invoice, invoices_of, invoices_numbered.
  rewrite Hsales, Hinvoices. split; [apply in_or_app; right; now left|].
  split; [|split; [reflexivity|]].
  - apply filter_snoc_only; [|apply String.eqb_refl].
    intros i Hi. apply String.eqb_neq. intros Heq.
    apply Hfresh. change (Sale.id (sale_row env saleData))
      with (gen_random_uuid env 0) in Heq.
    rewrite <- Heq. now apply Hrefs.
  - apply filter_snoc_only; [|apply String.eqb_refl].
    intros i Hi. apply String.eqb_neq. intros Heq.
    apply Hnumber.
    change (Invoice.invoiceNumber (invoice_row env (List.length items)))
      with (invoiceNumberAt (now env)) in Heq.
    rewrite <- Heq. now apply in_map.
Qed.

(** A 201 of [POST /api/sales] comes from a [createSale] that returned,
    called with the request's own items and total. *)
Lemma post_sales_created env userId data db db' body :
  post_sales env userId data db = (db', mkResponse 201 body) ->
  let saleData :=
    InsertSale.mk (SalesBody.businessId data) userId
      (SalesBody.buyerName data) (SalesBody.buyerInfo data)
      (SalesBody.totalAmount data) (SalesBody.status data)
      (SalesBody.source data) in
  createSale env saleData (SalesBody.items data) db
  = (db', Returned (sale_row env saleData,
                    invoice_row env (List.length (SalesBody.items data))))
  /\ db' = sale_persisted env saleData (SalesBody.items data) db
  /\ body = SaleJson (sale_row env saleData)
                     (invoice_row env (List.length (SalesBody.items data))).
Proof.
  unfold post_sales.
  destruct (sales_schema data); cbn [negb]; [|intros H; inversion H].
  destruct (isUserAuthorizedForBusiness _ _ _); cbn [negb];
    [|intros H; inversion H].
  destruct (verify_items _ _ _) as [r|] eqn:Everify.
  - intros H. inversion H; subst.
    apply verify_items_reason in Everify. inversion Everify.
  - destruct (createSale _ _ _ _) as [db1 [[sale invoice]|e]] eqn:Ecreate;
      [|intros H; inversion H].
    intros H. inversion H; subst db1 body. clear H. cbv zeta.
    pose proof (createSale_returned _ _ _ _ _ _ _ Ecreate) as Hc.
    destruct Hc as (-> & -> & -> & _). repeat split; auto.
Qed.

(** C6.  Every sale creation that succeeds, by [createSale] itself or
    through either handler answering 201, leaves the new sale stored
    with exactly one invoice row referencing it; that invoice has status
    "pending" and an invoice number carried by no other invoice row. *)
Theorem created_sale_has_one_pending_invoice :
  forall db,
    invoices_reference_sales db ->
    (forall env saleData items db' sale invoice,
        createSale env saleData items db = (db', Returned (sale, invoice)) ->
        one_pending_invoice db' sale invoice)
    /\ (forall env userId data db' body,
           post_sales env userId data db = (db', mkResponse 201 body) ->
           exists sale invoice,
             body = SaleJson sale invoice
             /\ one_pending_invoice db' sale invoice)
    /\ (forall env data db' body,
           post_game_sales env data db = (db', mkResponse 201 body) ->
           exists sale invoice,
             body = GameSaleJson (Sale.id sale)
                      (Invoice.invoiceNumber invoice) (Sale.totalAmount sale)
             /\ one_pending_invoice db' sale invoice).
Proof.
  intros db Hrefs. split; [|split].
  - intros env saleData items db' sale invoice Hcreate.
    now apply (createSale_one_pending_invoice env saleData items db).
  - intros env userId data db' body H201.
    apply post_sales_created in H201. cbv zeta in H201.
    destruct H201 as (Hcreate & _ & ->).
    eexists _, _. split; [reflexivity|].
    eapply createSale_one_pending_invoice; eauto.
  - intros env data db' body H201.
    apply post_game_sales_created in H201.
    destruct H201 as (business & items & totalAmount & _ & _ & H).
    cbv zeta in H. destruct H as (Hcreate & _ & ->).
    eexists _, _. split; [|eapply createSale_one_pending_invoice; eauto].
    reflexivity.
Qed.

(** After the first sale, the game server sells a third wrench a minute
    later: the new sale [b0] gets the one invoice [INV-M49M3PSW]. *)
Lemma created_sale_has_one_pending_invoice_witness :
  let env := ex_env 1733300060000 "b" in
  let data := GameSalesBody.mk "rp_garage" "Franklin" None (Some "bob")
                [GameItem.mk "p1" 1] in
  let db' := fst (post_game_sales env data ex_db_sold) in
  exists sale invoice,
    GameSaleJson "b0" "INV-M49M3PSW" 10000
    = GameSaleJson (Sale.id sale) (Invoice.invoiceNumber invoice)
                   (Sale.totalAmount sale)
    /\ one_pending_invoice db' sale invoice.
Proof.
  cbv zeta.
  assert (Hrefs : invoices_reference_sales ex_db_sold).
  { intros i Hi. vm_compute in Hi. destruct Hi as [<-|[]].
    vm_compute. now left. }
  apply (proj2 (proj2 (created_sale_has_one_pending_invoice ex_db_sold Hrefs))
           (ex_env 1733300060000 "b")
           (GameSalesBody.mk "rp_garage" "Franklin" None (Some "bob")
              [GameItem.mk "p1" 1])).
  vm_compute. reflexivity.
Defined.

(** ** [createSale] statement by statement *)

Lemma sale_and_items_tables env saleData items n db :
  let db' := sale_and_items env saleData items n db in
  users db' = users db
  /\ businesses db' = businesses db
  /\ businessEmployees db' = businessEmployees db
  /\ products db' = decrement_all env (firstn n items) (products db)
  /\ sales db' = (sales db ++ [sale_row env saleData])%list
  /\ saleItems db'
     = (saleItems db
        ++ item_rows env (gen_random_uuid env 0) 1 (firstn n items))%list
  /\ invoices db' = invoices db.
Proof. cbn. repeat split; reflexivity. Qed.

Lemma item_rows_snoc env saleId items :
  forall k n item,
    nth_error items n = Some item ->
    item_rows env saleId k (firstn (S n) items)
    = (item_rows env saleId k (firstn n items)
       ++ [saleItem_row (gen_random_uuid env (k + n)) saleId item])%list.
Proof.
  induction items as [|i rest IH]; intros k n item Hnth.
  - destruct n; discriminate.
  - destruct n as [|n].
    + cbn in Hnth. inversion Hnth; subst. cbn. now rewrite Nat.add_0_r.
    + cbn in Hnth. rewrite !firstn_cons. cbn [item_rows app].
      rewrite (IH (S k) n item Hnth), Nat.add_succ_r. reflexivity.
Qed.

Lemma sale_items_and_row_tables env saleData items n item db :
  nth_error items n = Some item ->
  let db' := sale_items_and_row env saleData items n db in
  users db' = users db
  /\ businesses db' = businesses db
  /\ businessEmployees db' = businessEmployees db
  /\ products db' = decrement_all env (firstn n items) (products db)
  /\ sales db' = (sales db ++ [sale_row env saleData])%list
  /\ saleItems db'
     = (saleItems db
        ++ item_rows env (gen_random_uuid env 0) 1 (firstn (S n) items))%list
  /\ invoices db' = invoices db.
Proof.
  intros Hnth. cbv zeta. unfold sale_items_and_row. rewrite Hnth.
  rewrite (item_rows_snoc env (gen_random_uuid env 0) items 1 n item Hnth).
  cbn. rewrite <- app_assoc. repeat split; reflexivity.
Qed.

(** C1, counterexample.  A second sale of the garage is created in the
    millisecond of the first: its invoice number is the first one's, the
    invoice insert violates [unique()], and [createSale] throws after it
    has stored the sale [b0], its item and the stock decrement.  The sale
    is left without invoice. *)
Lemma createSale_throws_after_writes :
  let env := ex_env 1733300000000 "b" in
  let saleData := InsertSale.mk "b1" "alice" "Franklin" None (text 10000)
                    (Some SaleCompleted) (Some SourceGame) in
  let items := [InsertSaleItem.mk "p1" "Wrench" 1 (text 10000) (text 10000)] in
  let db' := fst (createSale env saleData items ex_db_sold) in
  snd (createSale env saleData items ex_db_sold)
  = Thrown (UniqueViolation "invoices_invoice_number_unique")
  /\ map Sale.id (sales ex_db_sold) = ["a0"]
  /\ map Sale.id (sales db') = ["a0"; "b0"]
  /\ map SaleItem.saleId (saleItems db') = ["a0"; "b0"]
  /\ map Product.stock (products ex_db_sold) = [Some 1; Some 10]
  /\ map Product.stock (products db') = [Some 0; Some 10]
  /\ map Invoice.saleId (invoices db') = ["a0"]
  /\ db' <> ex_db_sold.
Proof.
  vm_compute. repeat split; try reflexivity. discriminate.
Qed.

(** The same through the game endpoint: the caller is told the sale failed,
    and the sale is in the database. *)
Example failed_game_sale_is_stored :
  let r := post_game_sales (ex_env 1733300000000 "b")
             (GameSalesBody.mk "rp_garage" "Franklin" None None
                [GameItem.mk "p1" 1]) ex_db_sold in
  snd r = json 400 "Failed to process sale"
  /\ map Sale.id (sales (fst r)) = ["a0"; "b0"]
  /\ map Invoice.saleId (invoices (fst r)) = ["a0"].
Proof. vm_compute. repeat split; reflexivity. Qed.

(** A failure in the middle of the loop: the line total of the second
    line of a sale is no number.  The sale, the row of the first line and
    its stock decrement stay; the second line and the invoice are
    missing. *)
Example createSale_stops_at_second_item :
  let env := ex_env 1733300000000 "a" in
  let saleData := InsertSale.mk "b1" "alice" "Trevor" None (text 20000)
                    None None in
  let items := [InsertSaleItem.mk "p1" "Wrench" 1 (text 10000) (text 10000);
                InsertSaleItem.mk "p1" "Wrench" 1 (text 10000) NotNumeric] in
  let r := createSale env saleData items ex_db in
  snd r = Thrown (DataException "sale_items.total_price")
  /\ map Sale.id (sales (fst r)) = ["a0"]
  /\ map SaleItem.id (saleItems (fst r)) = ["a1"]
  /\ map Product.stock (products (fst r)) = [Some 2; Some 10]
  /\ invoices (fst r) = [].
Proof. vm_compute. repeat split; reflexivity. Qed.

(** A failure between the two statements of a line: the stock of the
    wrench is at the lower end of its column, and taking one more off leaves
    the range.  The row of the line is stored, its stock decrement is
    not. *)
Example createSale_stops_at_stock_update :
  let env := ex_env 1733300000000 "a" in
  let db := set_products
              [Product.mk "p1" "b1" "Wrench" None 10000 (Some (-2147483648))
                          None (Some true) None] ex_db in
  let saleData := InsertSale.mk "b1" "alice" "Trevor" None (text 10000)
                    None None in
  let items := [InsertSaleItem.mk "p1" "Wrench" 1 (text 10000) (text 10000)] in
  let r := createSale env saleData items db in
  snd r = Thrown (DataException "products.stock")
  /\ map Sale.id (sales (fst r)) = ["a0"]
  /\ map SaleItem.id (saleItems (fst r)) = ["a1"]
  /\ map Product.stock (products (fst r)) = [Some (-2147483648)]
  /\ invoices (fst r) = [].
Proof. vm_compute. repeat split; reflexivity. Qed.

(** C1, as the code has it.  [createSale] runs its statements one after
    the other, outside any transaction, and what it leaves behind is what
    ran.  When all of them succeed, the sale row, the row of every item,
    every stock decrement and the invoice row are stored.  When the first
    one, the sale insert, fails, nothing is stored.  When the sale insert
    succeeds and a later statement fails, the sale row stays stored without
    invoice, together with the rows and stock decrements of the [n] items
    handled before the failure: the statement that failed is the insert of
    item [n], or its stock update, in which case the row of item [n] is
    stored as well, without its decrement, or the invoice insert after all
    items. *)
Theorem createSale_stores_what_ran :
  forall env saleData items db,
    let db' := fst (createSale env saleData items db) in
    let saleId := gen_random_uuid env 0 in
    let sale := sale_row env saleData in
    users db' = users db
    /\ businesses db' = businesses db
    /\ businessEmployees db' = businessEmployees db
    /\ match snd (createSale env saleData items db) with
       | Returned (sale', invoice) =>
           sale' = sale
           /\ sales db' = (sales db ++ [sale])%list
           /\ saleItems db'
              = (saleItems db ++ item_rows env saleId 1 items)%list
           /\ products db' = decrement_all env items (products db)
           /\ invoices db' = (invoices db ++ [invoice])%list
           /\ Invoice.saleId invoice = Sale.id sale
       | Thrown e =>
           (fails (insert_sales env saleId saleData) db e /\ db' = db)
           \/ (snd (insert_sales env saleId saleData db) = Returned sale
               /\ sales db' = (sales db ++ [sale])%list
               /\ invoices db' = invoices db
               /\ db' <> db
               /\ exists n,
                   (n <= List.length items)%nat
                   /\ products db'
                      = decrement_all env (firstn n items) (products db)
                   /\ ((exists item,
                           nth_error items n = Some item
                           /\ fails (insert_saleItems
                                       (gen_random_uuid env (S n)) saleId item)
                                    db' e
                           /\ saleItems db'
                              = (saleItems db
                                 ++ item_rows env saleId 1 (firstn n items))
                                %list)
                       \/ (exists item,
                              nth_error items n = Some item
                              /\ fails (update_stock env
                                          (InsertSaleItem.productId item)
                                          (InsertSaleItem.quantity item))
                                       db' e
                              /\ saleItems db'
                                 = (saleItems db
                                    ++ item_rows env saleId 1
                                                 (firstn (S n) items))%list)
                       \/ (n = List.length items
                           /\ fails (insert_invoices env
                                       (gen_random_uuid env (S n)) saleId
                                       (invoiceNumberAt (now env)))
                                    db' e
                           /\ saleItems db'
                              = (saleItems db ++ item_rows env saleId 1 items)
                                %list)))
       end.
Proof.
  intros env saleData items db. cbv zeta.
  destruct (createSale env saleData items db) as [db' [[sale invoice]|e]]
    eqn:Ecreate; cbn [fst snd].
  - apply createSale_returned in Ecreate.
    destruct Ecreate as (-> & -> & -> & _).
    destruct (sale_persisted_tables env saleData items db)
      as (Hu & Hb & He & Hp & Hs & Hi & Hv).
    repeat split; assumption.
  - apply createSale_thrown in Ecreate.
    destruct Ecreate as [[Hfail ->]|[Hsale (n & Hn & Hstop)]].
    + repeat split; try reflexivity. left. split; [exact Hfail|reflexivity].
    + assert (Hgrows : forall db1,
                 sales db1 = (sales db ++ [sale_row env saleData])%list ->
                 db1 <> db).
      { intros db1 Hs Heq. rewrite Heq in Hs.
        apply (f_equal (@List.length Sale.t)) in Hs.
        rewrite length_app in Hs. cbn in Hs. lia. }
      destruct Hstop as [(item & Hnth & Hfail & ->)
                        |[(item & Hnth & Hfail & ->)|(-> & Hfail & ->)]].
      * destruct (sale_and_items_tables env saleData items n db)
          as (Hu & Hb & He & Hp & Hs & Hi & Hv).
        repeat split; try assumption. right.
        rewrite Hsale. split; [reflexivity|]. split; [exact Hs|].
        split; [exact Hv|]. split; [now apply Hgrows|].
        exists n. split; [exact Hn|]. split; [exact Hp|].
        left. exists item. auto.
      * destruct (sale_items_and_row_tables env saleData items n item db Hnth)
          as (Hu & Hb & He & Hp & Hs & Hi & Hv).
        repeat split; try assumption. right.
        rewrite Hsale. split; [reflexivity|]. split; [exact Hs|].
        split; [exact Hv|]. split; [now apply Hgrows|].
        exists n. split; [exact Hn|]. split; [exact Hp|].
        right. left. exists item. auto.
      * destruct (sale_and_items_tables env saleData items (List.length items)
                    db) as (Hu & Hb & He & Hp & Hs & Hi & Hv).
        repeat split; try assumption. right.
        rewrite Hsale. split; [reflexivity|]. split; [exact Hs|].
        split; [exact Hv|]. split; [now apply Hgrows|].
        exists (List.length items). split; [lia|]. split; [exact Hp|].
        right. right. rewrite firstn_all in Hi. auto.
Qed.

(** ** Prices, names and totals of a sale *)

Lemma getProduct_id db id p : getProduct db id = Some p -> Product.id p = id.
Proof.
  unfold getProduct. intros H. apply find_some in H.
  now apply String.eqb_eq.
Qed.

Lemma item_rows_copies env saleId items :
  forall k, Forall2 (copies saleId) items (item_rows env saleId k items).
Proof.
  induction items as [|item rest IH]; intros k; cbn; constructor.
  - repeat split.
  - apply IH.
Qed.

(** Where the amounts can be cast, the copy holds what the cast gives. *)
Lemma item_rows_stores env saleId items :
  (forall item, In item items ->
                decimal_10_2 (InsertSaleItem.unitPrice item)
                = Some (rounded (InsertSaleItem.unitPrice item))
                /\ decimal_10_2 (InsertSaleItem.totalPrice item)
                   = Some (rounded (InsertSaleItem.totalPrice item))) ->
  forall k, Forall2 (stores saleId) items (item_rows env saleId k items).
Proof.
  induction items as [|item rest IH]; intros Hcast k; cbn; constructor.
  - destruct (Hcast item (or_introl eq_refl)) as [Hu Ht].
    repeat split; assumption.
  - apply IH. intros it Hin. apply Hcast. now right.
Qed.

Lemma sum_item_rows env saleId items :
  forall k, sum_totalPrice (item_rows env saleId k items) = sum_items items.
Proof.
  induction items as [|item rest IH]; intros k; cbn; [reflexivity|].
  now rewrite IH.
Qed.

Lemma sum_items_app items items' :
  sum_items (items ++ items') = sum_items items + sum_items items'.
Proof.
  unfold sum_items.
  induction items as [|item rest IH]; cbn; [reflexivity|].
  rewrite IH. lia.
Qed.

Lemma resolve_items_inr db businessId lines :
  forall acc total items totalAmount,
    resolve_items db businessId lines acc total = inr (items, totalAmount) ->
    exists new,
      items = (acc ++ new)%list
      /\ Forall2 (resolved db businessId) lines new
      /\ totalAmount = total + sum_items new.
Proof.
  induction lines as [|line rest IH]; intros acc total items totalAmount; cbn.
  - intros H. inversion H; subst. exists []. rewrite app_nil_r.
    repeat split; [constructor|cbn; lia].
  - destruct (check_line _ _ _ _) as [r|p] eqn:E; [discriminate|].
    intros H. apply IH in H. destruct H as (new & -> & Hall & ->).
    apply check_line_inr in E. destruct E as (Hp & Hb & Hs).
    eexists (_ :: new). rewrite <- app_assoc. split; [reflexivity|].
    split.
    + constructor; [|exact Hall]. exists p. auto.
    + unfold sum_items. cbn. lia.
Qed.

Lemma Forall2_compose {A B C} (R : A -> B -> Prop) (S : B -> C -> Prop)
  (T : A -> C -> Prop) :
  (forall a b c, R a b -> S b c -> T a c) ->
  forall la lb lc, Forall2 R la lb -> Forall2 S lb lc -> Forall2 T la lc.
Proof.
  intros HT la lb lc HR. revert lc.
  induction HR as [|a b la lb Hab _ IH]; intros lc HS; inversion HS; subst;
    constructor; eauto.
Qed.

(** C2, counterexample.  Alice enters a sale of two wrenches on the web
    with a made-up name, unit price, line total and sale total: the sale is
    created and stores them, although the wrench is named "Wrench" and costs
    100.00. *)
Lemma web_sale_stores_request_prices :
  let r := post_sales (ex_env 1733300000000 "a") "alice" ex_web_body ex_db in
  status (snd r) = 201
  /\ option_map Product.name (getProduct ex_db "p1") = Some "Wrench"
  /\ option_map Product.price (getProduct ex_db "p1") = Some 10000
  /\ saleItems (fst r) = [SaleItem.mk "a1" "a0" "p1" "Spanner" 2 1 5]
  /\ map Sale.totalAmount (sales (fst r)) = [3].
Proof. vm_compute. repeat split; reflexivity. Qed.

(** What the columns make of the amounts of a web request: the client
    computes three times 0.07 in doubles and sends 0.21000000000000002,
    which is stored as 0.21; a unit price of 0.005 is stored as 0.01. *)
Example web_sale_stores_rounded_amounts :
  let data := SalesBody.mk "b1" "Trevor" None (Dec 21000000000000002 17)
                None None
                [InsertSaleItem.mk "p1" "Wrench" 3 (Dec 5 3)
                                   (Dec 21000000000000002 17)] in
  let r := post_sales (ex_env 1733300000000 "a") "alice" data ex_db in
  status (snd r) = 201
  /\ saleItems (fst r) = [SaleItem.mk "a1" "a0" "p1" "Wrench" 3 1 21]
  /\ map Sale.totalAmount (sales (fst r)) = [21].
Proof. vm_compute. repeat split; reflexivity. Qed.

(** A total that is no number, or one the column cannot hold, makes the
    sale insert fail: the answer is the catch-all 400 and nothing is
    written. *)
Example web_sale_with_unreadable_total :
  post_sales (ex_env 1733300000000 "a") "alice"
    (SalesBody.mk "b1" "Trevor" None NotNumeric None None []) ex_db
  = (ex_db, json 400 "Failed to create sale")
  /\ post_sales (ex_env 1733300000000 "a") "alice"
       (SalesBody.mk "b1" "Trevor" None (Dec 100000000 0) None None []) ex_db
     = (ex_db, json 400 "Failed to create sale").
Proof. vm_compute. split; reflexivity. Qed.

Lemma resolved_copies db businessId saleId line item row :
  resolved db businessId line item -> copies saleId item row ->
  server_priced db saleId line row.
Proof.
  intros (p & Hp & _ & _ & ->) (Hsale & Hid & Hname & Hq & Hunit & Htotal).
  cbn in *. exists p. repeat split; try assumption.
  - rewrite Hid. now apply getProduct_id with (db := db).
  - rewrite Htotal. apply Z.mul_comm.
Qed.

(** C2, as the code has it.  For a sale created through
    [POST /api/game/sales], each stored item has the name and the price the
    product had in the database when the request arrived, a line total of
    quantity times that price, and the sale total is the sum of these line
    totals.  For a sale created through [POST /api/sales], each stored item
    has the name and quantity of the request body and, as unit price and
    line total, the texts of the body cast to [decimal(10,2)], that is
    rounded to hundredths; the sale total is the body's [totalAmount] cast
    likewise.  The products are not consulted for any of them. *)
Theorem game_sale_priced_by_server_web_sale_by_request :
  (forall env data db db' body,
      post_game_sales env data db = (db', mkResponse 201 body) ->
      exists sale rows,
        sales db' = (sales db ++ [sale])%list
        /\ saleItems db' = (saleItems db ++ rows)%list
        /\ Forall2 (server_priced db (Sale.id sale))
                   (GameSalesBody.items data) rows
        /\ Sale.totalAmount sale = sum_totalPrice rows)
  /\ (forall env userId data db db' body,
         post_sales env userId data db = (db', mkResponse 201 body) ->
         exists sale rows,
           sales db' = (sales db ++ [sale])%list
           /\ saleItems db' = (saleItems db ++ rows)%list
           /\ Forall2 (stores (Sale.id sale)) (SalesBody.items data) rows
           /\ decimal_10_2 (SalesBody.totalAmount data)
              = Some (Sale.totalAmount sale)).
Proof.
  split.
  - intros env data db db' body H201.
    apply post_game_sales_created in H201.
    destruct H201 as (business & items & totalAmount & _ & Hitems & H).
    cbv zeta in H. destruct H as (_ & -> & _).
    apply resolve_items_inr in Hitems.
    destruct Hitems as (new & -> & Hall & ->). cbn [app] in *.
    match goal with
    | |- context [sale_persisted env ?sd new db] =>
        destruct (sale_persisted_tables env sd new db)
          as (_ & _ & _ & _ & Hsales & Hrows & _);
        exists (sale_row env sd)
    end.
    exists (item_rows env (gen_random_uuid env 0) 1 new).
    split; [exact Hsales|]. split; [exact Hrows|]. split.
    + eapply Forall2_compose; [|exact Hall|apply item_rows_copies].
      intros line item row. apply resolved_copies.
    + rewrite sum_item_rows. reflexivity.
  - intros env userId data db db' body H201.
    apply post_sales_created in H201. cbv zeta in H201.
    destruct H201 as (Hcreate & -> & _).
    apply createSale_returned_cast in Hcreate.
    destruct Hcreate as [Htotal Hcast].
    match goal with
    | |- context [sale_persisted env ?sd ?its db] =>
        destruct (sale_persisted_tables env sd its db)
          as (_ & _ & _ & _ & Hsales & Hrows & _);
        exists (sale_row env sd)
    end.
    exists (item_rows env (gen_random_uuid env 0) 1 (SalesBody.items data)).
    split; [exact Hsales|]. split; [exact Hrows|]. split.
    + now apply item_rows_stores.
    + exact Htotal.
Qed.

Lemma game_sale_priced_by_server_web_sale_by_request_witness :
  (exists sale rows,
      sales ex_db_sold = (sales ex_db ++ [sale])%list
      /\ saleItems ex_db_sold = (saleItems ex_db ++ rows)%list
      /\ Forall2 (server_priced ex_db (Sale.id sale))
                 [GameItem.mk "p1" 2] rows
      /\ Sale.totalAmount sale = sum_totalPrice rows)
  /\ (exists sale rows,
         sales (fst (post_sales (ex_env 1733300000000 "a") "alice"
                       ex_web_body ex_db))
         = (sales ex_db ++ [sale])%list
         /\ saleItems (fst (post_sales (ex_env 1733300000000 "a") "alice"
                              ex_web_body ex_db))
            = (saleItems ex_db ++ rows)%list
         /\ Forall2 (stores (Sale.id sale)) (SalesBody.items ex_web_body) rows
         /\ decimal_10_2 (Dec 3 2) = Some (Sale.totalAmount sale)).
Proof.
  split.
  - apply (proj1 game_sale_priced_by_server_web_sale_by_request
             (ex_env 1733300000000 "a") (ex_game_body None) ex_db ex_db_sold
             (GameSaleJson "a0" "INV-M49M2FI8" 20000)).
    vm_compute. reflexivity.
  - apply (proj2 game_sale_priced_by_server_web_sale_by_request
             (ex_env 1733300000000 "a") "alice" ex_web_body ex_db
             (fst (post_sales (ex_env 1733300000000 "a") "alice"
                     ex_web_body ex_db))
             (SaleJson
                (Sale.mk "a0" "b1" "alice" "Trevor" None 3
                   (Some SaleCompleted) (Some SourceWeb)
                   (Some 1733300000000))
                (Invoice.mk "a2" "a0" "INV-M49M2FI8" (Some InvoicePending)
                   (Some 1733300000000) None None))).
    vm_compute. reflexivity.
Defined.

(** ** The totals invariant *)

Lemma filter_all_true {A} (f : A -> bool) (l : list A) :
  (forall x, In x l -> f x = true) -> filter f l = l.
Proof.
  induction l as [|a l IH]; intros H; [reflexivity|].
  cbn. rewrite (H a (or_introl eq_refl)). f_equal. apply IH.
  intros x Hx. apply H. now right.
Qed.

Lemma item_rows_In env saleId items :
  forall k row,
    In row (item_rows env saleId k items) ->
    exists item, In item items /\ copies saleId item row.
Proof.
  induction items as [|item rest IH]; intros k row; cbn; [intros []|].
  intros [<-|Hin].
  - exists item. split; [now left|repeat split].
  - destruct (IH _ _ Hin) as (item' & Hin' & Hst).
    exists item'. split; [now right|exact Hst].
Qed.

Lemma item_rows_In_item env saleId items :
  forall k item,
    In item items ->
    exists row, In row (item_rows env saleId k items) /\ copies saleId item row.
Proof.
  induction items as [|item0 rest IH]; intros k item; cbn; [intros []|].
  intros [<-|Hin].
  - eexists. split; [now left|repeat split].
  - destruct (IH (S k) _ Hin) as (row & Hin' & Hst).
    exists row. split; [now right|exact Hst].
Qed.

Lemma items_of_created env saleData items db :
  saleItems_reference_sales db ->
  has_id (map Sale.id (sales db)) (gen_random_uuid env 0) = false ->
  items_of (sale_persisted env saleData items db) (gen_random_uuid env 0)
  = item_rows env (gen_random_uuid env 0) 1 items.
Proof.
  intros Hrefs Hfresh. apply has_id_false in Hfresh.
  destruct (sale_persisted_tables env saleData items db)
    as (_ & _ & _ & _ & _ & Hrows & _).
  unfold items_of. rewrite Hrows, filter_app.
  rewrite filter_all_false, filter_all_true; [reflexivity| |].
  - intros row Hrow. apply item_rows_In in Hrow.
    destruct Hrow as (item & _ & -> & _). apply String.eqb_refl.
  - intros row Hrow. apply String.eqb_neq. intros Heq.
    apply Hfresh. rewrite <- Heq. now apply Hrefs.
Qed.

Lemma created_totals env saleData items db db' sale invoice :
  saleItems_reference_sales db ->
  createSale env saleData items db = (db', Returned (sale, invoice)) ->
  In sale (sales db')
  /\ (totals_hold db' sale
      <-> rounded (InsertSale.totalAmount saleData) = sum_items items
          /\ forall item, In item items ->
                          rounded (InsertSaleItem.totalPrice item)
                          = InsertSaleItem.quantity item
                            * rounded (InsertSaleItem.unitPrice item)).
Proof.
  intros Hrefs Hcreate. apply createSale_returned in Hcreate.
  destruct Hcreate as (-> & _ & -> & Hfresh & _).
  destruct (sale_persisted_tables env saleData items db)
    as (_ & _ & _ & _ & Hsales & _ & _).
  split; [rewrite Hsales; apply in_or_app; right; now left|].
  unfold totals_hold.
  change (Sale.id (sale_row env saleData)) with (gen_random_uuid env 0).
  change (Sale.totalAmount (sale_row env saleData))
    with (rounded (InsertSale.totalAmount saleData)).
  rewrite (items_of_created env saleData items db Hrefs Hfresh).
  rewrite sum_item_rows.
  split; intros [Hsum Hrows]; (split; [exact Hsum|]).
  - intros item Hin.
    destruct (item_rows_In_item env (gen_random_uuid env 0) items 1%nat
                item Hin)
      as (row & Hrow & _ & _ & _ & Hq & Hu & Ht).
    rewrite <- Ht, <- Hq, <- Hu. now apply Hrows.
  - intros row Hrow. apply item_rows_In in Hrow.
    destruct Hrow as (item & Hin & _ & _ & _ & Hq & Hu & Ht).
    rewrite Ht, Hq, Hu. now apply Hrows.
Qed.

Lemma resolved_totals db businessId lines items :
  Forall2 (resolved db businessId) lines items ->
  forall item, In item items ->
               rounded (InsertSaleItem.totalPrice item)
               = InsertSaleItem.quantity item
                 * rounded (InsertSaleItem.unitPrice item).
Proof.
  induction 1 as [|line item lines items (p & _ & _ & _ & ->) _ IH];
    intros it; [intros []|].
  intros [<-|Hin]; [cbn; apply Z.mul_comm|now apply IH].
Qed.

(** C3, counterexample.  The web sale of the example is created with the
    totals its request states: the sale says 0.03, its one item says 0.05,
    for 2 units at 0.01. *)
Lemma web_sale_totals_do_not_add_up :
  let r := post_sales (ex_env 1733300000000 "a") "alice" ex_web_body ex_db in
  let sale := Sale.mk "a0" "b1" "alice" "Trevor" None 3 (Some SaleCompleted)
                (Some SourceWeb) (Some 1733300000000) in
  status (snd r) = 201
  /\ sales (fst r) = [sale]
  /\ Sale.totalAmount sale = 3
  /\ sum_totalPrice (items_of (fst r) (Sale.id sale)) = 5
  /\ map (fun row => (SaleItem.totalPrice row,
                      SaleItem.quantity row * SaleItem.unitPrice row))
         (items_of (fst r) (Sale.id sale)) = [(5, 2)]
  /\ ~ totals_hold (fst r) sale.
Proof.
  cbv zeta. repeat split; try (vm_compute; reflexivity).
  intros [Hsum _]. vm_compute in Hsum. discriminate.
Qed.

(** C3, as the code has it.  In a database whose sale items reference
    existing sales, every sale created through [POST /api/game/sales]
    satisfies [sale.totalAmount = sum of item.totalPrice] over its items and
    [item.totalPrice = item.quantity * item.unitPrice] for each of them.  A
    sale created through [POST /api/sales] satisfies them exactly when the
    amounts stated in the request body do once each of them is rounded to
    hundredths, as its column stores it. *)
Theorem game_sale_totals_hold_web_sale_totals_as_requested :
  forall db,
    saleItems_reference_sales db ->
    (forall env data db' body,
        post_game_sales env data db = (db', mkResponse 201 body) ->
        exists sale,
          In sale (sales db')
          /\ (exists invoiceNumber totalAmount,
                 body = GameSaleJson (Sale.id sale) invoiceNumber totalAmount)
          /\ totals_hold db' sale)
    /\ (forall env userId data db' body,
           post_sales env userId data db = (db', mkResponse 201 body) ->
           exists sale invoice,
             body = SaleJson sale invoice
             /\ In sale (sales db')
             /\ (totals_hold db' sale <-> request_totals_hold data)).
Proof.
  intros db Hrefs. split.
  - intros env data db' body H201.
    apply post_game_sales_created in H201.
    destruct H201 as (business & items & totalAmount & _ & Hitems & H).
    cbv zeta in H. destruct H as (Hcreate & _ & ->).
    apply resolve_items_inr in Hitems.
    destruct Hitems as (new & -> & Hall & ->). cbn [app] in *.
    destruct (created_totals _ _ _ _ _ _ _ Hrefs Hcreate) as (Hin & Htotals).
    eexists. split; [exact Hin|]. split; [eexists _, _; reflexivity|].
    apply Htotals. split; [cbn; lia|].
    eapply resolved_totals; exact Hall.
  - intros env userId data db' body H201.
    apply post_sales_created in H201. cbv zeta in H201.
    destruct H201 as (Hcreate & _ & ->).
    destruct (created_totals _ _ _ _ _ _ _ Hrefs Hcreate) as (Hin & Htotals).
    eexists _, _. split; [reflexivity|]. split; [exact Hin|].
    exact Htotals.
Qed.

(** A third wrench sold by the game server after the first sale, and a web
    sale of one wrench whose request states the right totals. *)
Lemma game_sale_totals_hold_web_sale_totals_as_requested_witness :
  let env := ex_env 1733300060000 "b" in
  let game := GameSalesBody.mk "rp_garage" "Franklin" None None
                [GameItem.mk "p1" 1] in
  let web := SalesBody.mk "b1" "Franklin" None (Dec 10000 2) None None
               [InsertSaleItem.mk "p1" "Wrench" 1 (Dec 10000 2)
                                  (Dec 10000 2)] in
  (exists sale,
      In sale (sales (fst (post_game_sales env game ex_db_sold)))
      /\ (exists invoiceNumber totalAmount,
             GameSaleJson "b0" "INV-M49M3PSW" 10000
             = GameSaleJson (Sale.id sale) invoiceNumber totalAmount)
      /\ totals_hold (fst (post_game_sales env game ex_db_sold)) sale)
  /\ (exists sale invoice,
         snd (post_sales env "bob" web ex_db_sold) = mkResponse 201
                                                       (SaleJson sale invoice)
         /\ In sale (sales (fst (post_sales env "bob" web ex_db_sold)))
         /\ (totals_hold (fst (post_sales env "bob" web ex_db_sold)) sale
             <-> request_totals_hold web)).
Proof.
  cbv zeta.
  assert (Hrefs : saleItems_reference_sales ex_db_sold).
  { intros row Hrow. vm_compute in Hrow. destruct Hrow as [<-|[]].
    vm_compute. now left. }
  pose proof (game_sale_totals_hold_web_sale_totals_as_requested
                ex_db_sold Hrefs) as [Hgame Hweb].
  split.
  - apply (Hgame (ex_env 1733300060000 "b")
             (GameSalesBody.mk "rp_garage" "Franklin" None None
                [GameItem.mk "p1" 1])).
    vm_compute. reflexivity.
  - destruct (Hweb (ex_env 1733300060000 "b") "bob"
                (SalesBody.mk "b1" "Franklin" None (Dec 10000 2) None None
                   [InsertSaleItem.mk "p1" "Wrench" 1 (Dec 10000 2)
                                      (Dec 10000 2)])
                (fst (post_sales (ex_env 1733300060000 "b") "bob"
                        (SalesBody.mk "b1" "Franklin" None (Dec 10000 2) None
                           None
                           [InsertSaleItem.mk "p1" "Wrench" 1 (Dec 10000 2)
                                              (Dec 10000 2)])
                        ex_db_sold))
                (SaleJson
                   (Sale.mk "b0" "b1" "bob" "Franklin" None 10000
                      (Some SaleCompleted) (Some SourceWeb)
                      (Some 1733300060000))
                   (Invoice.mk "b2" "b0" "INV-M49M3PSW" (Some InvoicePending)
                      (Some 1733300060000) None None)))
      as (sale & invoice & Hbody & Hin & Hiff).
    + vm_compute. reflexivity.
    + exists sale, invoice. inversion Hbody; subst sale invoice.
      split; [vm_compute; reflexivity|]. split; [exact Hin|exact Hiff].
Defined.

(** Rounding cuts both ways.  A line of one unit at 0.01 with a line
    total of 0.014 does not add up as sent, and does as stored (0.01 and
    0.01).  A line of three units at 0.005 with a line total of 0.015 adds up
    as sent, and does not as stored (0.01 and 0.02). *)
Example rounding_makes_and_breaks_totals :
  let up := SalesBody.mk "b1" "Trevor" None (Dec 14 3) None None
              [InsertSaleItem.mk "p1" "Wrench" 1 (Dec 1 2) (Dec 14 3)] in
  let down := SalesBody.mk "b1" "Trevor" None (Dec 15 3) None None
                [InsertSaleItem.mk "p1" "Wrench" 3 (Dec 5 3) (Dec 15 3)] in
  let env := ex_env 1733300000000 "a" in
  (status (snd (post_sales env "alice" up ex_db)) = 201
   /\ 14 * 10 <> 1 * (1 * 1000)
   /\ map (fun row => (SaleItem.quantity row, SaleItem.unitPrice row,
                       SaleItem.totalPrice row))
          (saleItems (fst (post_sales env "alice" up ex_db))) = [(1, 1, 1)]
   /\ request_totals_hold up)
  /\ (status (snd (post_sales env "alice" down ex_db)) = 201
      /\ 15 = 3 * 5
      /\ map (fun row => (SaleItem.quantity row, SaleItem.unitPrice row,
                          SaleItem.totalPrice row))
             (saleItems (fst (post_sales env "alice" down ex_db)))
         = [(3, 1, 2)]
      /\ ~ request_totals_hold down).
Proof.
  cbv zeta. split.
  - split; [vm_compute; reflexivity|]. split; [lia|].
    split; [vm_compute; reflexivity|].
    split; [vm_compute; reflexivity|].
    intros item [<-|[]]. vm_compute. reflexivity.
  - split; [vm_compute; reflexivity|]. split; [lia|].
    split; [vm_compute; reflexivity|].
    intros [_ H]. specialize (H _ (or_introl eq_refl)).
    vm_compute in H. discriminate.
Qed.

(** ** Referential integrity is kept by [createSale] *)

(** X7.  [createSale] keeps the references of invoices and sale items to
    sales intact whatever its outcome, also when it throws after some of
    its statements have run. *)
Lemma createSale_keeps_references env saleData items db :
  invoices_reference_sales db ->
  saleItems_reference_sales db ->
  let db' := fst (createSale env saleData items db) in
  invoices_reference_sales db' /\ saleItems_reference_sales db'.
Proof.
  intros Hinv Hitems. cbv zeta.
  assert (Hprefix : forall db' written,
             sales db' = (sales db ++ [sale_row env saleData])%list ->
             saleItems db'
             = (saleItems db
                ++ item_rows env (gen_random_uuid env 0) 1 written)%list ->
             invoices db' = invoices db ->
             invoices_reference_sales db' /\ saleItems_reference_sales db').
  { intros db' written Hs Hr Hv.
    unfold invoices_reference_sales, saleItems_reference_sales.
    rewrite Hs, Hr, Hv, map_app. split.
    - intros i Hi. apply in_or_app. left. now apply Hinv.
    - intros row Hrow. apply in_app_or in Hrow. apply in_or_app.
      destruct Hrow as [Hrow|Hrow]; [left; now apply Hitems|].
      right. apply item_rows_In in Hrow.
      destruct Hrow as (item & _ & -> & _). now left. }
  destruct (createSale env saleData items db) as [db' [[sale invoice]|e]]
    eqn:Ecreate; cbn [fst].
  - apply createSale_returned in Ecreate.
    destruct Ecreate as (_ & _ & -> & _).
    destruct (sale_and_items_tables env saleData items (List.length items) db)
      as (_ & _ & _ & _ & Hs & Hr & Hv).
    destruct (Hprefix _ _ Hs Hr Hv) as [Hinv' Hitems'].
    unfold sale_persisted. split; [|exact Hitems'].
    intros i Hi. cbn [invoices set_invoices sales] in Hi |- *.
    apply in_app_or in Hi. destruct Hi as [Hi|[<-|[]]].
    + now apply Hinv'.
    + rewrite Hs, map_app. apply in_or_app. right. now left.
  - apply createSale_thrown in Ecreate.
    destruct Ecreate as [[_ ->]|[_ (n & _ & Hstop)]]; [auto|].
    destruct Hstop as [(item & _ & _ & ->)
                      |[(item & Hnth & _ & ->)|(_ & _ & ->)]].
    + destruct (sale_and_items_tables env saleData items n db)
        as (_ & _ & _ & _ & Hs & Hr & Hv).
      exact (Hprefix _ _ Hs Hr Hv).
    + destruct (sale_items_and_row_tables env saleData items n item db Hnth)
        as (_ & _ & _ & _ & Hs & Hr & Hv).
      exact (Hprefix _ _ Hs Hr Hv).
    + destruct (sale_and_items_tables env saleData items n db)
        as (_ & _ & _ & _ & Hs & Hr & Hv).
      exact (Hprefix _ _ Hs Hr Hv).
Qed.

(** * Further properties *)

(** ** Invoice numbers *)

Lemma string_app_assoc (s1 s2 s3 : string) :
  ((s1 ++ s2) ++ s3 = s1 ++ (s2 ++ s3))%string.
Proof. induction s1 as [|c s1 IH]; cbn; [reflexivity|now rewrite IH]. Qed.

Lemma string_app_nil_r (s : string) : (s ++ "" = s)%string.
Proof. induction s as [|c s IH]; cbn; [reflexivity|now rewrite IH]. Qed.

Lemma string_length_snoc (s : string) (c : ascii) :
  String.length (s ++ String c "") = S (String.length s).
Proof. induction s as [|c' s IH]; cbn; [reflexivity|now rewrite IH]. Qed.

Lemma toUpperCase_app (s1 s2 : string) :
  toUpperCase (s1 ++ s2) = (toUpperCase s1 ++ toUpperCase s2)%string.
Proof. induction s1 as [|c s1 IH]; cbn; [reflexivity|now rewrite IH]. Qed.

Lemma parse36_app (s1 s2 : string) :
  forall v, parse36 (s1 ++ s2) v = parse36 s2 (parse36 s1 v).
Proof. induction s1 as [|c s1 IH]; intros v; cbn; [reflexivity|apply IH]. Qed.

Lemma digit_roundtrip d :
  0 <= d < 36 -> digit_value (upper (digit36 d)) = d.
Proof.
  intros Hd.
  assert (H : forallb (fun k => digit_value (upper (digit36 (Z.of_nat k)))
                                =? Z.of_nat k) (seq 0 36) = true)
    by (vm_compute; reflexivity).
  rewrite forallb_forall in H. specialize (H (Z.to_nat d)).
  rewrite Z2Nat.id in H by lia. apply Z.eqb_eq, H. apply in_seq. lia.
Qed.

Lemma toString36_digits_S fuel n acc :
  toString36_digits (S fuel) n acc
  = if n / 36 =? 0 then String (digit36 (n mod 36)) acc
    else toString36_digits fuel (n / 36) (String (digit36 (n mod 36)) acc).
Proof. reflexivity. Qed.

(** With fuel for the binary length of [n], [toString36_digits] writes all
    the base-36 digits of [n] in front of [acc]. *)
Lemma toString36_digits_value fuel :
  forall n acc,
    0 <= n < 2 ^ Z.of_nat (S fuel) ->
    exists s,
      toString36_digits (S fuel) n acc = (s ++ acc)%string
      /\ forall v, parse36 (toUpperCase s) v
                   = v * 36 ^ Z.of_nat (String.length s) + n.
Proof.
  assert (Hone : forall n v,
             0 <= n -> n / 36 = 0 ->
             parse36 (toUpperCase (String (digit36 (n mod 36)) "")) v
             = v * 36 ^ Z.of_nat (String.length
                                    (String (digit36 (n mod 36)) "")) + n).
  { intros n v Hn Hq. cbn [toUpperCase parse36 String.length].
    rewrite digit_roundtrip by (apply Z.mod_pos_bound; lia).
    rewrite (Z.div_mod n 36) at 2 by lia. rewrite Hq.
    change (Z.of_nat 1) with 1. lia. }
  induction fuel as [|fuel IH]; intros n acc Hn.
  - change (2 ^ Z.of_nat 1) with 2 in Hn.
    assert (Hq : n / 36 = 0) by (apply Z.div_small; lia).
    exists (String (digit36 (n mod 36)) ""). split.
    + rewrite toString36_digits_S, Hq. reflexivity.
    + intros v. apply (Hone n v); lia.
  - rewrite toString36_digits_S.
    destruct (n / 36 =? 0) eqn:Eq.
    + apply Z.eqb_eq in Eq.
      exists (String (digit36 (n mod 36)) ""). split; [reflexivity|].
      intros v. apply (Hone n v); lia.
    + apply Z.eqb_neq in Eq.
      assert (Hpow : 2 ^ Z.of_nat (S (S fuel)) = 2 * 2 ^ Z.of_nat (S fuel)).
      { rewrite (Nat2Z.inj_succ (S fuel)), Z.pow_succ_r by lia. reflexivity. }
      assert (Hbound : 0 <= n / 36 < 2 ^ Z.of_nat (S fuel)).
      { split; [apply Z.div_pos; lia|].
        apply Z.div_lt_upper_bound; [lia|].
        assert (0 < 2 ^ Z.of_nat (S fuel)) by (apply Z.pow_pos_nonneg; lia).
        lia. }
      destruct (IH (n / 36) (String (digit36 (n mod 36)) acc) Hbound)
        as (s & Hs & Hval).
      exists (s ++ String (digit36 (n mod 36)) "")%string. split.
      * rewrite Hs, string_app_assoc. reflexivity.
      * intros v. rewrite toUpperCase_app, parse36_app, Hval.
        cbn [toUpperCase parse36].
        rewrite digit_roundtrip by (apply Z.mod_pos_bound; lia).
        rewrite string_length_snoc, Nat2Z.inj_succ, Z.pow_succ_r by lia.
        rewrite (Z.div_mod n 36) at 3 by lia. ring.
Qed.

Lemma parse36_toString36 n :
  0 <= n -> parse36 (toUpperCase (toString36 n)) 0 = n.
Proof.
  intros Hn. unfold toString36.
  destruct (n <? 0) eqn:Eneg; [apply Z.ltb_lt in Eneg; lia|].
  assert (Hbound : 0 <= n < 2 ^ Z.of_nat (S (Z.to_nat (Z.log2 n)))).
  { split; [exact Hn|].
    rewrite Nat2Z.inj_succ, Z2Nat.id by apply Z.log2_nonneg.
    destruct (Z.eq_dec n 0) as [->|Hpos]; [reflexivity|].
    apply Z.log2_spec. lia. }
  destruct (toString36_digits_value _ n "" Hbound) as (s & Hs & Hval).
  rewrite Hs, string_app_nil_r, Hval. lia.
Qed.

(** X1.  Two sales made at different milliseconds get different invoice
    numbers: [INV-] followed by the time in base 36 determines the time. *)
Theorem invoiceNumberAt_injective :
  forall t1 t2,
    0 <= t1 -> 0 <= t2 ->
    invoiceNumberAt t1 = invoiceNumberAt t2 -> t1 = t2.
Proof.
  intros t1 t2 H1 H2 Heq. unfold invoiceNumberAt in Heq.
  cbn [append] in Heq. inversion Heq as [Hdigits].
  rewrite <- (parse36_toString36 t1 H1), <- (parse36_toString36 t2 H2).
  now rewrite Hdigits.
Qed.

Lemma invoiceNumberAt_injective_witness :
  invoiceNumberAt 1733300000000 = invoiceNumberAt (1733299999999 + 1)
  /\ 1733300000000 = 1733299999999 + 1.
Proof.
  split; [vm_compute; reflexivity|].
  apply (invoiceNumberAt_injective 1733300000000 (1733299999999 + 1));
    [lia|lia|vm_compute; reflexivity].
Defined.

(** ** Stock after a sale *)

Lemma Forall2_map_r {A} (f : A -> A) (l : list A) :
  Forall2 (fun a b => b = f a) l (map f l).
Proof. induction l; cbn; constructor; auto. Qed.

Lemma Forall2_In_r {A B} (R : A -> B -> Prop) la lb b :
  Forall2 R la lb -> In b lb -> exists a, In a la /\ R a b.
Proof.
  induction 1 as [|a0 b0 la lb Hab _ IH]; intros Hin; [destruct Hin|].
  destruct Hin as [<-|Hin].
  - exists a0. split; [now left|exact Hab].
  - destruct (IH Hin) as (a & Ha & HR). exists a. split; [now right|exact HR].
Qed.

Lemma sold_nil env p : sold env [] p p.
Proof.
  unfold sold. cbn. repeat split.
  destruct (Product.stock p); cbn; [f_equal; lia|reflexivity].
Qed.

Lemma sold_cons env item rest p p' :
  sold env rest
       (decrement env (InsertSaleItem.productId item)
                  (InsertSaleItem.quantity item) p) p' ->
  sold env (item :: rest) p p'.
Proof.
  unfold sold, decrement, ordered, quantity_of. cbn [existsb fold_right].
  rewrite (String.eqb_sym (InsertSaleItem.productId item) (Product.id p)).
  destruct (String.eqb (Product.id p) (InsertSaleItem.productId item));
    cbn [Product.id Product.businessId Product.name Product.description
         Product.price Product.category Product.isActive Product.stock
         Product.updatedAt orb];
    intros (H1 & H2 & H3 & H4 & H5 & H6 & H7 & H8 & H9);
    repeat split; try assumption.
  - rewrite H8. destruct (Product.stock p); cbn; [f_equal; lia|reflexivity].
  - rewrite H9. now destruct (existsb _ rest).
Qed.

Lemma decrement_all_sold env items :
  forall ps, Forall2 (sold env items) ps (decrement_all env items ps).
Proof.
  induction items as [|item rest IH]; intros ps.
  - cbn. induction ps; constructor; [apply sold_nil|assumption].
  - cbn [decrement_all fold_left]. fold (decrement_all env rest).
    eapply Forall2_compose; [|apply Forall2_map_r|apply IH].
    intros p p1 p' -> Hsold. now apply sold_cons.
Qed.

(** X2.  After a sale that [createSale] completed, the products are the
    rows of before, in the same order, each with its stock lowered by the
    total quantity the items take of it; a product with NULL stock keeps NULL,
    a product no item names is untouched, and no other column changes but
    [updatedAt] of the products sold. *)
Theorem createSale_lowers_stock_by_quantity :
  forall env saleData items db db' result,
    createSale env saleData items db = (db', Returned result) ->
    Forall2 (sold env items) (products db) (products db').
Proof.
  intros env saleData items db db' [sale invoice] Hcreate.
  apply createSale_returned in Hcreate.
  destruct Hcreate as (_ & _ & -> & _).
  destruct (sale_persisted_tables env saleData items db)
    as (_ & _ & _ & Hp & _).
  rewrite Hp. apply decrement_all_sold.
Qed.

Lemma createSale_lowers_stock_by_quantity_witness :
  Forall2 (sold (ex_env 1733300000000 "a")
                [InsertSaleItem.mk "p1" "Wrench" 2 (text 10000) (text 20000)])
          (products ex_db) (products ex_db_sold).
Proof.
  apply (createSale_lowers_stock_by_quantity (ex_env 1733300000000 "a")
           (InsertSale.mk "b1" "alice" "Trevor" None (text 20000)
              (Some SaleCompleted) (Some SourceGame))
           [InsertSaleItem.mk "p1" "Wrench" 2 (text 10000) (text 20000)]
           ex_db ex_db_sold
           (Sale.mk "a0" "b1" "alice" "Trevor" None 20000
              (Some SaleCompleted) (Some SourceGame) (Some 1733300000000),
            Invoice.mk "a2" "a0" "INV-M49M2FI8" (Some InvoicePending)
              (Some 1733300000000) None None)).
  vm_compute. reflexivity.
Defined.

Lemma quantity_of_distinct productId items :
  NoDup (map InsertSaleItem.productId items) ->
  quantity_of productId items = 0
  \/ exists item, In item items
                  /\ InsertSaleItem.productId item = productId
                  /\ quantity_of productId items = InsertSaleItem.quantity item.
Proof.
  induction items as [|item rest IH]; intros Hnodup; [now left|].
  cbn in Hnodup. apply NoDup_cons_iff in Hnodup. destruct Hnodup as [Hnot Hrest].
  unfold quantity_of. cbn [fold_right]. fold (quantity_of productId rest).
  destruct (String.eqb (InsertSaleItem.productId item) productId) eqn:E.
  - apply String.eqb_eq in E. right. exists item.
    split; [now left|]. split; [exact E|].
    destruct (IH Hrest) as [->|(other & Hin & Hid & _)]; [lia|].
    exfalso. apply Hnot. rewrite E, <- Hid. now apply in_map.
  - destruct (IH Hrest) as [Hz|(other & Hin & Hid & Hq)]; [now left|].
    right. exists other. split; [now right|]. auto.
Qed.

Lemma getProduct_unique db p :
  NoDup (map Product.id (products db)) ->
  In p (products db) ->
  getProduct db (Product.id p) = Some p.
Proof.
  unfold getProduct. induction (products db) as [|q ps IH]; intros Hnodup Hin;
    [destruct Hin|].
  cbn in Hnodup. apply NoDup_cons_iff in Hnodup. destruct Hnodup as [Hnot Hrest].
  cbn. destruct Hin as [->|Hin].
  - now rewrite String.eqb_refl.
  - destruct (String.eqb (Product.id q) (Product.id p)) eqn:E.
    + apply String.eqb_eq in E. exfalso. apply Hnot. rewrite E.
      now apply in_map.
    + now apply IH.
Qed.

Lemma decrement_all_nonnegative env db items :
  NoDup (map Product.id (products db)) ->
  NoDup (map InsertSaleItem.productId items) ->
  (forall item, In item items ->
                exists p, getProduct db (InsertSaleItem.productId item) = Some p
                          /\ InsertSaleItem.quantity item <= stock_or_0 p) ->
  (forall p, In p (products db) -> 0 <= stock_or_0 p) ->
  forall p', In p' (decrement_all env items (products db)) ->
             0 <= stock_or_0 p'.
Proof.
  intros Hkeys Hlines Hchecked Hnonneg p' Hin.
  destruct (Forall2_In_r _ _ _ _ (decrement_all_sold env items (products db))
              Hin) as (p & Hp & Hsold).
  destruct Hsold as (_ & _ & _ & _ & _ & _ & _ & Hstock & _).
  unfold stock_or_0 at 1. rewrite Hstock.
  pose proof (Hnonneg p Hp) as Hs. unfold stock_or_0 in Hs.
  destruct (Product.stock p) as [s|] eqn:Es; cbn; [|lia].
  destruct (quantity_of_distinct (Product.id p) items Hlines)
    as [->|(item & Hitem & Hid & ->)]; [lia|].
  destruct (Hchecked item Hitem) as (p0 & Hp0 & Hq).
  rewrite Hid, (getProduct_unique db p Hkeys Hp) in Hp0.
  inversion Hp0; subst p0. unfold stock_or_0 in Hq. rewrite Es in Hq. lia.
Qed.

Lemma verify_items_none db businessId items :
  verify_items db businessId items = None ->
  forall item, In item items ->
               exists p, getProduct db (InsertSaleItem.productId item) = Some p
                         /\ Product.businessId p = businessId
                         /\ InsertSaleItem.quantity item <= stock_or_0 p.
Proof.
  induction items as [|i rest IH]; intros Hv item Hin; [destruct Hin|].
  cbn in Hv. destruct (check_line _ _ _ _) as [r|p] eqn:E; [discriminate|].
  destruct Hin as [<-|Hin]; [|now apply IH].
  apply check_line_inr in E. exists p. exact E.
Qed.

(** A 201 of [POST /api/sales] passed the schema, the authorization and the
    check of every line. *)
Lemma post_sales_created_checked env userId data db db' body :
  post_sales env userId data db = (db', mkResponse 201 body) ->
  sales_schema data = true
  /\ isUserAuthorizedForBusiness db userId (SalesBody.businessId data) = true
  /\ verify_items db (SalesBody.businessId data) (SalesBody.items data) = None.
Proof.
  unfold post_sales.
  destruct (sales_schema data); cbn [negb]; [|intros H; inversion H].
  destruct (isUserAuthorizedForBusiness _ _ _); cbn [negb];
    [|intros H; inversion H].
  destruct (verify_items _ _ _) as [r|] eqn:Everify; [|auto].
  intros H. inversion H; subst.
  apply verify_items_reason in Everify. inversion Everify.
Qed.

Lemma resolved_checked db businessId lines items :
  Forall2 (resolved db businessId) lines items ->
  map InsertSaleItem.productId items = map GameItem.productId lines
  /\ forall item, In item items ->
                  exists p,
                    getProduct db (InsertSaleItem.productId item) = Some p
                    /\ InsertSaleItem.quantity item <= stock_or_0 p.
Proof.
  induction 1 as [|line item lines items (p & Hp & _ & Hq & ->) _ [IHm IHc]].
  - split; [reflexivity|intros item []].
  - split.
    + cbn. rewrite IHm. f_equal. now apply getProduct_id with (db := db).
    + intros it [<-|Hin]; [|now apply IHc].
      exists p. cbn. split; [|exact Hq].
      now rewrite (getProduct_id _ _ _ Hp).
Qed.

(** X3.  Stock stays non-negative through a sale whose lines name distinct
    products: in a database where product ids are unique and no stock is
    negative, after a 201 of either sale handler for a request that names
    no product twice, no stock is negative. *)
Theorem distinct_lines_keep_stock_nonnegative :
  forall db,
    NoDup (map Product.id (products db)) ->
    (forall p, In p (products db) -> 0 <= stock_or_0 p) ->
    (forall env userId data db' body,
        NoDup (map InsertSaleItem.productId (SalesBody.items data)) ->
        post_sales env userId data db = (db', mkResponse 201 body) ->
        forall p', In p' (products db') -> 0 <= stock_or_0 p')
    /\ (forall env data db' body,
           NoDup (map GameItem.productId (GameSalesBody.items data)) ->
           post_game_sales env data db = (db', mkResponse 201 body) ->
           forall p', In p' (products db') -> 0 <= stock_or_0 p').
Proof.
  intros db Hkeys Hnonneg. split.
  - intros env userId data db' body Hlines H201.
    destruct (post_sales_created_checked _ _ _ _ _ _ H201)
      as (_ & _ & Hverified).
    apply post_sales_created in H201. cbv zeta in H201.
    destruct H201 as (_ & -> & _).
    match goal with
    | |- context [sale_persisted env ?sd ?its db] =>
        destruct (sale_persisted_tables env sd its db)
          as (_ & _ & _ & Hp & _)
    end.
    rewrite Hp. apply decrement_all_nonnegative; auto.
    intros item Hin.
    destruct (verify_items_none _ _ _ Hverified item Hin) as (p & Hp0 & _ & Hq).
    exists p. auto.
  - intros env data db' body Hlines H201.
    apply post_game_sales_created in H201.
    destruct H201 as (business & items & totalAmount & _ & Hitems & H).
    cbv zeta in H. destruct H as (_ & -> & _).
    apply resolve_items_inr in Hitems.
    destruct Hitems as (new & -> & Hall & _). cbn [app].
    match goal with
    | |- context [sale_persisted env ?sd ?its db] =>
        destruct (sale_persisted_tables env sd its db)
          as (_ & _ & _ & Hp & _)
    end.
    rewrite Hp. destruct (resolved_checked _ _ _ _ Hall) as [Hmap Hchecked].
    apply decrement_all_nonnegative; auto.
    now rewrite Hmap.
Qed.

Lemma distinct_lines_keep_stock_nonnegative_witness :
  Forall (fun p' => 0 <= stock_or_0 p') (products ex_db_sold).
Proof.
  apply Forall_forall.
  assert (Hkeys : NoDup (map Product.id (products ex_db))).
  { cbn. repeat constructor; cbn; intuition discriminate. }
  assert (Hnonneg : forall p, In p (products ex_db) -> 0 <= stock_or_0 p).
  { intros p [<-|[<-|[]]]; cbn; lia. }
  apply (proj2 (distinct_lines_keep_stock_nonnegative ex_db Hkeys Hnonneg)
           (ex_env 1733300000000 "a") (ex_game_body None) ex_db_sold
           (GameSaleJson "a0" "INV-M49M2FI8" 20000)).
  - cbn. repeat constructor. cbn. intuition.
  - vm_compute. reflexivity.
Defined.

(** The handlers check each line on its own: two lines of two wrenches
    each pass with three in stock, and the stock ends at -1. *)
Example repeated_lines_overdraw_stock :
  let r := post_game_sales (ex_env 1733300000000 "a")
             (GameSalesBody.mk "rp_garage" "Trevor" None None
                [GameItem.mk "p1" 2; GameItem.mk "p1" 2]) ex_db in
  status (snd r) = 201
  /\ map Product.stock (products (fst r)) = [Some (-1); Some 10].
Proof. vm_compute. split; reflexivity. Qed.

(** ** When a sale goes through *)

Lemma decrement_keeps_ids env productId quantity ps :
  map Product.id (map (decrement env productId quantity) ps)
  = map Product.id ps.
Proof.
  rewrite map_map. apply map_ext. intros p. unfold decrement.
  now destruct (String.eqb (Product.id p) productId).
Qed.

Lemma integer_spec n :
  integer n = true <-> - 2147483648 <= n <= 2147483647.
Proof.
  unfold integer. rewrite andb_true_iff, !Z.leb_le. tauto.
Qed.

Lemma integer_between a b n :
  integer a = true -> integer b = true -> a <= n <= b -> integer n = true.
Proof. rewrite !integer_spec. lia. Qed.

Lemma quantity_of_taken productId items :
  quantity_of productId items = taken productId (web_lines items).
Proof.
  unfold quantity_of, taken, web_lines.
  induction items as [|item rest IH]; cbn; [reflexivity|]. now rewrite IH.
Qed.

Lemma quantity_of_firstn productId items :
  (forall item, In item items -> 0 <= InsertSaleItem.quantity item) ->
  forall n,
    0 <= quantity_of productId (firstn n items)
    <= quantity_of productId items.
Proof.
  unfold quantity_of.
  induction items as [|item rest IH]; intros Hpos n.
  - rewrite firstn_nil. cbn. lia.
  - assert (Hq : 0 <= InsertSaleItem.quantity item)
      by (apply Hpos; now left).
    assert (Hrest : forall it, In it rest -> 0 <= InsertSaleItem.quantity it)
      by (intros it Hin; apply Hpos; now right).
    destruct n as [|n].
    + specialize (IH Hrest 0%nat). cbn in IH |- *.
      destruct (String.eqb _ _); lia.
    + specialize (IH Hrest n). rewrite firstn_cons. cbn [fold_right].
      destruct (String.eqb _ _); lia.
Qed.

Lemma quantity_of_firstn_S productId items :
  forall n item,
    nth_error items n = Some item ->
    quantity_of productId (firstn (S n) items)
    = quantity_of productId (firstn n items)
      + (if String.eqb (InsertSaleItem.productId item) productId
         then InsertSaleItem.quantity item else 0).
Proof.
  unfold quantity_of.
  induction items as [|i rest IH]; intros n item Hnth.
  - destruct n; discriminate.
  - destruct n as [|n].
    + cbn in Hnth. inversion Hnth; subst. cbn.
      destruct (String.eqb _ _); lia.
    + cbn in Hnth. rewrite !firstn_cons. cbn [fold_right].
      rewrite (IH n item Hnth). destruct (String.eqb _ _); lia.
Qed.

(** Stocks that stay in range when all of [items] is taken off stay in
    range at every step of the loop. *)
Lemma stock_updates_fit_of_range env items ps :
  (forall item, In item items -> 0 <= InsertSaleItem.quantity item) ->
  (forall p s,
      In p ps -> Product.stock p = Some s ->
      integer s = true
      /\ integer (s - quantity_of (Product.id p) items) = true) ->
  stock_updates_fit env items ps.
Proof.
  intros Hpos Hrange n item Hnth.
  destruct (existsb _ _) eqn:E; [exfalso|reflexivity].
  apply existsb_exists in E. destruct E as (p' & Hin & Hover).
  destruct (Forall2_In_r _ _ _ _
              (decrement_all_sold env (firstn n items) ps) Hin)
    as (p & Hp & Hsold).
  destruct Hsold as (Hid & _ & _ & _ & _ & _ & _ & Hstock & _).
  unfold overdrawn in Hover. apply andb_true_iff in Hover.
  destruct Hover as [Heq Hover]. apply String.eqb_eq in Heq.
  rewrite Hstock in Hover.
  destruct (Product.stock p) as [s|] eqn:Es; cbn in Hover; [|discriminate].
  destruct (Hrange p s Hp Es) as [Hs Hall].
  apply negb_true_iff in Hover.
  assert (Hfits : integer (s - quantity_of (Product.id p) (firstn n items)
                           - InsertSaleItem.quantity item) = true).
  { pose proof (quantity_of_firstn (Product.id p) items Hpos n) as Hn.
    pose proof (quantity_of_firstn (Product.id p) items Hpos (S n)) as HSn.
    rewrite (quantity_of_firstn_S (Product.id p) items n item Hnth) in HSn.
    rewrite <- Hid, Heq, String.eqb_refl in HSn.
    rewrite <- Hid, Heq in Hn, Hall.
    rewrite <- Hid, Heq.
    apply (integer_between
             (s - quantity_of (InsertSaleItem.productId item) items) s);
      [exact Hall|exact Hs|lia]. }
  congruence.
Qed.

Lemma createSale_items_succeeds env saleId items :
  forall k db,
    In saleId (map Sale.id (sales db)) ->
    (forall item, In item items ->
                  In (InsertSaleItem.productId item)
                     (map Product.id (products db))
                  /\ storable_item item) ->
    stock_updates_fit env items (products db) ->
    (forall j, (k <= j < k + List.length items)%nat ->
               ~ In (gen_random_uuid env j) (map SaleItem.id (saleItems db))) ->
    NoDup (map (gen_random_uuid env) (seq k (List.length items))) ->
    createSale_items env saleId k items db
    = (items_written env saleId k items db, Returned tt).
Proof.
  induction items as [|item rest IH];
    intros k db Hsale Hitems Hstock Hnew Hdistinct.
  - cbn. now rewrite items_written_nil.
  - cbn [createSale_items]. unfold bind at 1.
    destruct (Hitems item (or_introl eq_refl))
      as (Hproduct & Hname & Hquantity & Hunit & Htotal).
    unfold insert_saleItems.
    assert (H1 : has_id (map SaleItem.id (saleItems db))
                        (gen_random_uuid env k) = false).
    { apply has_id_false. apply Hnew. cbn. lia. }
    assert (H2 : has_id (map Sale.id (sales db)) saleId = true)
      by now apply has_id_true.
    assert (H3 : has_id (map Product.id (products db))
                        (InsertSaleItem.productId item) = true)
      by now apply has_id_true.
    rewrite Hname, Hquantity, (decimal_10_2_Some _ Hunit),
      (decimal_10_2_Some _ Htotal), H1, H2, H3.
    cbn [negb]. fold (saleItem_row (gen_random_uuid env k) saleId item).
    unfold bind at 1, update_stock. rewrite Hquantity. cbn [negb].
    pose proof (Hstock 0%nat item eq_refl) as H0. cbn in H0.
    cbn [products set_saleItems]. rewrite H0.
    rewrite items_written_cons. apply IH.
    + exact Hsale.
    + intros it Hin. cbn [products set_products set_saleItems].
      rewrite decrement_keeps_ids. apply Hitems. now right.
    + intros n it Hnth. cbn [products set_products set_saleItems].
      exact (Hstock (S n) it Hnth).
    + intros j Hj. cbn [saleItems set_products set_saleItems].
      rewrite map_app. intros Hin. apply in_app_or in Hin.
      destruct Hin as [Hin|[Heq|[]]].
      * revert Hin. apply Hnew. cbn. lia.
      * cbn in Hdistinct, Heq. apply NoDup_cons_iff in Hdistinct.
        destruct Hdistinct as [Hnot _]. apply Hnot. rewrite Heq.
        apply in_map. apply in_seq. lia.
    + cbn in Hdistinct. now apply NoDup_cons_iff in Hdistinct.
Qed.

Lemma createSale_succeeds env saleData items db :
  varchar 255 (InsertSale.buyerName saleData) = true ->
  decimal_10_2 (InsertSale.totalAmount saleData) <> None ->
  In (InsertSale.businessId saleData) (map Business.id (businesses db)) ->
  In (InsertSale.sellerId saleData) (map User.id (users db)) ->
  (forall item, In item items ->
                In (InsertSaleItem.productId item)
                   (map Product.id (products db))
                /\ storable_item item) ->
  stock_updates_fit env items (products db) ->
  fresh_ids env (List.length items) db ->
  createSale env saleData items db
  = (sale_persisted env saleData items db,
     Returned (sale_row env saleData, invoice_row env (List.length items))).
Proof.
  intros Hname Htotal Hbusiness Hseller Hitems Hstock
         (Hsale & Hrows & Hdistinct & Hinv & Hnum & Hlen).
  unfold createSale. unfold bind at 1. unfold insert_sales.
  apply has_id_false in Hsale. apply has_id_true in Hbusiness, Hseller.
  rewrite Hname, (decimal_10_2_Some _ Htotal), Hsale, Hbusiness, Hseller.
  cbn [negb].
  fold (sale_row env saleData).
  change (Sale.id (sale_row env saleData)) with (gen_random_uuid env 0).
  unfold bind at 1.
  rewrite (createSale_items_succeeds env (gen_random_uuid env 0) items 1%nat).
  - unfold bind at 1. unfold insert_invoices.
    cbn [invoices items_written set_products set_saleItems set_sales sales].
    apply has_id_false in Hinv, Hnum. rewrite Hlen, Hinv, Hnum.
    assert (Hin : has_id (map Sale.id (sales db ++ [sale_row env saleData]))
                         (gen_random_uuid env 0) = true).
    { apply has_id_true. rewrite map_app. apply in_or_app. right. now left. }
    rewrite Hin. cbn [negb]. unfold ret, sale_persisted, sale_and_items.
    rewrite firstn_all. reflexivity.
  - cbn [sales set_sales]. rewrite map_app. apply in_or_app. right. now left.
  - exact Hitems.
  - exact Hstock.
  - intros j Hj. apply Hrows. lia.
  - exact Hdistinct.
Qed.

Lemma check_line_passes db businessId productId quantity p :
  getProduct db productId = Some p ->
  Product.businessId p = businessId ->
  quantity <= stock_or_0 p ->
  check_line businessId productId quantity (getProduct db productId) = inr p.
Proof.
  intros Hp Hb Hq. unfold check_line. rewrite Hp, Hb, String.eqb_refl.
  cbn [negb]. apply Z.ltb_ge in Hq. now rewrite Hq.
Qed.

Lemma verify_items_passes db businessId items :
  (forall item, In item items ->
                line_passes db businessId (InsertSaleItem.productId item)
                            (InsertSaleItem.quantity item)) ->
  verify_items db businessId items = None.
Proof.
  induction items as [|item rest IH]; intros Hpass; [reflexivity|].
  cbn. destruct (Hpass item (or_introl eq_refl)) as (p & Hp & Hb & Hq).
  rewrite (check_line_passes _ _ _ _ _ Hp Hb Hq). apply IH.
  intros it Hin. apply Hpass. now right.
Qed.

Lemma resolve_items_passes db businessId lines :
  (forall line, In line lines ->
                line_passes db businessId (GameItem.productId line)
                            (GameItem.quantity line)) ->
  forall acc total,
    exists new,
      resolve_items db businessId lines acc total
      = inr ((acc ++ new)%list, total + sum_items new)
      /\ Forall2 (resolved db businessId) lines new.
Proof.
  induction lines as [|line rest IH]; intros Hpass acc total.
  - exists []. cbn. rewrite app_nil_r, Z.add_0_r. split; [reflexivity|constructor].
  - destruct (Hpass line (or_introl eq_refl)) as (p & Hp & Hb & Hq).
    cbn [resolve_items]. rewrite (check_line_passes _ _ _ _ _ Hp Hb Hq).
    cbv zeta.
    destruct (IH (fun l Hl => Hpass l (or_intror Hl))
                (acc ++ [InsertSaleItem.mk (Product.id p) (Product.name p)
                           (GameItem.quantity line) (text (Product.price p))
                           (text (Product.price p * GameItem.quantity line))])
                  %list
                (total + Product.price p * GameItem.quantity line))
      as (new & Hnew & Hall).
    eexists (_ :: new). split.
    + rewrite Hnew, <- app_assoc. cbn [app]. f_equal. f_equal.
      unfold sum_items. cbn. lia.
    + constructor; [|exact Hall]. exists p. auto.
Qed.

Lemma resolved_products db businessId lines items :
  Forall2 (resolved db businessId) lines items ->
  List.length items = List.length lines
  /\ forall item, In item items ->
                  In (InsertSaleItem.productId item)
                     (map Product.id (products db)).
Proof.
  induction 1 as [|line item lines items (p & Hp & _ & _ & ->) _ [IHl IHp]].
  - split; [reflexivity|intros item []].
  - split; [cbn; now rewrite IHl|].
    intros it [<-|Hin]; [|now apply IHp].
    cbn. apply in_map. unfold getProduct in Hp. now apply find_some in Hp.
Qed.

Lemma resolved_lines db businessId lines items :
  Forall2 (resolved db businessId) lines items ->
  web_lines items = game_lines lines
  /\ sum_items items = game_total db lines.
Proof.
  induction 1 as [|line item lines items (p & Hp & _ & _ & ->) _ [IHl IHt]].
  - split; reflexivity.
  - split.
    + unfold web_lines, game_lines in *. cbn [map]. rewrite IHl.
      cbn. now rewrite (getProduct_id _ _ _ Hp).
    + unfold sum_items, game_total in *. cbn [fold_right]. rewrite Hp.
      cbn. now rewrite IHt.
Qed.

(** A line that passes the stock check has a quantity the [integer] column
    holds, if it is positive and the stock is in range. *)
Lemma line_passes_integer db businessId productId quantity lines :
  stocks_stay_in_range db lines ->
  line_passes db businessId productId quantity ->
  0 < quantity ->
  integer quantity = true
  /\ In productId (map Product.id (products db)).
Proof.
  intros Hrange (p & Hp & _ & Hq) Hpos.
  pose proof (getProduct_id _ _ _ Hp) as Hid.
  unfold getProduct in Hp. apply find_some in Hp. destruct Hp as [Hin _].
  split; [|rewrite <- Hid; now apply in_map].
  unfold stock_or_0 in Hq.
  destruct (Product.stock p) as [s|] eqn:Es; [|lia].
  destruct (Hrange p s Hin Es) as [Hs _].
  apply integer_spec in Hs. apply integer_spec. lia.
Qed.

Lemma stocks_stay_in_range_fit env db items :
  (forall item, In item items -> 0 < InsertSaleItem.quantity item) ->
  stocks_stay_in_range db (web_lines items) ->
  stock_updates_fit env items (products db).
Proof.
  intros Hpos Hrange. apply stock_updates_fit_of_range.
  - intros item Hin. specialize (Hpos item Hin). lia.
  - intros p s Hp Hs. rewrite quantity_of_taken. now apply Hrange.
Qed.

(** When [POST /api/sales] answers 201. *)
Lemma post_sales_succeeds env userId data db :
  sales_schema data = true ->
  isUserAuthorizedForBusiness db userId (SalesBody.businessId data) = true ->
  In (SalesBody.businessId data) (map Business.id (businesses db)) ->
  In userId (map User.id (users db)) ->
  (forall item, In item (SalesBody.items data) ->
                line_passes db (SalesBody.businessId data)
                            (InsertSaleItem.productId item)
                            (InsertSaleItem.quantity item)) ->
  web_values_fit data ->
  stocks_stay_in_range db (web_lines (SalesBody.items data)) ->
  fresh_ids env (List.length (SalesBody.items data)) db ->
  let saleData :=
    InsertSale.mk (SalesBody.businessId data) userId
      (SalesBody.buyerName data) (SalesBody.buyerInfo data)
      (SalesBody.totalAmount data) (SalesBody.status data)
      (SalesBody.source data) in
  post_sales env userId data db
  = (sale_persisted env saleData (SalesBody.items data) db,
     mkResponse 201
       (SaleJson (sale_row env saleData)
          (invoice_row env (List.length (SalesBody.items data))))).
Proof.
  intros Hschema Hauth Hbusiness Huser Hpass (Hname & Htotal & Hfit) Hrange
         Hfresh.
  cbv zeta. unfold post_sales. rewrite Hschema, Hauth. cbn [negb].
  rewrite (verify_items_passes _ _ _ Hpass).
  assert (Hpos : forall item, In item (SalesBody.items data) ->
                              0 < InsertSaleItem.quantity item).
  { unfold sales_schema in Hschema. apply andb_true_iff in Hschema.
    destruct Hschema as [_ Hq]. rewrite forallb_forall in Hq.
    intros item Hin. now apply Z.ltb_lt, Hq. }
  rewrite createSale_succeeds; auto.
  - intros item Hin.
    destruct (line_passes_integer _ _ _ _ _ Hrange (Hpass item Hin)
                (Hpos item Hin)) as [Hq Hp].
    destruct (Hfit item Hin) as (Hn & Hu & Ht).
    split; [exact Hp|]. repeat split; assumption.
  - now apply stocks_stay_in_range_fit.
Qed.

(** When [POST /api/game/sales] answers 201. *)
Lemma post_game_sales_succeeds env data db business :
  game_schema data = true ->
  getBusinessByApiKey db (GameSalesBody.businessApiKey data) = Some business ->
  In (resolve_seller db business (GameSalesBody.sellerId data))
     (map User.id (users db)) ->
  (forall line, In line (GameSalesBody.items data) ->
                line_passes db (Business.id business)
                            (GameItem.productId line)
                            (GameItem.quantity line)) ->
  game_values_fit db data ->
  stocks_stay_in_range db (game_lines (GameSalesBody.items data)) ->
  fresh_ids env (List.length (GameSalesBody.items data)) db ->
  exists items,
    Forall2 (resolved db (Business.id business))
            (GameSalesBody.items data) items
    /\ post_game_sales env data db
       = (sale_persisted env
            (InsertSale.mk (Business.id business)
               (resolve_seller db business (GameSalesBody.sellerId data))
               (GameSalesBody.buyerName data)
               (GameSalesBody.buyerInfo data)
               (text (game_total db (GameSalesBody.items data)))
               (Some SaleCompleted) (Some SourceGame))
            items db,
          mkResponse 201
            (GameSaleJson (gen_random_uuid env 0)
               (invoiceNumberAt (now env))
               (game_total db (GameSalesBody.items data)))).
Proof.
  intros Hschema Hkey Hseller Hpass (Hname & Htotal & Hfit) Hrange Hfresh.
  destruct (resolve_items_passes _ _ _ Hpass [] 0) as (items & Hitems & Hall).
  cbn [app] in Hitems. rewrite Z.add_0_l in Hitems.
  destruct (resolved_products _ _ _ _ Hall) as [Hlen Hproducts].
  destruct (resolved_lines _ _ _ _ Hall) as [Hlines Hsum].
  rewrite Hsum in Hitems.
  exists items. split; [exact Hall|].
  unfold post_game_sales. rewrite Hschema, Hkey, Hitems. cbn [negb].
  assert (Hq : forall line, In line (GameSalesBody.items data) ->
                            0 < GameItem.quantity line).
  { unfold game_schema in Hschema. apply andb_true_iff in Hschema.
    destruct Hschema as [_ Hq]. rewrite forallb_forall in Hq.
    intros line Hin. now apply Z.ltb_lt, Hq. }
  assert (Hresolved : forall item, In item items ->
                        exists line p,
                          In line (GameSalesBody.items data)
                          /\ getProduct db (GameItem.productId line) = Some p
                          /\ item = InsertSaleItem.mk (Product.id p)
                                      (Product.name p)
                                      (GameItem.quantity line)
                                      (text (Product.price p))
                                      (text (Product.price p
                                             * GameItem.quantity line))).
  { intros item Hin.
    destruct (Forall2_In_r _ _ _ _ Hall Hin)
      as (line & Hline & p & Hp & _ & _ & ->).
    exists line, p. auto. }
  rewrite createSale_succeeds; auto.
  - cbn. unfold decimal_10_2, text. cbv zeta. change (round_half_away ?d 2)
      with d. rewrite Htotal. discriminate.
  - cbn. unfold getBusinessByApiKey in Hkey. apply find_some in Hkey.
    apply in_map. apply Hkey.
  - intros item Hin. split; [now apply Hproducts|].
    destruct (Hresolved item Hin) as (line & p & Hline & Hp & ->).
    destruct (Hfit line p Hline Hp) as (Hn & Hprice & Hlinetotal).
    destruct (line_passes_integer _ _ _ _ _ Hrange (Hpass line Hline)
                (Hq line Hline)) as [Hint _].
    unfold storable_item. cbn. repeat split; try assumption.
    + unfold decimal_10_2, text. cbv zeta.
      change (round_half_away ?d 2) with d. rewrite Hprice. discriminate.
    + unfold decimal_10_2, text. cbv zeta.
      change (round_half_away ?d 2) with d. rewrite Hlinetotal. discriminate.
  - apply stocks_stay_in_range_fit; [|now rewrite Hlines].
    intros item Hin.
    destruct (Hresolved item Hin) as (line & p & Hline & _ & ->).
    cbn. now apply Hq.
  - now rewrite Hlen.
Qed.

(** X4.  A sale request goes through whenever it should: if the body passes
    the schema, the caller is authorized (web) or the key is a business's
    (game), every line passes the three checks, the seller is a known user,
    what is to be stored fits its columns, the stocks stay in the range of
    theirs, and the ids and the invoice number generated are new, the
    answer is 201 and the database holds the sale, one row per line, the
    lowered stocks and the invoice. *)
Theorem valid_sale_request_is_created :
  (forall env userId data db,
      sales_schema data = true ->
      isUserAuthorizedForBusiness db userId (SalesBody.businessId data) = true ->
      In (SalesBody.businessId data) (map Business.id (businesses db)) ->
      In userId (map User.id (users db)) ->
      (forall item, In item (SalesBody.items data) ->
                    line_passes db (SalesBody.businessId data)
                                (InsertSaleItem.productId item)
                                (InsertSaleItem.quantity item)) ->
      web_values_fit data ->
      stocks_stay_in_range db (web_lines (SalesBody.items data)) ->
      fresh_ids env (List.length (SalesBody.items data)) db ->
      let saleData :=
        InsertSale.mk (SalesBody.businessId data) userId
          (SalesBody.buyerName data) (SalesBody.buyerInfo data)
          (SalesBody.totalAmount data) (SalesBody.status data)
          (SalesBody.source data) in
      post_sales env userId data db
      = (sale_persisted env saleData (SalesBody.items data) db,
         mkResponse 201
           (SaleJson (sale_row env saleData)
              (invoice_row env (List.length (SalesBody.items data))))))
  /\ (forall env data db business,
         game_schema data = true ->
         getBusinessByApiKey db (GameSalesBody.businessApiKey data)
         = Some business ->
         In (resolve_seller db business (GameSalesBody.sellerId data))
            (map User.id (users db)) ->
         (forall line, In line (GameSalesBody.items data) ->
                       line_passes db (Business.id business)
                                   (GameItem.productId line)
                                   (GameItem.quantity line)) ->
         game_values_fit db data ->
         stocks_stay_in_range db (game_lines (GameSalesBody.items data)) ->
         fresh_ids env (List.length (GameSalesBody.items data)) db ->
         exists items,
           Forall2 (resolved db (Business.id business))
                   (GameSalesBody.items data) items
           /\ post_game_sales env data db
              = (sale_persisted env
                   (InsertSale.mk (Business.id business)
                      (resolve_seller db business (GameSalesBody.sellerId data))
                      (GameSalesBody.buyerName data)
                      (GameSalesBody.buyerInfo data)
                      (text (game_total db (GameSalesBody.items data)))
                      (Some SaleCompleted) (Some SourceGame))
                   items db,
                 mkResponse 201
                   (GameSaleJson (gen_random_uuid env 0)
                      (invoiceNumberAt (now env))
                      (game_total db (GameSalesBody.items data))))).
Proof.
  split.
  - intros. now apply post_sales_succeeds.
  - intros. now apply post_game_sales_succeeds.
Qed.

Lemma ex_db_stocks lines :
  (forall p, In p (products ex_db) -> 0 <= taken (Product.id p) lines <= 10) ->
  stocks_stay_in_range ex_db lines.
Proof.
  intros Hlines p s Hp Hs. specialize (Hlines p Hp).
  destruct Hp as [<-|[<-|[]]]; cbn in Hs; inversion Hs; subst;
    split; apply integer_spec; lia.
Qed.

Lemma valid_sale_request_is_created_witness :
  post_sales (ex_env 1733300000000 "a") "alice" ex_web_body ex_db
  = (sale_persisted (ex_env 1733300000000 "a")
       (InsertSale.mk "b1" "alice" "Trevor" None (Dec 3 2) None None)
       (SalesBody.items ex_web_body) ex_db,
     mkResponse 201
       (SaleJson
          (sale_row (ex_env 1733300000000 "a")
             (InsertSale.mk "b1" "alice" "Trevor" None (Dec 3 2) None None))
          (invoice_row (ex_env 1733300000000 "a") 1))).
Proof.
  apply (proj1 valid_sale_request_is_created
           (ex_env 1733300000000 "a") "alice" ex_web_body ex_db).
  - reflexivity.
  - reflexivity.
  - cbn. now left.
  - cbn. now left.
  - intros item [<-|[]].
    exists (Product.mk "p1" "b1" "Wrench" None 10000 (Some 3) None (Some true)
                       None).
    repeat split. cbn. lia.
  - unfold web_values_fit. cbn. split; [reflexivity|].
    split; [discriminate|].
    intros item [<-|[]]. cbn. repeat split; discriminate.
  - apply ex_db_stocks. intros p [<-|[<-|[]]]; cbn; lia.
  - unfold fresh_ids. cbn. repeat split; try tauto.
    repeat constructor. intros [].
Defined.

(** What is stored has to fit: a game sale of two cars at 60,000,000.00
    passes every check of the handler, and the sale insert fails on the
    total, which the column cannot hold. *)
Example total_too_large_for_its_column :
  let db := set_products
              [Product.mk "p1" "b1" "Car" None 6000000000 (Some 3) None
                          (Some true) None] ex_db in
  post_game_sales (ex_env 1733300000000 "a") (ex_game_body None) db
  = (db, json 400 "Failed to process sale").
Proof. vm_compute. reflexivity. Qed.

(** ** A sale without lines *)

Lemma sale_persisted_nil env saleData db :
  sale_persisted env saleData [] db
  = set_invoices (invoices db ++ [invoice_row env 0])
      (set_sales (sales db ++ [sale_row env saleData]) db).
Proof.
  destruct db. unfold sale_persisted, sale_and_items, items_written,
    set_invoices, set_sales, set_products, set_saleItems. cbn.
  now rewrite app_nil_r.
Qed.

Lemma stock_updates_fit_nil env ps : stock_updates_fit env [] ps.
Proof. intros n item Hnth. destruct n; discriminate. Qed.

(** X5.  Neither sale handler asks for a line: a request with an empty
    [items] array that passes the other checks, whose buyer name and total
    fit their columns, is answered 201 and stores a sale (of total 0 on the
    game path, of the total the body states, rounded to hundredths, on the
    web path) with its invoice, no sale item, and leaves the products as they
    are. *)
Theorem sale_without_lines_is_created :
  (forall env userId data db,
      nonempty (SalesBody.buyerName data) = true ->
      SalesBody.items data = [] ->
      isUserAuthorizedForBusiness db userId (SalesBody.businessId data) = true ->
      In (SalesBody.businessId data) (map Business.id (businesses db)) ->
      In userId (map User.id (users db)) ->
      varchar 255 (SalesBody.buyerName data) = true ->
      decimal_10_2 (SalesBody.totalAmount data) <> None ->
      fresh_ids env 0 db ->
      exists sale invoice,
        post_sales env userId data db
        = (set_invoices (invoices db ++ [invoice])
             (set_sales (sales db ++ [sale]) db),
           mkResponse 201 (SaleJson sale invoice))
        /\ decimal_10_2 (SalesBody.totalAmount data)
           = Some (Sale.totalAmount sale)
        /\ Invoice.saleId invoice = Sale.id sale)
  /\ (forall env data db business,
         nonempty (GameSalesBody.buyerName data) = true ->
         GameSalesBody.items data = [] ->
         getBusinessByApiKey db (GameSalesBody.businessApiKey data)
         = Some business ->
         In (resolve_seller db business (GameSalesBody.sellerId data))
            (map User.id (users db)) ->
         varchar 255 (GameSalesBody.buyerName data) = true ->
         fresh_ids env 0 db ->
         exists sale invoice,
           post_game_sales env data db
           = (set_invoices (invoices db ++ [invoice])
                (set_sales (sales db ++ [sale]) db),
              mkResponse 201
                (GameSaleJson (Sale.id sale) (Invoice.invoiceNumber invoice) 0))
           /\ Sale.totalAmount sale = 0
           /\ Invoice.saleId invoice = Sale.id sale).
Proof.
  split.
  - intros env userId data db Hname Hitems Hauth Hbusiness Huser Hlen Htotal
           Hfresh.
    unfold post_sales, sales_schema. rewrite Hname, Hitems, Hauth.
    cbn [forallb andb negb verify_items].
    rewrite createSale_succeeds.
    + rewrite sale_persisted_nil. eexists _, _. split; [reflexivity|].
      split; [|reflexivity]. cbn. now apply decimal_10_2_Some.
    + exact Hlen.
    + exact Htotal.
    + exact Hbusiness.
    + exact Huser.
    + intros item [].
    + apply stock_updates_fit_nil.
    + exact Hfresh.
  - intros env data db business Hname Hitems Hkey Hseller Hlen Hfresh.
    unfold post_game_sales, game_schema. rewrite Hname, Hitems, Hkey.
    cbn [forallb andb negb resolve_items].
    rewrite createSale_succeeds.
    + rewrite sale_persisted_nil. eexists _, _. split; [reflexivity|].
      split; reflexivity.
    + exact Hlen.
    + cbn. discriminate.
    + cbn. unfold getBusinessByApiKey in Hkey. apply find_some in Hkey.
      apply in_map. apply Hkey.
    + exact Hseller.
    + intros item [].
    + apply stock_updates_fit_nil.
    + exact Hfresh.
Qed.

Lemma sale_without_lines_is_created_witness :
  exists sale invoice,
    post_game_sales (ex_env 1733300000000 "a")
      (GameSalesBody.mk "rp_garage" "Trevor" None None []) ex_db
    = (set_invoices (invoices ex_db ++ [invoice])
         (set_sales (sales ex_db ++ [sale]) ex_db),
       mkResponse 201
         (GameSaleJson (Sale.id sale) (Invoice.invoiceNumber invoice) 0))
    /\ Sale.totalAmount sale = 0
    /\ Invoice.saleId invoice = Sale.id sale.
Proof.
  apply (proj2 sale_without_lines_is_created (ex_env 1733300000000 "a")
           (GameSalesBody.mk "rp_garage" "Trevor" None None []) ex_db
           (Business.mk "b1" "Garage" "alice" (Some "rp_garage"))).
  - reflexivity.
  - reflexivity.
  - reflexivity.
  - cbn. now left.
  - reflexivity.
  - unfold fresh_ids. cbn. repeat split; try tauto. constructor.
Defined.

(** ** A seller the business does not know *)

(** C10.  On the game path a [sellerId] that is neither the owner nor an
    employee of the business (the authorization check answers false for it)
    is ignored.  The request has the outcome, database and response, of the
    same request sent without [sellerId], and whenever a sale is created
    its row records the business owner as seller.  And it does not make the
    request fail: a request that names such a seller, passes the schema and
    the check of every line, and whose values fit their columns, as for any
    sale that goes through, is answered 201; the sale is stored with its
    invoice and with the owner, not the user named, as seller. *)
Theorem unauthorized_sellerId_ignored :
  (forall env data db s,
      GameSalesBody.sellerId data = Some s ->
      (forall business,
          getBusinessByApiKey db (GameSalesBody.businessApiKey data)
          = Some business ->
          isUserAuthorizedForBusiness db s (Business.id business) = false) ->
      post_game_sales env data db
      = post_game_sales env (without_sellerId data) db
      /\ forall db' body,
          post_game_sales env data db = (db', mkResponse 201 body) ->
          exists business sale,
            getBusinessByApiKey db (GameSalesBody.businessApiKey data)
            = Some business
            /\ sales db' = (sales db ++ [sale])%list
            /\ Sale.sellerId sale = Business.ownerId business
            /\ exists invoiceNumber totalAmount,
                body = GameSaleJson (Sale.id sale) invoiceNumber totalAmount)
  /\ (forall env data db business s,
         GameSalesBody.sellerId data = Some s ->
         getBusinessByApiKey db (GameSalesBody.businessApiKey data)
         = Some business ->
         isUserAuthorizedForBusiness db s (Business.id business) = false ->
         game_schema data = true ->
         In (Business.ownerId business) (map User.id (users db)) ->
         (forall line, In line (GameSalesBody.items data) ->
                       line_passes db (Business.id business)
                                   (GameItem.productId line)
                                   (GameItem.quantity line)) ->
         game_values_fit db data ->
         stocks_stay_in_range db (game_lines (GameSalesBody.items data)) ->
         fresh_ids env (List.length (GameSalesBody.items data)) db ->
         exists db' sale invoice,
           post_game_sales env data db
           = (db', mkResponse 201
                     (GameSaleJson (Sale.id sale)
                        (Invoice.invoiceNumber invoice)
                        (Sale.totalAmount sale)))
           /\ sales db' = (sales db ++ [sale])%list
           /\ invoices db' = (invoices db ++ [invoice])%list
           /\ Invoice.saleId invoice = Sale.id sale
           /\ Sale.businessId sale = Business.id business
           /\ Sale.sellerId sale = Business.ownerId business
           /\ Sale.sellerId sale <> s).
Proof.
  assert (Hseller : forall data db s business,
             GameSalesBody.sellerId data = Some s ->
             isUserAuthorizedForBusiness db s (Business.id business) = false ->
             resolve_seller db business (GameSalesBody.sellerId data)
             = Business.ownerId business).
  { intros data db s business Hs Hunauth. unfold resolve_seller.
    rewrite Hs, Hunauth. now destruct (nonempty s). }
  split.
  - intros env data db s Hs Hunauth. split.
    + unfold post_game_sales, without_sellerId. cbn.
      destruct (game_schema data) eqn:Hschema.
      * assert (Hschema' : game_schema
                  (GameSalesBody.mk (GameSalesBody.businessApiKey data)
                     (GameSalesBody.buyerName data)
                     (GameSalesBody.buyerInfo data) None
                     (GameSalesBody.items data)) = true) by exact Hschema.
        rewrite Hschema'. cbn [negb].
        destruct (getBusinessByApiKey _ _) as [business|] eqn:Hb;
          [|reflexivity].
        now rewrite (Hseller data db s business Hs (Hunauth business eq_refl)).
      * assert (Hschema' : game_schema
                  (GameSalesBody.mk (GameSalesBody.businessApiKey data)
                     (GameSalesBody.buyerName data)
                     (GameSalesBody.buyerInfo data) None
                     (GameSalesBody.items data)) = false) by exact Hschema.
        now rewrite Hschema'.
    + intros db' body H.
      apply post_game_sales_created in H.
      destruct H as (business & items & totalAmount & Hb & _ & H).
      cbv zeta in H. destruct H as (_ & -> & ->).
      eexists business, _. split; [exact Hb|].
      split; [apply sale_persisted_tables|].
      split; [cbn; now apply (Hseller data db s business Hs), Hunauth|].
      eexists _, _. reflexivity.
  - intros env data db business s Hs Hkey Hunauth Hschema Howner Hpass Hfit
           Hrange Hfresh.
    pose proof (Hseller data db s business Hs Hunauth) as Hresolved.
    destruct (post_game_sales_succeeds env data db business Hschema Hkey)
      as (items & _ & Hpost); try assumption.
    { now rewrite Hresolved. }
    rewrite Hresolved in Hpost. rewrite Hpost.
    match type of Hpost with
    | _ = (sale_persisted env ?sd items db, _) =>
        destruct (sale_persisted_tables env sd items db)
          as (_ & _ & _ & _ & Hsales & _ & Hinvoices);
        exists (sale_persisted env sd items db), (sale_row env sd)
    end.
    exists (invoice_row env (List.length items)).
    split; [reflexivity|]. split; [exact Hsales|]. split; [exact Hinvoices|].
    split; [reflexivity|]. split; [reflexivity|]. split; [reflexivity|].
    cbn. intros Heq.
    assert (Hauth : isUserAuthorizedForBusiness db (Business.ownerId business)
                      (Business.id business) = true).
    { apply authorized_spec. left. exists business.
      unfold getBusinessByApiKey in Hkey. apply find_some in Hkey.
      split; [apply Hkey|]. split; reflexivity. }
    rewrite Heq in Hauth. congruence.
Qed.

(** Dave works at the diner, not at the garage: a game sale of the garage
    that names him as seller is created, for Alice, who owns the garage. *)
Lemma unauthorized_sellerId_ignored_witness :
  exists db' sale invoice,
    post_game_sales (ex_env 1733300000000 "a") (ex_game_body (Some "dave"))
      ex_db
    = (db', mkResponse 201
              (GameSaleJson (Sale.id sale) (Invoice.invoiceNumber invoice)
                 (Sale.totalAmount sale)))
    /\ sales db' = (sales ex_db ++ [sale])%list
    /\ invoices db' = (invoices ex_db ++ [invoice])%list
    /\ Invoice.saleId invoice = Sale.id sale
    /\ Sale.businessId sale = "b1"
    /\ Sale.sellerId sale = "alice"
    /\ Sale.sellerId sale <> "dave".
Proof.
  apply (proj2 unauthorized_sellerId_ignored (ex_env 1733300000000 "a")
           (ex_game_body (Some "dave")) ex_db
           (Business.mk "b1" "Garage" "alice" (Some "rp_garage")) "dave").
  - reflexivity.
  - reflexivity.
  - reflexivity.
  - reflexivity.
  - cbn. now left.
  - intros line [<-|[]].
    exists (Product.mk "p1" "b1" "Wrench" None 10000 (Some 3) None (Some true)
                       None).
    repeat split. cbn. lia.
  - unfold game_values_fit. split; [reflexivity|]. split; [reflexivity|].
    intros line p [<-|[]] Hp. vm_compute in Hp. inversion Hp; subst p.
    repeat split; reflexivity.
  - apply ex_db_stocks. intros p [<-|[<-|[]]]; cbn; lia.
  - unfold fresh_ids. cbn. repeat split; try tauto.
    repeat constructor. intros [].
Defined.

Example sale_for_dave_is_recorded_for_alice :
  let (db', r) := post_game_sales (ex_env 1733300000000 "a")
                    (ex_game_body (Some "dave")) ex_db in
  r = mkResponse 201 (GameSaleJson "a0" "INV-M49M2FI8" 20000)
  /\ map Sale.sellerId (sales db') = ["alice"]
  /\ map Invoice.saleId (invoices db') = ["a0"]
  /\ map Product.stock (products db') = [Some 1; Some 10].
Proof. vm_compute. repeat split; reflexivity. Qed.

Example sale_for_bob_is_recorded_for_bob :
  let (db', r) := post_game_sales (ex_env 1733300000000 "a")
                    (ex_game_body (Some "bob")) ex_db in
  map Sale.sellerId (sales db') = ["bob"].
Proof. vm_compute. reflexivity. Qed.

(** ** Which answers can hide a write *)

(** X6.  Both sale handlers write only when they answer 201 or the
    catch-all 400: behind a 401, a 403 or a 400 that names a product the
    database is as it was.  [POST /api/sales] answers 201, 400 or 403 and
    [POST /api/game/sales] answers 201, 400 or 401, nothing else. *)
Theorem sale_handlers_write_only_behind_201_or_catch_all :
  forall env db,
    (forall userId data,
        let r := post_sales env userId data db in
        (fst r = db \/ status (snd r) = 201
         \/ snd r = json 400 "Failed to create sale")
        /\ (status (snd r) = 201 \/ status (snd r) = 400
            \/ status (snd r) = 403))
    /\ (forall data,
           let r := post_game_sales env data db in
           (fst r = db \/ status (snd r) = 201
            \/ snd r = json 400 "Failed to process sale")
           /\ (status (snd r) = 201 \/ status (snd r) = 400
               \/ status (snd r) = 401)).
Proof.
  intros env db. split.
  - intros userId data. cbv zeta. unfold post_sales.
    destruct (sales_schema data); cbn [negb fst snd]; [|cbn; auto].
    destruct (isUserAuthorizedForBusiness _ _ _); cbn [negb fst snd];
      [|cbn; auto].
    destruct (verify_items _ _ _) as [r|] eqn:Everify.
    + apply verify_items_reason in Everify. cbn [fst snd].
      split; [now left|]. destruct Everify; cbn; auto.
    + destruct (createSale _ _ _ _) as [db' [[sale invoice]|e]];
        cbn [fst snd]; cbn; auto.
  - intros data. cbv zeta. unfold post_game_sales.
    destruct (game_schema data); cbn [negb fst snd]; [|cbn; auto].
    destruct (getBusinessByApiKey _ _) as [business|]; [|cbn; auto].
    destruct (resolve_items _ _ _ _ _) as [r|[items totalAmount]] eqn:Eitems.
    + apply resolve_items_reason in Eitems. cbn [fst snd].
      split; [now left|]. destruct Eitems; cbn; auto.
    + destruct (createSale _ _ _ _) as [db' [[sale invoice]|e]];
        cbn [fst snd]; cbn; auto.
Qed.

(** ** Referential integrity *)

(** [createSale_keeps_references] at the sale that throws on its invoice:
    the rows it leaves behind still reference an existing sale. *)
Lemma createSale_keeps_references_witness :
  let db' := fst (createSale (ex_env 1733300000000 "b")
                    (InsertSale.mk "b1" "alice" "Franklin" None (text 10000)
                       (Some SaleCompleted) (Some SourceGame))
                    [InsertSaleItem.mk "p1" "Wrench" 1 (text 10000) (text 10000)]
                    ex_db_sold) in
  invoices_reference_sales db' /\ saleItems_reference_sales db'.
Proof.
  apply (createSale_keeps_references (ex_env 1733300000000 "b")
           (InsertSale.mk "b1" "alice" "Franklin" None (text 10000)
              (Some SaleCompleted) (Some SourceGame))
           [InsertSaleItem.mk "p1" "Wrench" 1 (text 10000) (text 10000)] ex_db_sold).
  - intros i Hi. vm_compute in Hi. destruct Hi as [<-|[]]. vm_compute. now left.
  - intros row Hrow. vm_compute in Hrow. destruct Hrow as [<-|[]].
    vm_compute. now left.
Defined.

(** ** What an invoice update may change *)

Lemma Forall2_map_rel {A} (R : A -> A -> Prop) (f : A -> A) (l : list A) :
  (forall a, R a (f a)) -> Forall2 R l (map f l).
Proof. intros H. induction l; cbn; constructor; auto. Qed.

(** X8.  [PATCH /api/invoices/:id] touches the [invoices] table only:
    users, businesses, employees, products (no restocking on "cancelled"),
    sales and sale items are as before.  In [invoices] the rows stay in
    place with their id, sale, number and issue date; rows of other invoices
    are unchanged; and [paidAt] changes only when the body sets the status
    to "paid", so a paid invoice that is cancelled keeps its paid time. *)
Theorem patch_invoices_changes_invoice_columns_only :
  forall env userId invoiceId body db,
    let db' := fst (patch_invoices env userId invoiceId body db) in
    users db' = users db
    /\ businesses db' = businesses db
    /\ businessEmployees db' = businessEmployees db
    /\ products db' = products db
    /\ sales db' = sales db
    /\ saleItems db' = saleItems db
    /\ Forall2 (invoice_patched invoiceId body) (invoices db) (invoices db').
Proof.
  intros env userId invoiceId body db. cbv zeta.
  assert (Hsame : Forall2 (invoice_patched invoiceId body) (invoices db)
                          (invoices db)).
  { rewrite <- (map_id (invoices db)) at 2. apply Forall2_map_rel.
    intros i. unfold invoice_patched. repeat split; auto. }
  unfold patch_invoices.
  destruct (getInvoice db invoiceId) as [[existing sale]|];
    [|cbn; repeat split; auto].
  match goal with |- context [if ?c then _ else _] => destruct c end;
    [cbn; repeat split; auto|].
  destruct (InvoiceBody.dueDate body) as [due|] eqn:Edue;
    [cbn; repeat split; auto|].
  match goal with
  | |- context [updateInvoice env invoiceId ?d db] => set (data := d)
  end.
  assert (Hfst : fst (let (db', o) := updateInvoice env invoiceId data db in
                      match o with
                      | Returned invoice =>
                          (db', mkResponse 200 (InvoiceJson invoice))
                      | Thrown _ => (db', json 400 "Failed to update invoice")
                      end)
                 = fst (updateInvoice env invoiceId data db))
    by now destruct (updateInvoice env invoiceId data db) as [db' [invoice|e]].
  rewrite Hfst, updateInvoice_frame, updateInvoice_invoices.
  cbn [users businesses businessEmployees products sales saleItems invoices
       set_invoices].
  repeat split; try reflexivity.
  apply Forall2_map_rel. intros i.
  destruct (String.eqb (Invoice.id i) invoiceId) eqn:E.
  - unfold invoice_patched, stamps_paidAt, set_invoice. subst data.
    destruct (InvoiceBody.status body) as [[]|]; cbn; repeat split; auto;
      try (intros H; apply String.eqb_eq in E; contradiction);
      try discriminate; try congruence.
  - unfold invoice_patched. repeat split; auto.
Qed.

Example cancelling_keeps_paidAt :
  let paid := fst (patch_invoices (ex_env 1733300060000 "b") "alice" "a2"
                     ex_pay ex_db_sold) in
  let cancelled := fst (patch_invoices (ex_env 1733300120000 "c") "alice" "a2"
                          (InvoiceBody.mk (Some InvoiceCancelled) None) paid) in
  map Invoice.status (invoices cancelled) = [Some InvoiceCancelled]
  /\ map Invoice.paidAt (invoices cancelled) = [Some 1733300060000]
  /\ map Product.stock (products cancelled) = [Some 1; Some 10].
Proof. vm_compute. repeat split; reflexivity. Qed.

(** The route cannot set a due date, and refuses a body that sets
    nothing: the [dueDate] string of the body makes the query builder
    throw, and so does an update without any value. *)
Example patch_invoices_refuses_dueDate_and_empty_body :
  patch_invoices (ex_env 1733300060000 "b") "alice" "a2"
    (InvoiceBody.mk (Some InvoicePaid) (Some "2024-12-31")) ex_db_sold
  = (ex_db_sold, json 400 "Failed to update invoice")
  /\ patch_invoices (ex_env 1733300060000 "b") "alice" "a2"
       (InvoiceBody.mk None None) ex_db_sold
     = (ex_db_sold, json 400 "Failed to update invoice").
Proof. vm_compute. split; reflexivity. Qed.

(** X9.  In a database whose invoices reference existing sales, a user who
    is not authorized for the business of an invoice's sale cannot update
    the invoice: the answer is 403 and nothing changes. *)
Theorem patch_invoices_forbidden_for_other_business :
  forall env userId invoiceId body db,
    invoices_reference_sales db ->
    (exists i, In i (invoices db) /\ Invoice.id i = invoiceId) ->
    (forall i s,
        In i (invoices db) -> Invoice.id i = invoiceId ->
        In s (sales db) -> Sale.id s = Invoice.saleId i ->
        isUserAuthorizedForBusiness db userId (Sale.businessId s) = false) ->
    patch_invoices env userId invoiceId body db
    = (db, json 403 "Not authorized to update this invoice").
Proof.
  intros env userId invoiceId body db Hrefs (i0 & Hin0 & Hid0) Hunauth.
  unfold patch_invoices, getInvoice.
  destruct (find _ (invoices db)) as [i|] eqn:Ei.
  - apply find_some in Ei. destruct Ei as [Hin Hid].
    apply String.eqb_eq in Hid.
    destruct (find _ (sales db)) as [s|] eqn:Es.
    + apply find_some in Es. destruct Es as [Hs Hsid].
      apply String.eqb_eq in Hsid.
      now rewrite (Hunauth i s Hin Hid Hs Hsid).
    + exfalso. specialize (Hrefs i Hin). apply in_map_iff in Hrefs.
      destruct Hrefs as (s & Hsid & Hs).
      apply (find_none _ _ Es) in Hs. apply String.eqb_neq in Hs. auto.
  - exfalso. apply (find_none _ _ Ei) in Hin0.
    apply String.eqb_neq in Hin0. auto.
Qed.

Lemma patch_invoices_forbidden_for_other_business_witness :
  patch_invoices (ex_env 1733300060000 "b") "carol" "a2" ex_pay ex_db_sold
  = (ex_db_sold, json 403 "Not authorized to update this invoice").
Proof.
  apply (patch_invoices_forbidden_for_other_business
           (ex_env 1733300060000 "b") "carol" "a2" ex_pay ex_db_sold).
  - intros i Hi. vm_compute in Hi. destruct Hi as [<-|[]]. vm_compute. now left.
  - eexists. split; [vm_compute; left; reflexivity|reflexivity].
  - intros i s Hi _ Hs _. vm_compute in Hi, Hs.
    destruct Hi as [<-|[]]. destruct Hs as [<-|[]]. reflexivity.
Defined.

(** Where the sale of an invoice is missing, the handler skips the check
    ([if (existingInvoice.sale)]) and anyone may update the invoice. *)
Example invoice_without_sale_is_open_to_all :
  let db := set_invoices
              [Invoice.mk "i9" "gone" "INV-X" (Some InvoicePending) None None
                          None] ex_db in
  status (snd (patch_invoices (ex_env 1733300060000 "b") "dave" "i9" ex_pay db))
  = 200.
Proof. vm_compute. reflexivity. Qed.

(** ** The businesses of a user *)

Lemma find_first_exists {A} (f : A -> bool) (l : list A) x :
  In x l -> f x = true -> exists y, find f l = Some y.
Proof.
  intros Hin Hf. destruct (find f l) as [y|] eqn:E; [now exists y|].
  apply (find_none _ _ E) in Hin. congruence.
Qed.

Lemma non_null_In {A} (l : list (option A)) a :
  In a (non_null l) <-> In (Some a) l.
Proof.
  induction l as [|[b|] l IH]; cbn; [tauto| |].
  - rewrite IH. split; intros [H|H]; auto; left; congruence.
  - rewrite IH. split; [auto|]. intros [H|H]; [discriminate|exact H].
Qed.

(** The ids after [for (const b of employeeBusinesses) { if (!find) push }]. *)
Lemma merged_ids (l : list BusinessWithRelations.t) :
  forall acc x,
    In x (map business_id
            (fold_left (fun allBusinesses b =>
                          if existsb (fun ob => String.eqb (business_id ob)
                                                           (business_id b))
                                     allBusinesses
                          then allBusinesses
                          else (allBusinesses ++ [b])%list) l acc))
    <-> In x (map business_id acc) \/ In x (map business_id l).
Proof.
  induction l as [|b l IH]; intros acc x; cbn [fold_left map]; [cbn; tauto|].
  rewrite IH. destruct (existsb _ acc) eqn:E.
  - apply existsb_exists in E. destruct E as (ob & Hob & Heq).
    apply String.eqb_eq in Heq. cbn. split; [tauto|].
    intros [H|[<-|H]]; auto. left. rewrite <- Heq. now apply in_map.
  - rewrite map_app, in_app_iff. cbn. tauto.
Qed.

Lemma merged_nodup (l : list BusinessWithRelations.t) :
  forall acc,
    NoDup (map business_id acc) ->
    NoDup (map business_id
             (fold_left (fun allBusinesses b =>
                           if existsb (fun ob => String.eqb (business_id ob)
                                                            (business_id b))
                                      allBusinesses
                           then allBusinesses
                           else (allBusinesses ++ [b])%list) l acc)).
Proof.
  induction l as [|b l IH]; intros acc Hacc; cbn [fold_left]; [exact Hacc|].
  apply IH. destruct (existsb _ acc) eqn:E; [exact Hacc|].
  rewrite map_app. cbn. apply NoDup_app; [exact Hacc|repeat constructor; intros []|].
  intros x Hx [<-|[]]. apply in_map_iff in Hx. destruct Hx as (ob & Heq & Hob).
  assert (Hex : existsb (fun ob => String.eqb (business_id ob) (business_id b))
                        acc = true).
  { apply existsb_exists. exists ob. split; [exact Hob|].
    rewrite Heq. apply String.eqb_refl. }
  congruence.
Qed.

Lemma filter_keeps_nodup {A} (key : A -> string) (f : A -> bool) (l : list A) :
  NoDup (map key l) -> NoDup (map key (filter f l)).
Proof.
  induction l as [|a l IH]; cbn; intros H; [constructor|].
  apply NoDup_cons_iff in H. destruct H as [Hnot Hrest].
  destruct (f a); cbn; [|now apply IH].
  constructor; [|now apply IH].
  intros Hin. apply Hnot. apply in_map_iff in Hin.
  destruct Hin as (x & Hx & Hfx). apply filter_In in Hfx.
  rewrite <- Hx. apply in_map. tauto.
Qed.

(** The ids [getBusinesses] lists are those of the businesses the user
    owns and of the existing businesses the user has an employee row for. *)
Lemma getBusinesses_ids db userId businessId :
  employees_reference_businesses db ->
  (In businessId (map business_id (getBusinesses db userId))
   <-> isUserAuthorizedForBusiness db userId businessId = true).
Proof.
  intros Hrefs. rewrite authorized_spec. unfold getBusinesses.
  rewrite merged_ids. unfold owns, works_at.
  assert (Howned :
            In businessId
               (map business_id
                  (map (with_relations db)
                     (filter (fun b => String.eqb (Business.ownerId b) userId)
                             (businesses db))))
            <-> exists b, In b (businesses db) /\ Business.id b = businessId
                          /\ Business.ownerId b = userId).
  { rewrite map_map. cbn. rewrite in_map_iff. split.
    - intros (b & Hid & Hb). apply filter_In in Hb. destruct Hb as [Hb Ho].
      apply String.eqb_eq in Ho. eauto.
    - intros (b & Hb & Hid & Ho). exists b. split; [exact Hid|].
      apply filter_In. split; [exact Hb|]. subst. apply String.eqb_refl. }
  assert (Hemployed :
            In businessId
               (map business_id
                  (non_null
                     (map (fun e => getBusiness db
                                      (BusinessEmployee.businessId e))
                          (filter (fun e => String.eqb
                                              (BusinessEmployee.userId e)
                                              userId)
                                  (businessEmployees db)))))
            <-> exists e, In e (businessEmployees db)
                          /\ BusinessEmployee.businessId e = businessId
                          /\ BusinessEmployee.userId e = userId).
  { rewrite in_map_iff. split.
    - intros (bw & Hid & Hbw). apply non_null_In in Hbw.
      apply in_map_iff in Hbw. destruct Hbw as (e & Hget & He).
      apply filter_In in He. destruct He as [He Hu].
      apply String.eqb_eq in Hu. exists e. split; [exact He|].
      split; [|exact Hu].
      unfold getBusiness in Hget.
      destruct (find _ (businesses db)) as [b|] eqn:Ef; [|discriminate].
      apply find_some in Ef. destruct Ef as [_ Ef].
      apply String.eqb_eq in Ef. inversion Hget; subst bw.
      rewrite <- Ef. exact Hid.
    - intros (e & He & Hb & Hu).
      pose proof (Hrefs e He) as Hexists. apply in_map_iff in Hexists.
      destruct Hexists as (b0 & Hb0 & Hin0).
      destruct (find_first_exists
                  (fun b => String.eqb (Business.id b)
                                       (BusinessEmployee.businessId e))
                  (businesses db) b0 Hin0) as (b & Hfind).
      { rewrite Hb0. apply String.eqb_refl. }
      exists (with_relations db b). split.
      + apply find_some in Hfind. destruct Hfind as [_ Hfind].
        apply String.eqb_eq in Hfind. unfold business_id. cbn. congruence.
      + apply non_null_In. apply in_map_iff. exists e. split.
        * unfold getBusiness. now rewrite Hfind.
        * apply filter_In. split; [exact He|]. subst. apply String.eqb_refl. }
  rewrite Howned, Hemployed. reflexivity.
Qed.

(** X10.  In a database where business ids are unique and employee rows
    reference existing businesses, [getBusinesses(userId)] lists each
    business the user is authorized for exactly once and no other: the
    list has no two entries with one id, and an id is in it exactly when
    [isUserAuthorizedForBusiness] answers true for it. *)
Theorem getBusinesses_lists_the_authorized_once :
  forall db userId,
    NoDup (map Business.id (businesses db)) ->
    employees_reference_businesses db ->
    NoDup (map business_id (getBusinesses db userId))
    /\ forall businessId,
        In businessId (map business_id (getBusinesses db userId))
        <-> isUserAuthorizedForBusiness db userId businessId = true.
Proof.
  intros db userId Hkeys Hrefs. split.
  - unfold getBusinesses. apply merged_nodup.
    rewrite map_map. cbn. now apply filter_keeps_nodup.
  - intros businessId. now apply getBusinesses_ids.
Qed.

Lemma getBusinesses_lists_the_authorized_once_witness :
  NoDup (map business_id (getBusinesses ex_db "bob"))
  /\ forall businessId,
      In businessId (map business_id (getBusinesses ex_db "bob"))
      <-> isUserAuthorizedForBusiness ex_db "bob" businessId = true.
Proof.
  apply (getBusinesses_lists_the_authorized_once ex_db "bob").
  - cbn. repeat constructor; cbn; intuition discriminate.
  - intros e [<-|[<-|[]]]; cbn; auto.
Defined.

Example getBusinesses_ex :
  map business_id (getBusinesses ex_db "bob") = ["b1"]
  /\ map business_id (getBusinesses ex_db "carol") = ["b2"]
  /\ getBusinesses ex_db "nobody" = [].
Proof. vm_compute. repeat split; reflexivity. Qed.

(** X11.  [getLowStockProducts(userId, threshold)] (threshold 5 when
    omitted) lists exactly the products with a non-NULL stock at or under
    the threshold that belong to a business the user is authorized for; a
    product whose stock is NULL is never listed. *)
Theorem getLowStockProducts_lists_low_stock_of_the_authorized :
  forall db userId threshold p,
    employees_reference_businesses db ->
    (In p (getLowStockProducts db userId threshold)
     <-> In p (products db)
         /\ (exists s, Product.stock p = Some s
                       /\ s <= match threshold with Some t => t | None => 5 end)
         /\ isUserAuthorizedForBusiness db userId (Product.businessId p) = true).
Proof.
  intros db userId threshold p Hrefs.
  rewrite <- (getBusinesses_ids db userId (Product.businessId p) Hrefs).
  unfold getLowStockProducts.
  destruct (map business_id (getBusinesses db userId)) as [|b0 ids] eqn:Eids.
  - cbn. tauto.
  - rewrite !filter_In, has_id_true. split.
    + intros [[Hin Hlow] Hauth]. split; [exact Hin|]. split; [|exact Hauth].
      destruct (Product.stock p) as [s|]; [|discriminate].
      exists s. split; [reflexivity|]. now apply Z.leb_le.
    + intros (Hin & (s & Hs & Hle) & Hauth). split; [|exact Hauth].
      split; [exact Hin|]. rewrite Hs. now apply Z.leb_le.
Qed.

Lemma getLowStockProducts_lists_low_stock_of_the_authorized_witness :
  let wrench := Product.mk "p1" "b1" "Wrench" None 10000 (Some 3) None
                           (Some true) None in
  In wrench (getLowStockProducts ex_db "bob" None)
  <-> In wrench (products ex_db)
      /\ (exists s, Product.stock wrench = Some s /\ s <= 5)
      /\ isUserAuthorizedForBusiness ex_db "bob" (Product.businessId wrench)
         = true.
Proof.
  apply (getLowStockProducts_lists_low_stock_of_the_authorized ex_db "bob" None).
  intros e [<-|[<-|[]]]; cbn; auto.
Defined.

Example getLowStockProducts_ex :
  map Product.id (getLowStockProducts ex_db "bob" None) = ["p1"]
  /\ getLowStockProducts ex_db "carol" None = []
  /\ map Product.id (getLowStockProducts ex_db "carol" (Some 10)) = ["p2"]
  /\ getLowStockProducts ex_db "dave" (Some 2) = [].
Proof. vm_compute. repeat split; reflexivity. Qed.

(** ** Products created and deleted *)

Lemma find_snoc_fresh {A} (f : A -> bool) (l : list A) (x : A) :
  (forall y, In y l -> f y = false) -> f x = true ->
  find f (l ++ [x]) = Some x.
Proof.
  intros Hl Hx. induction l as [|a l IH]; cbn; [now rewrite Hx|].
  rewrite (Hl a (or_introl eq_refl)). apply IH.
  intros y Hy. apply Hl. now right.
Qed.

Lemma has_id_false_eqb {A} (key : A -> string) (l : list A) (id : string) :
  has_id (map key l) id = false ->
  forall y, In y l -> String.eqb (key y) id = false.
Proof.
  intros H y Hy. apply has_id_false in H. apply String.eqb_neq.
  intros Heq. apply H. rewrite <- Heq. now apply in_map.
Qed.



Lemma not_owner_false db userId businessId :
  not_owner db userId businessId = false -> owns db userId businessId.
Proof.
  unfold not_owner, getBusiness.
  destruct (find _ (businesses db)) as [b|] eqn:E; cbn; [|discriminate].
  intros H. apply negb_false_iff, String.eqb_eq in H.
  apply find_some in E. destruct E as [Hin Hid]. apply String.eqb_eq in Hid.
  exists b. auto.
Qed.

Lemma not_owner_of_unauthorized db userId businessId :
  isUserAuthorizedForBusiness db userId businessId = false ->
  not_owner db userId businessId = true.
Proof.
  intros Hun. destruct (not_owner db userId businessId) eqn:E; [reflexivity|].
  apply not_owner_false in E.
  assert (isUserAuthorizedForBusiness db userId businessId = true)
    by (apply authorized_spec; now left).
  congruence.
Qed.

(** X13.  [DELETE /api/products/:id] answers 204 only to the owner of the
    product's business and only for a product no sale item references;
    the product is then gone, the other products are as they were, in order,
    and no other table changes. *)
Theorem delete_products_204_removes_the_owners_unsold_product :
  forall userId productId db db',
    delete_products userId productId db = (db', mkReply 204 NoContent) ->
    (exists p, getProduct db productId = Some p
               /\ owns db userId (Product.businessId p))
    /\ (forall row, In row (saleItems db) ->
                    SaleItem.productId row <> productId)
    /\ getProduct db' productId = None
    /\ products db'
       = filter (fun p => negb (String.eqb (Product.id p) productId))
                (products db)
    /\ db' = set_products (products db') db.
Proof.
  intros userId productId db db'. unfold delete_products.
  destruct (getProduct db productId) as [p|] eqn:Ep; [|intros H; inversion H].
  destruct (not_owner db userId (Product.businessId p)) eqn:Eowner;
    [intros H; inversion H|].
  unfold deleteProduct.
  assert (Hhit : existsb (fun q => String.eqb (Product.id q) productId)
                         (products db) = true).
  { apply existsb_exists. unfold getProduct in Ep. apply find_some in Ep.
    exists p. exact Ep. }
  rewrite Hhit. cbn [andb].
  destruct (existsb _ (saleItems db)) eqn:Esold; [intros H; inversion H|].
  intros H. inversion H; subst db'. clear H.
  split; [exists p; split; [reflexivity|now apply not_owner_false]|].
  split.
  { intros row Hrow Heq.
    assert (existsb (fun row => String.eqb (SaleItem.productId row) productId)
                    (saleItems db) = true).
    { apply existsb_exists. exists row. split; [exact Hrow|].
      rewrite Heq. apply String.eqb_refl. }
    congruence. }
  split.
  { unfold getProduct. cbn [products set_products].
    apply find_all_false. intros q Hq. apply filter_In in Hq.
    destruct Hq as [_ Hq]. now apply negb_true_iff in Hq. }
  split; reflexivity.
Qed.

Lemma delete_products_204_removes_the_owners_unsold_product_witness :
  (exists p, getProduct ex_db "p1" = Some p
             /\ owns ex_db "alice" (Product.businessId p))
  /\ (forall row, In row (saleItems ex_db) -> SaleItem.productId row <> "p1")
  /\ getProduct (fst (delete_products "alice" "p1" ex_db)) "p1" = None
  /\ products (fst (delete_products "alice" "p1" ex_db))
     = filter (fun p => negb (String.eqb (Product.id p) "p1")) (products ex_db)
  /\ fst (delete_products "alice" "p1" ex_db)
     = set_products (products (fst (delete_products "alice" "p1" ex_db))) ex_db.
Proof.
  apply (delete_products_204_removes_the_owners_unsold_product
           "alice" "p1" ex_db (fst (delete_products "alice" "p1" ex_db))).
  vm_compute. reflexivity.
Defined.

Example employee_cannot_delete_product :
  delete_products "bob" "p1" ex_db
  = (ex_db, refuse 403 "Only the owner can delete products").
Proof. vm_compute. reflexivity. Qed.

Lemma delete_products_refuses_sold db userId productId :
  (exists row, In row (saleItems db) /\ SaleItem.productId row = productId) ->
  fst (delete_products userId productId db) = db
  /\ code (snd (delete_products userId productId db)) <> 204.
Proof.
  intros (row & Hrow & Hid). unfold delete_products.
  destruct (getProduct db productId) as [p|] eqn:Ep;
    [|split; [reflexivity|cbn; discriminate]].
  destruct (not_owner db userId (Product.businessId p));
    [split; [reflexivity|cbn; discriminate]|].
  unfold deleteProduct.
  assert (Hhit : existsb (fun q => String.eqb (Product.id q) productId)
                         (products db) = true).
  { apply existsb_exists. unfold getProduct in Ep. apply find_some in Ep.
    exists p. exact Ep. }
  assert (Hsold : existsb (fun r => String.eqb (SaleItem.productId r) productId)
                          (saleItems db) = true).
  { apply existsb_exists. exists row. split; [exact Hrow|].
    rewrite Hid. apply String.eqb_refl. }
  rewrite Hhit, Hsold. split; [reflexivity|cbn; discriminate].
Qed.

Lemma Forall2_In_l {A B} (R : A -> B -> Prop) la lb a :
  Forall2 R la lb -> In a la -> exists b, In b lb /\ R a b.
Proof.
  induction 1 as [|a0 b0 la lb Hab _ IH]; intros Hin; [destruct Hin|].
  destruct Hin as [<-|Hin].
  - exists b0. split; [now left|exact Hab].
  - destruct (IH Hin) as (b & Hb & HR). exists b. split; [now right|exact HR].
Qed.

(** X14.  A product that was sold cannot be deleted: while a sale item
    references it, [DELETE /api/products/:id] changes nothing and does not
    answer 204, whoever asks; in particular after a 201 of either sale
    handler this holds for every product the request has a line for. *)
Theorem sold_product_cannot_be_deleted :
  (forall db userId productId,
      (exists row, In row (saleItems db)
                   /\ SaleItem.productId row = productId) ->
      fst (delete_products userId productId db) = db
      /\ code (snd (delete_products userId productId db)) <> 204)
  /\ (forall env seller data db db' body item userId,
         post_sales env seller data db = (db', mkResponse 201 body) ->
         In item (SalesBody.items data) ->
         fst (delete_products userId (InsertSaleItem.productId item) db') = db'
         /\ code (snd (delete_products userId (InsertSaleItem.productId item)
                         db')) <> 204)
  /\ (forall env data db db' body line userId,
         post_game_sales env data db = (db', mkResponse 201 body) ->
         In line (GameSalesBody.items data) ->
         fst (delete_products userId (GameItem.productId line) db') = db'
         /\ code (snd (delete_products userId (GameItem.productId line) db'))
            <> 204).
Proof.
  split; [intros; now apply delete_products_refuses_sold|]. split.
  - intros env seller data db db' body item userId H201 Hin.
    apply delete_products_refuses_sold.
    apply post_sales_created in H201. cbv zeta in H201.
    destruct H201 as (_ & -> & _).
    match goal with
    | |- context [sale_persisted env ?sd ?its db] =>
        destruct (sale_persisted_tables env sd its db)
          as (_ & _ & _ & _ & _ & Hrows & _)
    end.
    destruct (item_rows_In_item env (gen_random_uuid env 0)
                (SalesBody.items data) 1%nat item Hin)
      as (row & Hrow & _ & Hid & _).
    exists row. split; [|exact Hid].
    rewrite Hrows. apply in_or_app. now right.
  - intros env data db db' body line userId H201 Hin.
    apply delete_products_refuses_sold.
    apply post_game_sales_created in H201.
    destruct H201 as (business & items & totalAmount & _ & Hitems & H).
    cbv zeta in H. destruct H as (_ & -> & _).
    apply resolve_items_inr in Hitems.
    destruct Hitems as (new & -> & Hall & _). cbn [app].
    match goal with
    | |- context [sale_persisted env ?sd ?its db] =>
        destruct (sale_persisted_tables env sd its db)
          as (_ & _ & _ & _ & _ & Hrows & _)
    end.
    destruct (Forall2_In_l _ _ _ _ Hall Hin)
      as (item & Hitem & p & Hp & _ & _ & ->).
    destruct (item_rows_In_item env (gen_random_uuid env 0) new 1%nat _ Hitem)
      as (row & Hrow & _ & Hid & _).
    exists row. split.
    + rewrite Hrows. apply in_or_app. now right.
    + rewrite Hid. cbn. now apply getProduct_id with (db := db).
Qed.

Lemma sold_product_cannot_be_deleted_witness :
  fst (delete_products "alice" "p1" ex_db_sold) = ex_db_sold
  /\ code (snd (delete_products "alice" "p1" ex_db_sold)) <> 204.
Proof.
  apply (proj2 (proj2 sold_product_cannot_be_deleted)
           (ex_env 1733300000000 "a") (ex_game_body None) ex_db ex_db_sold
           (GameSaleJson "a0" "INV-M49M2FI8" 20000) (GameItem.mk "p1" 2)
           "alice").
  - vm_compute. reflexivity.
  - cbn. now left.
Defined.

Example sold_product_delete_answers_500 :
  snd (delete_products "alice" "p1" ex_db_sold)
  = refuse 500 "Failed to delete product".
Proof. vm_compute. reflexivity. Qed.

(** ** Employees added and removed *)

(** X15.  [POST /api/employees] answers 201 only to the owner of the
    business and only for the e-mail address of a known user; the new row
    joins that user to the business with the role asked for ("employee" when
    omitted), the user is authorized for the business from then on, and
    nobody who was authorized for a business before has lost that. *)
Theorem added_employee_is_authorized :
  forall is_email env userId data db db' e,
    post_employees is_email env userId data db
    = (db', mkReply 201 (EmployeeRow e)) ->
    owns db userId (EmployeeBody.businessId data)
    /\ (exists user, In user (users db)
                     /\ User.email user = Some (EmployeeBody.email data)
                     /\ User.id user = BusinessEmployee.userId e)
    /\ BusinessEmployee.businessId e = EmployeeBody.businessId data
    /\ BusinessEmployee.role e
       = Some (or_else (EmployeeBody.role data) RoleEmployee)
    /\ businessEmployees db' = (businessEmployees db ++ [e])%list
    /\ isUserAuthorizedForBusiness db' (BusinessEmployee.userId e)
                                   (EmployeeBody.businessId data) = true
    /\ forall u b, isUserAuthorizedForBusiness db u b = true ->
                   isUserAuthorizedForBusiness db' u b = true.
Proof.
  intros is_email env userId data db db' e. unfold post_employees.
  destruct (is_email (EmployeeBody.email data)); cbn [negb];
    [|intros H; inversion H].
  destruct (not_owner db userId (EmployeeBody.businessId data)) eqn:Eowner;
    [intros H; inversion H|].
  destruct (getUserByEmail db (EmployeeBody.email data)) as [user|] eqn:Euser;
    [|intros H; inversion H].
  unfold addEmployee.
  cbn [InsertBusinessEmployee.businessId InsertBusinessEmployee.userId
       InsertBusinessEmployee.role default].
  destruct (has_id (map BusinessEmployee.id (businessEmployees db)) _);
    [intros H; inversion H|].
  destruct (negb (has_id (map Business.id (businesses db)) _));
    [intros H; inversion H|].
  destruct (negb (has_id (map User.id (users db)) _));
    [intros H; inversion H|].
  intros H. inversion H; subst. clear H.
  cbn [BusinessEmployee.businessId BusinessEmployee.userId
       BusinessEmployee.role businessEmployees set_businessEmployees].
  split; [now apply not_owner_false|].
  split.
  { unfold getUserByEmail in Euser. apply find_some in Euser.
    destruct Euser as [Hin Hmail]. exists user. split; [exact Hin|].
    split; [|reflexivity].
    destruct (User.email user) as [m|]; [|discriminate].
    apply String.eqb_eq in Hmail. now subst. }
  repeat split.
  - apply authorized_spec. right. eexists. split.
    + cbn [businessEmployees set_businessEmployees]. apply in_or_app.
      right. left. reflexivity.
    + split; reflexivity.
  - intros u b Hauth. apply authorized_spec in Hauth. apply authorized_spec.
    destruct Hauth as [Ho|(e0 & He0 & Hb0 & Hu0)]; [now left|].
    right. exists e0. split; [|auto].
    cbn [businessEmployees set_businessEmployees]. apply in_or_app. now left.
Qed.

Lemma added_employee_is_authorized_witness :
  let db' := fst (post_employees (fun _ => true) (ex_env 1733300000000 "m")
                    "alice" ex_employee_body ex_db_mail) in
  isUserAuthorizedForBusiness ex_db_mail "erin" "b1" = false
  /\ isUserAuthorizedForBusiness db' "erin" "b1" = true.
Proof.
  cbv zeta. split; [reflexivity|].
  destruct (added_employee_is_authorized (fun _ => true)
              (ex_env 1733300000000 "m") "alice" ex_employee_body ex_db_mail
              (fst (post_employees (fun _ => true) (ex_env 1733300000000 "m")
                      "alice" ex_employee_body ex_db_mail))
              (BusinessEmployee.mk "m0" "b1" "erin" (Some RoleEmployee)))
    as (_ & _ & _ & _ & _ & Hauth & _).
  - vm_compute. reflexivity.
  - exact Hauth.
Defined.

(** X16.  [DELETE /api/employees/:id] answers 204 only to the owner of the
    business of that employee row, and removes that row and nothing else:
    afterwards a user is authorized for a business exactly when the user
    owns it or another employee row joins them, so a user entered twice
    keeps access until both rows are removed. *)
Theorem removed_employee_row_revokes_only_itself :
  forall userId employeeId db db',
    delete_employees userId employeeId db = (db', mkReply 204 NoContent) ->
    (exists e, In e (businessEmployees db)
               /\ BusinessEmployee.id e = employeeId
               /\ owns db userId (BusinessEmployee.businessId e))
    /\ db' = set_businessEmployees
               (filter (fun e => negb (String.eqb (BusinessEmployee.id e)
                                                  employeeId))
                       (businessEmployees db)) db
    /\ forall u b,
        isUserAuthorizedForBusiness db' u b = true
        <-> owns db u b
            \/ exists e, In e (businessEmployees db)
                         /\ BusinessEmployee.id e <> employeeId
                         /\ BusinessEmployee.businessId e = b
                         /\ BusinessEmployee.userId e = u.
Proof.
  intros userId employeeId db db'. unfold delete_employees, getEmployeeById.
  destruct (find _ (businessEmployees db)) as [e|] eqn:Ee; cbn [option_map];
    [|intros H; inversion H].
  destruct (not_owner db userId (BusinessEmployee.businessId e)) eqn:Eowner;
    [intros H; inversion H|].
  unfold removeEmployee. intros H. inversion H; subst db'. clear H.
  apply find_some in Ee. destruct Ee as [Hin Hid]. apply String.eqb_eq in Hid.
  split; [exists e; repeat split; auto; now apply not_owner_false|].
  split; [reflexivity|].
  intros u b. rewrite authorized_spec. unfold owns, works_at.
  cbn [businesses businessEmployees set_businessEmployees].
  split.
  - intros [Ho|(e' & He' & Hb & Hu)]; [now left|].
    right. apply filter_In in He'. destruct He' as [He' Hne].
    apply negb_true_iff, String.eqb_neq in Hne. exists e'. auto.
  - intros [Ho|(e' & He' & Hne & Hb & Hu)]; [now left|].
    right. exists e'. split; [|auto]. apply filter_In. split; [exact He'|].
    now apply negb_true_iff, String.eqb_neq.
Qed.

Lemma removed_employee_row_revokes_only_itself_witness :
  isUserAuthorizedForBusiness ex_db "bob" "b1" = true
  /\ isUserAuthorizedForBusiness (fst (delete_employees "alice" "e1" ex_db))
                                 "bob" "b1" = false
  /\ (isUserAuthorizedForBusiness (fst (delete_employees "alice" "e1" ex_db))
                                  "dave" "b2" = true
      <-> owns ex_db "dave" "b2"
          \/ exists e, In e (businessEmployees ex_db)
                       /\ BusinessEmployee.id e <> "e1"
                       /\ BusinessEmployee.businessId e = "b2"
                       /\ BusinessEmployee.userId e = "dave").
Proof.
  split; [reflexivity|]. split; [reflexivity|].
  destruct (removed_employee_row_revokes_only_itself "alice" "e1" ex_db
              (fst (delete_employees "alice" "e1" ex_db)))
    as (_ & _ & Hauth).
  - vm_compute. reflexivity.
  - apply Hauth.
Defined.

(** No constraint keeps a user from being entered twice: Erin is added
    twice, one row is removed, and she is still authorized. *)
Example employee_entered_twice :
  let db1 := fst (post_employees (fun _ => true) (ex_env 1733300000000 "m")
                    "alice" ex_employee_body ex_db_mail) in
  let db2 := fst (post_employees (fun _ => true) (ex_env 1733300000001 "n")
                    "alice" ex_employee_body db1) in
  let db3 := fst (delete_employees "alice" "m0" db2) in
  map BusinessEmployee.userId (businessEmployees db2)
  = ["bob"; "dave"; "erin"; "erin"]
  /\ map BusinessEmployee.id (businessEmployees db3) = ["e1"; "e2"; "n0"]
  /\ isUserAuthorizedForBusiness db3 "erin" "b1" = true.
Proof. vm_compute. repeat split; reflexivity. Qed.

(** ** Businesses created, handed over and deleted *)

(** X17.  A business created through [POST /api/businesses] belongs to its
    creator and is reachable by its key: after a 201 the new business is the
    last row, named as asked, owned by the caller, who is authorized for it
    and gets it from [GET /api/businesses/:id]; its API key is [rp_]
    followed by the generated UUID without dashes, no other business has
    that key, and [getBusinessByApiKey] finds the new business by it. *)
Theorem created_business_belongs_to_its_creator :
  forall env userId data db db' b,
    post_businesses env userId data db = (db', mkReply 201 (BusinessRow b)) ->
    businesses db' = (businesses db ++ [b])%list
    /\ Business.name b = BusinessBody.name data
    /\ Business.ownerId b = userId
    /\ isUserAuthorizedForBusiness db' userId (Business.id b) = true
    /\ get_business userId (Business.id b) db'
       = mkReply 200 (BusinessDetails (with_relations db' b))
    /\ Business.apiKey b
       = Some ("rp_" ++ remove_dashes (gen_random_uuid env 1))%string
    /\ (forall b0, In b0 (businesses db) ->
                   Business.apiKey b0 <> Business.apiKey b)
    /\ getBusinessByApiKey db'
         ("rp_" ++ remove_dashes (gen_random_uuid env 1))%string
       = Some b.
Proof.
  intros env userId data db db' b. unfold post_businesses.
  destruct (2 <=? String.length (BusinessBody.name data))%nat; cbn [negb];
    [|intros H; inversion H].
  unfold createBusiness.
  cbn [InsertBusiness.name InsertBusiness.ownerId].
  destruct (negb (varchar 255 _)); [intros H; inversion H|].
  destruct (has_id (map Business.id (businesses db)) _) eqn:Efresh;
    [intros H; inversion H|].
  destruct (negb (has_id (map User.id (users db)) userId));
    [intros H; inversion H|].
  destruct (existsb _ (businesses db)) eqn:Ekey; [intros H; inversion H|].
  intros H. inversion H; subst. clear H.
  match goal with
  | |- context [set_businesses (businesses db ++ [?x]) db] => set (b := x)
  end.
  set (db' := set_businesses (businesses db ++ [b]) db).
  assert (Hauth : isUserAuthorizedForBusiness db' userId
                    (gen_random_uuid env 0) = true).
  { apply authorized_spec. left. exists b. split; [|split; reflexivity].
    subst db'. cbn [businesses set_businesses]. apply in_or_app.
    right. now left. }
  assert (Hold : forall b0, In b0 (businesses db) ->
                            Business.apiKey b0 <> Business.apiKey b).
  { intros b0 Hb0 Heq.
    assert (Hex : existsb (fun b1 => match Business.apiKey b1 with
                                     | Some k =>
                                         String.eqb k
                                           ("rp_" ++ remove_dashes
                                                       (gen_random_uuid env 1))
                                     | None => false
                                     end) (businesses db) = true).
    { apply existsb_exists. exists b0. split; [exact Hb0|].
      rewrite Heq. cbn. apply String.eqb_refl. }
    congruence. }
  repeat split; auto.
  - unfold get_business. change (Business.id b) with (gen_random_uuid env 0).
    rewrite Hauth. cbn [negb].
    unfold getBusiness. subst db'. cbn [businesses set_businesses].
    rewrite find_snoc_fresh; [reflexivity| |apply String.eqb_refl].
    now apply has_id_false_eqb.
  - unfold getBusinessByApiKey. subst db'. cbn [businesses set_businesses].
    apply find_snoc_fresh.
    + intros b0 Hb0. specialize (Hold b0 Hb0).
      destruct (Business.apiKey b0) as [k|]; [|reflexivity].
      apply String.eqb_neq. intros ->. now apply Hold.
    + cbn. apply String.eqb_refl.
Qed.

Lemma created_business_belongs_to_its_creator_witness :
  let db' := fst (post_businesses (ex_env 1733300000000 "4f-9a-") "alice"
                    ex_business_body ex_db) in
  map Business.apiKey (businesses db')
  = [Some "rp_garage"; Some "rp_diner"; Some "rp_4f9a1"]
  /\ isUserAuthorizedForBusiness db' "alice" "4f-9a-0" = true
  /\ option_map Business.id (getBusinessByApiKey db' "rp_4f9a1")
     = Some "4f-9a-0".
Proof.
  cbv zeta.
  destruct (created_business_belongs_to_its_creator
              (ex_env 1733300000000 "4f-9a-") "alice" ex_business_body ex_db
              (fst (post_businesses (ex_env 1733300000000 "4f-9a-") "alice"
                      ex_business_body ex_db))
              (Business.mk "4f-9a-0" "Tuner shop" "alice" (Some "rp_4f9a1")))
    as (_ & _ & _ & Hauth & _ & _ & _ & Hkey).
  - vm_compute. reflexivity.
  - split; [vm_compute; reflexivity|]. split; [exact Hauth|].
    change ("rp_" ++ remove_dashes
                       (gen_random_uuid (ex_env 1733300000000 "4f-9a-") 1))
             %string with "rp_4f9a1" in Hkey.
    now rewrite Hkey.
Defined.

(** X18.  Unlike a product's business, a business's owner can be changed
    by its owner: a [PATCH /api/businesses/:id] whose body carries an
    [ownerId] and is answered 200 makes that user, who must exist, the owner
    of the business, and the former owner is authorized from then on only
    through an employee row.  A body of the declared type
    [Partial<InsertBusiness>] has no [id] or [apiKey], and ids and API keys
    stay as they are. *)
Theorem patch_businesses_hands_business_over :
  forall userId businessId body db db' b newOwner,
    BusinessPatch.ownerId body = Some newOwner ->
    patch_businesses userId businessId body db
    = (db', mkReply 200 (BusinessRow b)) ->
    owns db userId businessId
    /\ In newOwner (map User.id (users db))
    /\ Business.id b = businessId
    /\ Business.ownerId b = newOwner
    /\ (forall b', In b' (businesses db') -> Business.id b' = businessId ->
                   Business.ownerId b' = newOwner)
    /\ map Business.id (businesses db') = map Business.id (businesses db)
    /\ map Business.apiKey (businesses db')
       = map Business.apiKey (businesses db)
    /\ isUserAuthorizedForBusiness db' newOwner businessId = true
    /\ (newOwner <> userId ->
        (isUserAuthorizedForBusiness db' userId businessId = true
         <-> works_at db userId businessId)).
Proof.
  intros userId businessId body db db' b newOwner Hnew.
  unfold patch_businesses.
  destruct (not_owner db userId businessId) eqn:Eowner;
    [intros H; inversion H|].
  apply not_owner_false in Eowner. unfold updateBusiness. rewrite Hnew.
  assert (Hhit : existsb (fun b0 => String.eqb (Business.id b0) businessId)
                         (businesses db) = true).
  { destruct Eowner as (b0 & Hb0 & Hid & _). apply existsb_exists.
    exists b0. split; [exact Hb0|]. rewrite Hid. apply String.eqb_refl. }
  rewrite Hhit. cbn [andb].
  destruct (has_id (map User.id (users db)) newOwner) eqn:Euser; cbn [negb];
    [|intros H; inversion H].
  rewrite find_map_hit by reflexivity.
  destruct (find _ (businesses db)) as [b0|] eqn:Efind; cbn [option_map];
    [|intros H; inversion H].
  intros H. inversion H; subst db' b. clear H.
  apply find_some in Efind. destruct Efind as [Hb0 Hid0].
  apply String.eqb_eq in Hid0.
  assert (Hrows : forall b',
             In b' (map (fun b1 => if String.eqb (Business.id b1) businessId
                                   then set_business body b1 else b1)
                        (businesses db)) ->
             Business.id b' = businessId -> Business.ownerId b' = newOwner).
  { intros b' Hb' Hid'. apply in_map_iff in Hb'.
    destruct Hb' as (b1 & <- & Hb1).
    destruct (String.eqb (Business.id b1) businessId) eqn:E.
    - cbn. now rewrite Hnew.
    - apply String.eqb_neq in E. contradiction. }
  split; [exact Eowner|]. split; [now apply has_id_true|].
  split; [exact Hid0|]. split; [cbn; now rewrite Hnew|].
  cbn [businesses set_businesses]. split; [exact Hrows|].
  split; [|split].
  { rewrite map_map. apply map_ext. intros b1.
    now destruct (String.eqb (Business.id b1) businessId). }
  { rewrite map_map. apply map_ext. intros b1.
    now destruct (String.eqb (Business.id b1) businessId). }
  split.
  - apply authorized_spec. left. exists (set_business body b0).
    cbn [businesses set_businesses]. split; [|split].
    + apply in_map_iff. exists b0. split; [|exact Hb0].
      rewrite <- Hid0 at 1. now rewrite String.eqb_refl.
    + exact Hid0.
    + cbn. now rewrite Hnew.
  - intros Hdiff. rewrite authorized_spec. unfold owns, works_at.
    cbn [businesses businessEmployees set_businesses]. split.
    + intros [(b' & Hb' & Hid' & Ho')|Hw]; [|exact Hw].
      exfalso. apply Hdiff. rewrite <- Ho'. symmetry. now apply Hrows.
    + intros Hw. now right.
Qed.

Lemma patch_businesses_hands_business_over_witness :
  let db' := fst (patch_businesses "alice" "b1" ex_handover ex_db) in
  owns ex_db "alice" "b1"
  /\ map Business.ownerId (businesses db') = ["bob"; "carol"]
  /\ isUserAuthorizedForBusiness db' "bob" "b1" = true
  /\ isUserAuthorizedForBusiness db' "alice" "b1" = false.
Proof.
  cbv zeta.
  destruct (patch_businesses_hands_business_over "alice" "b1" ex_handover
              ex_db (fst (patch_businesses "alice" "b1" ex_handover ex_db))
              (Business.mk "b1" "Garage" "bob" (Some "rp_garage")) "bob"
              eq_refl)
    as (Howns & _ & _ & _ & _ & _ & _ & Hbob & _).
  - vm_compute. reflexivity.
  - split; [exact Howns|]. split; [vm_compute; reflexivity|].
    split; [exact Hbob|vm_compute; reflexivity].
Defined.

(** The sales of [businessId], by id. *)
Lemma gone_sales_spec db businessId saleId :
  has_id (map Sale.id (filter (fun s => String.eqb (Sale.businessId s)
                                                   businessId) (sales db)))
         saleId = false
  <-> forall s, In s (sales db) -> Sale.id s = saleId ->
                Sale.businessId s <> businessId.
Proof.
  rewrite has_id_false. split.
  - intros Hnot s Hs Hid Hb. apply Hnot. rewrite <- Hid. apply in_map.
    apply filter_In. split; [exact Hs|]. rewrite Hb. apply String.eqb_refl.
  - intros Hall Hin. apply in_map_iff in Hin. destruct Hin as (s & Hid & Hs).
    apply filter_In in Hs. destruct Hs as [Hs Hb]. apply String.eqb_eq in Hb.
    exact (Hall s Hs Hid Hb).
Qed.

(** X19.  [DELETE /api/businesses/:id] answers 204 only to the owner and
    only for a business none of whose products a sale item references; the
    business is then gone with everything under it: its employee rows,
    products and sales, and the sale items and invoices of those sales; the
    rows of other businesses stay, in order, users stay, and invoices and
    sale items that referenced existing sales still do.  While a sale item
    references one of its products a business cannot be deleted, by its
    owner or by anyone else: nothing changes and the answer is not 204. *)
Theorem deleted_business_takes_its_rows_along :
  (forall userId businessId db db',
      delete_businesses userId businessId db = (db', mkReply 204 NoContent) ->
      owns db userId businessId
      /\ (forall row p,
             In row (saleItems db) -> In p (products db) ->
             SaleItem.productId row = Product.id p ->
             Product.businessId p <> businessId)
      /\ users db' = users db
      /\ businesses db'
         = filter (fun b => negb (String.eqb (Business.id b) businessId))
                  (businesses db)
      /\ businessEmployees db'
         = filter (fun e => negb (String.eqb (BusinessEmployee.businessId e)
                                             businessId))
                  (businessEmployees db)
      /\ products db'
         = filter (fun p => negb (String.eqb (Product.businessId p) businessId))
                  (products db)
      /\ sales db'
         = filter (fun s => negb (String.eqb (Sale.businessId s) businessId))
                  (sales db)
      /\ (forall row,
             In row (saleItems db')
             <-> In row (saleItems db)
                 /\ forall s, In s (sales db) ->
                              Sale.id s = SaleItem.saleId row ->
                              Sale.businessId s <> businessId)
      /\ (forall i,
             In i (invoices db')
             <-> In i (invoices db)
                 /\ forall s, In s (sales db) ->
                              Sale.id s = Invoice.saleId i ->
                              Sale.businessId s <> businessId)
      /\ (invoices_reference_sales db -> invoices_reference_sales db')
      /\ (saleItems_reference_sales db -> saleItems_reference_sales db'))
  /\ (forall userId businessId db row p,
         In row (saleItems db) -> In p (products db) ->
         SaleItem.productId row = Product.id p ->
         Product.businessId p = businessId ->
         fst (delete_businesses userId businessId db) = db
         /\ code (snd (delete_businesses userId businessId db)) <> 204).
Proof.
  assert (Hsold : forall businessId db row p,
             In row (saleItems db) -> In p (products db) ->
             SaleItem.productId row = Product.id p ->
             Product.businessId p = businessId ->
             existsb (fun row =>
                        has_id (map Product.id
                                  (filter (fun p => String.eqb
                                                      (Product.businessId p)
                                                      businessId)
                                          (products db)))
                               (SaleItem.productId row))
                     (saleItems db) = true).
  { intros businessId db row p Hrow Hp Hid Hb. apply existsb_exists.
    exists row. split; [exact Hrow|]. apply has_id_true. rewrite Hid.
    apply in_map. apply filter_In. split; [exact Hp|].
    rewrite Hb. apply String.eqb_refl. }
  split.
  - intros userId businessId db db'. unfold delete_businesses.
    destruct (not_owner db userId businessId) eqn:Eowner;
      [intros H; inversion H|].
    apply not_owner_false in Eowner. unfold deleteBusiness.
    assert (Hhit : existsb (fun b0 => String.eqb (Business.id b0) businessId)
                           (businesses db) = true).
    { destruct Eowner as (b0 & Hb0 & Hid & _). apply existsb_exists.
      exists b0. split; [exact Hb0|]. rewrite Hid. apply String.eqb_refl. }
    rewrite Hhit. cbn [negb].
    destruct (existsb _ (saleItems db)) eqn:Eitems; [intros H; inversion H|].
    intros H. inversion H; subst db'. clear H.
    cbn [users businesses businessEmployees products sales saleItems invoices].
    assert (Hitems : forall row,
               In row (filter (fun row => negb
                                            (has_id
                                               (map Sale.id
                                                  (filter
                                                     (fun s => String.eqb
                                                                 (Sale.businessId s)
                                                                 businessId)
                                                     (sales db)))
                                               (SaleItem.saleId row)))
                              (saleItems db))
               <-> In row (saleItems db)
                   /\ forall s, In s (sales db) ->
                                Sale.id s = SaleItem.saleId row ->
                                Sale.businessId s <> businessId).
    { intros row. rewrite filter_In, negb_true_iff, gone_sales_spec. tauto. }
    assert (Hinvoices : forall i,
               In i (filter (fun i => negb
                                        (has_id
                                           (map Sale.id
                                              (filter
                                                 (fun s => String.eqb
                                                             (Sale.businessId s)
                                                             businessId)
                                                 (sales db)))
                                           (Invoice.saleId i)))
                            (invoices db))
               <-> In i (invoices db)
                   /\ forall s, In s (sales db) ->
                                Sale.id s = Invoice.saleId i ->
                                Sale.businessId s <> businessId).
    { intros i. rewrite filter_In, negb_true_iff, gone_sales_spec. tauto. }
    split; [exact Eowner|].
    split.
    { intros row p Hrow Hp Hid Hb.
      rewrite (Hsold businessId db row p Hrow Hp Hid Hb) in Eitems.
      discriminate. }
    do 5 (split; [reflexivity|]).
    split; [exact Hitems|]. split; [exact Hinvoices|].
    unfold invoices_reference_sales, saleItems_reference_sales.
    cbn [sales saleItems invoices]. split.
    + intros Hrefs i Hi. apply Hinvoices in Hi. destruct Hi as [Hi Hkept].
      specialize (Hrefs i Hi). apply in_map_iff in Hrefs.
      destruct Hrefs as (s & Hid & Hs). apply in_map_iff. exists s.
      split; [exact Hid|]. apply filter_In. split; [exact Hs|].
      apply negb_true_iff, String.eqb_neq. now apply Hkept.
    + intros Hrefs row Hrow. apply Hitems in Hrow. destruct Hrow as [Hrow Hkept].
      specialize (Hrefs row Hrow). apply in_map_iff in Hrefs.
      destruct Hrefs as (s & Hid & Hs). apply in_map_iff. exists s.
      split; [exact Hid|]. apply filter_In. split; [exact Hs|].
      apply negb_true_iff, String.eqb_neq. now apply Hkept.
  - intros userId businessId db row p Hrow Hp Hid Hb.
    unfold delete_businesses.
    destruct (not_owner db userId businessId) eqn:Eowner;
      [split; [reflexivity|cbn; discriminate]|].
    apply not_owner_false in Eowner. unfold deleteBusiness.
    assert (Hhit : existsb (fun b0 => String.eqb (Business.id b0) businessId)
                           (businesses db) = true).
    { destruct Eowner as (b0 & Hb0 & Hid0 & _). apply existsb_exists.
      exists b0. split; [exact Hb0|]. rewrite Hid0. apply String.eqb_refl. }
    rewrite Hhit. cbn [negb].
    rewrite (Hsold businessId db row p Hrow Hp Hid Hb).
    split; [reflexivity|cbn; discriminate].
Qed.

(** Carol closes the diner, which sold nothing from its menu: its row, its
    employee, its product, its sale and that sale's invoice go; the garage
    and its sale stay. *)
Lemma deleted_business_takes_its_rows_along_witness :
  let db' := fst (delete_businesses "carol" "b2" ex_db_served) in
  owns ex_db_served "carol" "b2"
  /\ map Sale.id (sales ex_db_served) = ["a0"; "c0"]
  /\ map Invoice.id (invoices ex_db_served) = ["a2"; "c1"]
  /\ map Business.id (businesses db') = ["b1"]
  /\ map BusinessEmployee.id (businessEmployees db') = ["e1"]
  /\ map Product.id (products db') = ["p1"]
  /\ map Sale.id (sales db') = ["a0"]
  /\ map SaleItem.id (saleItems db') = ["a1"]
  /\ map Invoice.id (invoices db') = ["a2"].
Proof.
  cbv zeta.
  destruct (proj1 deleted_business_takes_its_rows_along "carol" "b2"
              ex_db_served
              (fst (delete_businesses "carol" "b2" ex_db_served)))
    as (Howns & _).
  - vm_compute. reflexivity.
  - split; [exact Howns|]. vm_compute. repeat split; reflexivity.
Defined.

(** The garage sold two wrenches: Alice cannot close it. *)
Example business_with_sold_product_is_not_deleted :
  delete_businesses "alice" "b1" ex_db_sold
  = (ex_db_sold, refuse 500 "Failed to delete business").
Proof. vm_compute. reflexivity. Qed.

(** X20.  In a database whose employee rows reference existing businesses,
    [GET /api/businesses/:id] never answers 404: to an authorized user it
    answers 200 with the business of that id, and to anyone else 403, also
    when no business has the id. *)
Theorem get_business_answers_200_or_403 :
  forall db userId businessId,
    employees_reference_businesses db ->
    (isUserAuthorizedForBusiness db userId businessId = true ->
     exists b, get_business userId businessId db
               = mkReply 200 (BusinessDetails b)
               /\ business_id b = businessId)
    /\ (isUserAuthorizedForBusiness db userId businessId = false ->
        get_business userId businessId db
        = refuse 403 "Not authorized to access this business").
Proof.
  intros db userId businessId Hrefs. unfold get_business. split.
  - intros Hauth. rewrite Hauth. cbn [negb].
    assert (Hexists : In businessId (map Business.id (businesses db))).
    { apply authorized_spec in Hauth.
      destruct Hauth as [(b & Hb & Hid & _)|(e & He & Hid & _)].
      - rewrite <- Hid. now apply in_map.
      - rewrite <- Hid. now apply Hrefs. }
    apply in_map_iff in Hexists. destruct Hexists as (b0 & Hid0 & Hb0).
    destruct (find_first_exists
                (fun b => String.eqb (Business.id b) businessId)
                (businesses db) b0 Hb0) as (b & Hfind).
    { rewrite Hid0. apply String.eqb_refl. }
    unfold getBusiness. rewrite Hfind. cbn [option_map].
    eexists. split; [reflexivity|].
    apply find_some in Hfind. destruct Hfind as [_ Hfind].
    now apply String.eqb_eq in Hfind.
  - intros Hunauth. now rewrite Hunauth.
Qed.

Lemma get_business_answers_200_or_403_witness :
  (isUserAuthorizedForBusiness ex_db "erin" "b7" = true ->
   exists b, get_business "erin" "b7" ex_db = mkReply 200 (BusinessDetails b)
             /\ business_id b = "b7")
  /\ (isUserAuthorizedForBusiness ex_db "erin" "b7" = false ->
      get_business "erin" "b7" ex_db
      = refuse 403 "Not authorized to access this business").
Proof.
  apply (get_business_answers_200_or_403 ex_db "erin" "b7").
  intros e [<-|[<-|[]]]; cbn; auto.
Defined.

(** ** The dashboard *)

Lemma non_null_map_some {A B} (f : A -> B) (l : list (option A)) :
  non_null (map (option_map f) l) = map f (non_null l).
Proof.
  induction l as [|[a|] l IH]; cbn; [reflexivity| |exact IH].
  now rewrite IH.
Qed.

Lemma merged_rows db (l : list Business.t) :
  forall acc,
    map BusinessWithRelations.business
        (fold_left (fun allBusinesses b =>
                      if existsb (fun ob => String.eqb (business_id ob)
                                                       (business_id b))
                                 allBusinesses
                      then allBusinesses
                      else (allBusinesses ++ [b])%list)
                   (map (with_relations db) l) (map (with_relations db) acc))
    = fold_left (fun all b =>
                   if existsb (fun ob => String.eqb (Business.id ob)
                                                    (Business.id b)) all
                   then all else (all ++ [b])%list) l acc.
Proof.
  induction l as [|b l IH]; intros acc; cbn [fold_left map].
  - rewrite map_map. cbn. apply map_id.
  - rewrite <- IH. f_equal. f_equal.
    assert (Hex : existsb (fun ob => String.eqb (business_id ob)
                                       (business_id (with_relations db b)))
                          (map (with_relations db) acc)
                  = existsb (fun ob => String.eqb (Business.id ob)
                                                  (Business.id b)) acc).
    { induction acc as [|a acc IHacc]; cbn; [reflexivity|].
      now rewrite IHacc. }
    rewrite Hex. destruct (existsb _ acc); [reflexivity|].
    rewrite map_app. reflexivity.
Qed.

Lemma getBusinesses_rows db userId :
  map BusinessWithRelations.business (getBusinesses db userId)
  = business_rows (businesses db) (businessEmployees db) userId.
Proof.
  unfold getBusinesses, business_rows, getBusiness.
  rewrite <- (merged_rows db). f_equal. f_equal.
  rewrite <- non_null_map_some. f_equal. now rewrite map_map.
Qed.

Lemma getBusinesses_ids_frame db db' userId :
  businesses db' = businesses db ->
  businessEmployees db' = businessEmployees db ->
  map business_id (getBusinesses db' userId)
  = map business_id (getBusinesses db userId).
Proof.
  intros Hb He.
  change (map business_id (getBusinesses db' userId))
    with (map (fun b => Business.id (BusinessWithRelations.business b))
              (getBusinesses db' userId)).
  change (map business_id (getBusinesses db userId))
    with (map (fun b => Business.id (BusinessWithRelations.business b))
              (getBusinesses db userId)).
  rewrite <- !(map_map BusinessWithRelations.business Business.id).
  now rewrite !getBusinesses_rows, Hb, He.
Qed.

Lemma sum_snoc (l : list Sale.t) (s : Sale.t) (z : Z) :
  fold_left (fun sum x => sum + Sale.totalAmount x) (l ++ [s]) z
  = fold_left (fun sum x => sum + Sale.totalAmount x) l z + Sale.totalAmount s.
Proof. now rewrite fold_left_app. Qed.

(** X21.  A sale made through the game endpoint shows on the dashboard at
    once: for a user whose businesses include the one of the API key, and a
    day that began before the sale, [getDashboardStats] after the 201 counts
    one order more and its revenue of the day is higher by the total of the
    sale; for any other user both are as before; the number of businesses
    is the same for everyone. *)
Theorem game_sale_shows_on_dashboard :
  forall env data db db' saleId invoiceNumber total business today userId,
    post_game_sales env data db
    = (db', mkResponse 201 (GameSaleJson saleId invoiceNumber total)) ->
    getBusinessByApiKey db (GameSalesBody.businessApiKey data)
    = Some business ->
    today <= now env ->
    let before := getDashboardStats db today userId in
    let after := getDashboardStats db' today userId in
    totalBusinesses after = totalBusinesses before
    /\ (In (Business.id business)
           (map business_id (getBusinesses db userId)) ->
        totalOrders after = S (totalOrders before)
        /\ totalSalesToday after = totalSalesToday before + total)
    /\ (~ In (Business.id business)
             (map business_id (getBusinesses db userId)) ->
        totalOrders after = totalOrders before
        /\ totalSalesToday after = totalSalesToday before).
Proof.
  intros env data db db' saleId invoiceNumber total business today userId
         H201 Hkey Htoday.
  apply post_game_sales_created in H201.
  destruct H201 as (business' & items & totalAmount & Hkey' & _ & H).
  rewrite Hkey in Hkey'. inversion Hkey'; subst business'. clear Hkey'.
  cbv zeta in H. destruct H as (_ & -> & Hbody).
  inversion Hbody; subst saleId invoiceNumber total. clear Hbody.
  match goal with
  | |- context [sale_persisted env ?sd items db] => set (saleData := sd)
  end.
  destruct (sale_persisted_tables env saleData items db)
    as (_ & Hb & He & _ & Hsales & _).
  pose proof (getBusinesses_ids_frame db (sale_persisted env saleData items db)
                userId Hb He) as Hids.
  assert (Hlen : List.length (getBusinesses (sale_persisted env saleData items db)
                                userId)
                 = List.length (getBusinesses db userId)).
  { rewrite <- (length_map business_id), Hids. apply length_map. }
  cbv zeta. unfold getDashboardStats. rewrite Hids, Hsales.
  destruct (map business_id (getBusinesses db userId)) as [|b0 ids] eqn:Eids.
  - cbn. split; [reflexivity|]. split; [intros []|auto].
  - cbn [totalBusinesses totalOrders totalSalesToday].
    split; [exact Hlen|].
    rewrite !filter_app. cbn [filter Sale.status Sale.businessId Sale.createdAt
                              sale_row saleData InsertSale.status default
                              InsertSale.businessId].
    split.
    + intros Hin. apply has_id_true in Hin. rewrite Hin.
      cbn [filter Sale.createdAt sale_row].
      apply Z.leb_le in Htoday. rewrite Htoday.
      rewrite length_app, sum_snoc. cbn. split; [lia|reflexivity].
    + intros Hnot. apply has_id_false in Hnot. rewrite Hnot.
      cbn [filter]. rewrite !app_nil_r. split; reflexivity.
Qed.

Lemma game_sale_shows_on_dashboard_witness :
  let before := getDashboardStats ex_db 1733270400000 "bob" in
  let after := getDashboardStats ex_db_sold 1733270400000 "bob" in
  totalOrders before = 0%nat
  /\ totalOrders after = 1%nat
  /\ totalSalesToday after = totalSalesToday before + 20000.
Proof.
  cbv zeta.
  destruct (game_sale_shows_on_dashboard (ex_env 1733300000000 "a")
              (ex_game_body None) ex_db ex_db_sold "a0" "INV-M49M2FI8" 20000
              (Business.mk "b1" "Garage" "alice" (Some "rp_garage"))
              1733270400000 "bob")
    as (_ & Hmine & _).
  - vm_compute. reflexivity.
  - reflexivity.
  - cbn. lia.
  - destruct Hmine as [Horders Hsum]; [vm_compute; now left|].
    split; [reflexivity|]. split; [vm_compute; reflexivity|exact Hsum].
Defined.

Example dashboard_ex :
  getDashboardStats ex_db_sold 1733270400000 "alice" = mkStats 20000 1 1 1
  /\ getDashboardStats ex_db_sold 1733270400000 "carol" = mkStats 0 0 0 1
  /\ getDashboardStats ex_db_sold 1733270400000 "erin" = mkStats 0 0 0 0.
Proof. vm_compute. repeat split; reflexivity. Qed.

(** ** Staying inside a business *)

(** X22.  The product routes keep a user out of a business the user is not
    authorized for: for a product of such a business, reading it by id
    answers 403 and updating or deleting it answers 403 and changes nothing;
    creating a product in such a business changes nothing and answers 403,
    or 400 when the body does not pass the schema. *)
Theorem product_routes_refuse_the_unauthorized :
  forall env userId db,
    (forall productId p body,
        getProduct db productId = Some p ->
        isUserAuthorizedForBusiness db userId (Product.businessId p) = false ->
        get_product userId productId db
        = refuse 403 "Not authorized to access this product"
        /\ patch_products env userId productId body db
           = (db, json 403 "Not authorized to update this product")
        /\ delete_products userId productId db
           = (db, refuse 403 "Only the owner can delete products"))
    /\ (forall data,
           isUserAuthorizedForBusiness db userId (ProductBody.businessId data)
           = false ->
           fst (post_products env userId data db) = db
           /\ (snd (post_products env userId data db)
               = refuse 403 "Not authorized to add products to this business"
               \/ snd (post_products env userId data db)
                  = refuse 400 "Failed to create product")).
Proof.
  intros env userId db. split.
  - intros productId p body Hp Hunauth.
    unfold get_product, patch_products, delete_products.
    rewrite Hp, Hunauth. cbn [negb].
    rewrite (not_owner_of_unauthorized _ _ _ Hunauth). auto.
  - intros data Hunauth. unfold post_products. rewrite Hunauth.
    destruct (negb _); cbn; auto.
Qed.

Lemma product_routes_refuse_the_unauthorized_witness :
  get_product "dave" "p1" ex_db
  = refuse 403 "Not authorized to access this product"
  /\ patch_products (ex_env 1733300000000 "a") "dave" "p1" ex_patch ex_db
     = (ex_db, json 403 "Not authorized to update this product")
  /\ delete_products "dave" "p1" ex_db
     = (ex_db, refuse 403 "Only the owner can delete products").
Proof.
  apply (proj1 (product_routes_refuse_the_unauthorized
                  (ex_env 1733300000000 "a") "dave" ex_db)
           "p1"
           (Product.mk "p1" "b1" "Wrench" None 10000 (Some 3) None (Some true)
                       None)
           ex_patch).
  - reflexivity.
  - reflexivity.
Defined.

(** X23.  In a database whose employee rows reference existing businesses,
    [getEmployees(userId)] lists the employee rows of exactly the
    businesses the user is authorized for, those of co-workers included,
    each with its user and business. *)
Theorem getEmployees_lists_rows_of_the_authorized :
  forall db userId e user business,
    employees_reference_businesses db ->
    (In (e, user, business) (getEmployees db userId)
     <-> In e (businessEmployees db)
         /\ user = getUser db (BusinessEmployee.userId e)
         /\ business = find (fun b => String.eqb
                                        (Business.id b)
                                        (BusinessEmployee.businessId e))
                            (businesses db)
         /\ isUserAuthorizedForBusiness db userId
                                        (BusinessEmployee.businessId e) = true).
Proof.
  intros db userId e user business Hrefs.
  rewrite <- (getBusinesses_ids db userId (BusinessEmployee.businessId e)
                Hrefs).
  unfold getEmployees.
  destruct (map business_id (getBusinesses db userId)) as [|b0 ids] eqn:Eids.
  - cbn. tauto.
  - rewrite filter_In, in_map_iff, has_id_true. cbn [fst]. split.
    + intros [(e0 & Heq & He0) Hin]. inversion Heq; subst. auto.
    + intros (He & -> & -> & Hin). split; [|exact Hin].
      exists e. split; [reflexivity|exact He].
Qed.

Lemma getEmployees_lists_rows_of_the_authorized_witness :
  let e := BusinessEmployee.mk "e1" "b1" "bob" (Some RoleEmployee) in
  In (e, getUser ex_db "bob", getBusinessByApiKey ex_db "rp_garage")
     (getEmployees ex_db "alice")
  <-> In e (businessEmployees ex_db)
      /\ getUser ex_db "bob" = getUser ex_db (BusinessEmployee.userId e)
      /\ getBusinessByApiKey ex_db "rp_garage"
         = find (fun b => String.eqb (Business.id b)
                                     (BusinessEmployee.businessId e))
                (businesses ex_db)
      /\ isUserAuthorizedForBusiness ex_db "alice"
                                     (BusinessEmployee.businessId e) = true.
Proof.
  apply (getEmployees_lists_rows_of_the_authorized ex_db "alice").
  intros e [<-|[<-|[]]]; cbn; auto.
Defined.

Lemma resolve_seller_authorized db business sellerId :
  In business (businesses db) ->
  isUserAuthorizedForBusiness db (resolve_seller db business sellerId)
                              (Business.id business) = true.
Proof.
  intros Hin.
  assert (Howner : isUserAuthorizedForBusiness db (Business.ownerId business)
                     (Business.id business) = true).
  { apply authorized_spec. left. exists business. auto. }
  unfold resolve_seller. destruct sellerId as [s|]; [|exact Howner].
  destruct (nonempty s); [|exact Howner].
  destruct (isUserAuthorizedForBusiness db s (Business.id business)) eqn:E;
    [exact E|exact Howner].
Qed.

(** X24.  A sale that is created stays inside its business, on both
    endpoints: the seller recorded in the new sale row is authorized for the
    sale's business (the caller on the web; the owner or a member on the game
    path), and every item row of the sale names a product of that
    business. *)
Theorem created_sale_stays_inside_its_business :
  (forall env userId data db db' body,
      post_sales env userId data db = (db', mkResponse 201 body) ->
      exists sale rows,
        sales db' = (sales db ++ [sale])%list
        /\ saleItems db' = (saleItems db ++ rows)%list
        /\ isUserAuthorizedForBusiness db (Sale.sellerId sale)
                                       (Sale.businessId sale) = true
        /\ forall row, In row rows ->
                       exists p, getProduct db (SaleItem.productId row) = Some p
                                 /\ Product.businessId p = Sale.businessId sale)
  /\ (forall env data db db' body,
         post_game_sales env data db = (db', mkResponse 201 body) ->
         exists sale rows,
           sales db' = (sales db ++ [sale])%list
           /\ saleItems db' = (saleItems db ++ rows)%list
           /\ isUserAuthorizedForBusiness db (Sale.sellerId sale)
                                          (Sale.businessId sale) = true
           /\ forall row, In row rows ->
                          exists p,
                            getProduct db (SaleItem.productId row) = Some p
                            /\ Product.businessId p = Sale.businessId sale).
Proof.
  split.
  - intros env userId data db db' body H201.
    destruct (post_sales_created_checked _ _ _ _ _ _ H201)
      as (_ & Hauth & Hverified).
    apply post_sales_created in H201. cbv zeta in H201.
    destruct H201 as (_ & -> & _).
    match goal with
    | |- context [sale_persisted env ?sd ?its db] =>
        destruct (sale_persisted_tables env sd its db)
          as (_ & _ & _ & _ & Hsales & Hrows & _);
        exists (sale_row env sd)
    end.
    exists (item_rows env (gen_random_uuid env 0) 1 (SalesBody.items data)).
    split; [exact Hsales|]. split; [exact Hrows|]. split; [exact Hauth|].
    intros row Hrow. apply item_rows_In in Hrow.
    destruct Hrow as (item & Hitem & _ & Hid & _).
    destruct (verify_items_none _ _ _ Hverified item Hitem) as (p & Hp & Hb & _).
    exists p. rewrite Hid. auto.
  - intros env data db db' body H201.
    apply post_game_sales_created in H201.
    destruct H201 as (business & items & totalAmount & Hkey & Hitems & H).
    cbv zeta in H. destruct H as (_ & -> & _).
    apply resolve_items_inr in Hitems.
    destruct Hitems as (new & -> & Hall & _). cbn [app].
    match goal with
    | |- context [sale_persisted env ?sd ?its db] =>
        destruct (sale_persisted_tables env sd its db)
          as (_ & _ & _ & _ & Hsales & Hrows & _);
        exists (sale_row env sd)
    end.
    exists (item_rows env (gen_random_uuid env 0) 1 new).
    split; [exact Hsales|]. split; [exact Hrows|]. split.
    + cbn. apply resolve_seller_authorized.
      unfold getBusinessByApiKey in Hkey. apply find_some in Hkey. apply Hkey.
    + intros row Hrow. apply item_rows_In in Hrow.
      destruct Hrow as (item & Hitem & _ & Hid & _).
      destruct (Forall2_In_r _ _ _ _ Hall Hitem)
        as (line & _ & p & Hp & Hb & _ & ->).
      exists p. rewrite Hid. cbn. split; [|exact Hb].
      now rewrite (getProduct_id _ _ _ Hp).
Qed.

Lemma created_sale_stays_inside_its_business_witness :
  exists sale rows,
    sales ex_db_sold = (sales ex_db ++ [sale])%list
    /\ saleItems ex_db_sold = (saleItems ex_db ++ rows)%list
    /\ isUserAuthorizedForBusiness ex_db (Sale.sellerId sale)
                                   (Sale.businessId sale) = true
    /\ forall row, In row rows ->
                   exists p, getProduct ex_db (SaleItem.productId row) = Some p
                             /\ Product.businessId p = Sale.businessId sale.
Proof.
  apply (proj2 created_sale_stays_inside_its_business
           (ex_env 1733300000000 "a") (ex_game_body None) ex_db ex_db_sold
           (GameSaleJson "a0" "INV-M49M2FI8" 20000)).
  vm_compute. reflexivity.
Defined.
